(** * Canadian public-sector bid scraper: ingestion and reconciliation pipeline

    A shallow embedding of the classification, prioritisation, persistence
    and orchestration code of [main.py], [tasks.py] and [scrapers.py],
    followed by the properties of the specification that were checked
    against it.

    Conventions of the embedding
    - a Python [str] is a [string] (a sequence of bytes, UTF-8 for the
      accented keywords); [kw in text] is [contains kw text];
    - a naive UTC [datetime] is an integer number of microseconds
      ([Z]); [timedelta.days] is the floor division by one day;
    - a Python [float] holding a parsed amount is a rational ([Q]);
    - library calls whose result the code only passes around
      ([str.lower], [hashlib.md5] over [json.dumps], [list(set(..))],
      the clock, the web drivers) are parameters of the development. *)

From Stdlib Require Import Ascii String QArith.
From stdpp Require Import gmap strings list.

Open Scope string_scope.
Open Scope list_scope.

(** ** Strings *)

(** [needle in hay] for Python strings: [needle] occurs as a contiguous
    substring of [hay]. *)
Fixpoint contains (needle hay : string) : bool :=
  String.prefix needle hay ||
  match hay with
  | EmptyString => false
  | String _ rest => contains needle rest
  end.

(** [str.lower] restricted to the ASCII letters; it agrees with Python on
    every text without upper-case letters outside ASCII, and is the
    instance used when the development is evaluated on concrete texts. *)
Definition ascii_lower_char (c : ascii) : ascii :=
  let n := nat_of_ascii c in
  if (65 <=? n)%nat && (n <=? 90)%nat then ascii_of_nat (n + 32) else c.

Fixpoint ascii_lower (s : string) : string :=
  match s with
  | EmptyString => EmptyString
  | String c rest => String (ascii_lower_char c) (ascii_lower rest)
  end.

(** ** The course taxonomy ([TKA_COURSES]) *)

Module Cfg.
Record t := mk { keywords : list string; courses : list string }.
End Cfg.

Definition TKA_COURSES : list (string * Cfg.t) :=
  [ ("project-management",
     Cfg.mk
       ["prince2"; "pmp"; "project management"; "capm"; "msp"; "portfolio";
        "program management"; "pmo"; "agile project"; "pmbok"; "pmi"]
       ["PRINCE2 Foundation"; "PRINCE2 Practitioner"; "PRINCE2 Agile";
        "PMP Certification"; "CAPM"; "MSP"; "Portfolio Management";
        "Program Management"]);
    ("it-technical",
     Cfg.mk
       ["itil"; "cloud"; "aws"; "azure"; "devops"; "docker"; "kubernetes";
        "linux"; "python"; "java"; "database"; "sql"; "cisco"; "vmware";
        "microsoft"; "oracle"; "sap"]
       ["ITIL 4 Foundation"; "AWS Solutions Architect"; "Azure Fundamentals";
        "DevOps Certification"; "Linux Administration"; "Python Programming";
        "Java Development"]);
    ("cybersecurity",
     Cfg.mk
       ["security"; "cyber"; "cissp"; "ethical hacking"; "penetration";
        "iso 27001"; "gdpr"; "ceh"; "comptia security"; "firewall"; "soc";
        "siem"; "incident response"]
       ["CISSP Certification"; "Ethical Hacking"; "ISO 27001";
        "Security Awareness"; "CompTIA Security+"; "CEH";
        "Penetration Testing"]);
    ("agile-scrum",
     Cfg.mk
       ["agile"; "scrum"; "safe"; "kanban"; "sprint"; "product owner";
        "scrum master"; "lean"; "jira"; "confluence"; "retrospective";
        "backlog"]
       ["Scrum Master Certification"; "Product Owner Certification";
        "SAFe Agilist"; "Agile Coach"; "Kanban Training"]);
    ("leadership",
     Cfg.mk
       ["leadership"; "management"; "executive"; "coaching";
        "change management"; "transformation"; "strategic"; "team building";
        "communication"; "stakeholder"]
       ["Leadership Excellence"; "Executive Coaching"; "Change Management";
        "Strategic Leadership"; "Team Leadership"]);
    ("data-analytics",
     Cfg.mk
       ["data"; "analytics"; "power bi"; "tableau"; "excel";
        "business intelligence"; "visualization"; "reporting"; "dashboard";
        "kpi"; "metrics"; "sql"]
       ["Power BI Training"; "Tableau Certification"; "Advanced Excel";
        "Data Analytics"; "Business Intelligence"; "SQL for Analytics"]);
    ("soft-skills",
     Cfg.mk
       ["communication"; "presentation"; "negotiation"; "time management";
        "emotional intelligence"; "conflict"; "teamwork"; "public speaking";
        "writing"]
       ["Presentation Skills"; "Negotiation Skills"; "Time Management";
        "Business Communication"; "Emotional Intelligence";
        "Conflict Resolution"]);
    ("compliance",
     Cfg.mk
       ["compliance"; "audit"; "risk management"; "governance"; "quality";
        "iso"; "regulatory"; "health safety"; "privacy"; "sox"; "grc"]
       ["ISO 9001"; "Risk Management"; "Compliance Training";
        "Internal Auditor"; "Health & Safety"; "GDPR Compliance"]) ].

(** [TKA_COURSES[category]] / [category in TKA_COURSES]. *)
Fixpoint dict_get {V : Type} (d : list (string * V)) (k : string) : option V :=
  match d with
  | [] => None
  | (k', v) :: rest => if String.eqb k' k then Some v else dict_get rest k
  end.

(** ** Classifier *)

Section Classifier.

(** [str.lower] *)
Variable lower : string -> string.

(** [sum(1 for keyword in config['keywords'] if keyword in text_lower)] *)
Definition keyword_matches (text_lower : string) (kws : list string) : nat :=
  length (List.filter (fun keyword => contains keyword text_lower) kws).

Definition _extract_categories_from_text (text : string) : list string :=
  let text_lower := lower text in
  fold_left
    (fun categories '(category, config) =>
       let matches := keyword_matches text_lower (Cfg.keywords config) in
       if (2 <=? matches)%nat then categories ++ [category] else categories)
    TKA_COURSES [].

(** The inner loop of [_extract_keywords_from_text]: append each keyword
    found in the text that is not yet in the list. *)
Definition collect_keywords (text_lower : string)
    (keywords kws : list string) : list string :=
  fold_left
    (fun keywords keyword =>
       if contains keyword text_lower
          && negb (existsb (String.eqb keyword) keywords)
       then keywords ++ [keyword] else keywords)
    kws keywords.

Definition _extract_keywords_from_text (text : string) : list string :=
  let text_lower := lower text in
  take 10
    (fold_left
       (fun keywords '(_, config) =>
          collect_keywords text_lower keywords (Cfg.keywords config))
       TKA_COURSES []).

End Classifier.

(** ** Canonical record and stored row *)

(** The dictionary an extractor yields (and [_process_tenders] enriches),
    restricted to the keys the extractors of the repository produce. A key
    every extractor sets is a plain field; a key that some producer omits
    is an [option] whose [None] stands for the absent key
    ([tender_id], [portal], [portal_url], [matching_courses], [priority]).
    For the two dates [None] is Python's [None]. *)

(** What [parse_date] and [_parse_date] return for a text that is not
    empty: a [datetime] (from [strptime], or a pandas Timestamp, which is
    one), or the pandas [NaT] that [pd.to_datetime(date_str,
    errors='coerce')] gives for a text it cannot read. *)
Inductive PyDate :=
| DateTime (t : Z)
| NaT.

Module TenderDict.
Record t := mk {
  tender_id : option string;
  title : string;
  organization : string;
  portal : option string;
  portal_url : option string;
  value : Q;
  closing_date : option PyDate;
  posted_date : option PyDate;
  description : string;
  location : string;
  tender_url : string;
  categories : list string;
  keywords : list string;
  matching_courses : option (list string);
  priority : option string
}.
End TenderDict.

(** [tender_data['matching_courses'] = v] and [tender_data['priority'] = v] *)
Definition set_matching_courses (tender_data : TenderDict.t) (v : list string)
    : TenderDict.t :=
  {| TenderDict.tender_id := TenderDict.tender_id tender_data;
     TenderDict.title := TenderDict.title tender_data;
     TenderDict.organization := TenderDict.organization tender_data;
     TenderDict.portal := TenderDict.portal tender_data;
     TenderDict.portal_url := TenderDict.portal_url tender_data;
     TenderDict.value := TenderDict.value tender_data;
     TenderDict.closing_date := TenderDict.closing_date tender_data;
     TenderDict.posted_date := TenderDict.posted_date tender_data;
     TenderDict.description := TenderDict.description tender_data;
     TenderDict.location := TenderDict.location tender_data;
     TenderDict.tender_url := TenderDict.tender_url tender_data;
     TenderDict.categories := TenderDict.categories tender_data;
     TenderDict.keywords := TenderDict.keywords tender_data;
     TenderDict.matching_courses := Some v;
     TenderDict.priority := TenderDict.priority tender_data |}.

Definition set_priority (tender_data : TenderDict.t) (v : string) : TenderDict.t :=
  {| TenderDict.tender_id := TenderDict.tender_id tender_data;
     TenderDict.title := TenderDict.title tender_data;
     TenderDict.organization := TenderDict.organization tender_data;
     TenderDict.portal := TenderDict.portal tender_data;
     TenderDict.portal_url := TenderDict.portal_url tender_data;
     TenderDict.value := TenderDict.value tender_data;
     TenderDict.closing_date := TenderDict.closing_date tender_data;
     TenderDict.posted_date := TenderDict.posted_date tender_data;
     TenderDict.description := TenderDict.description tender_data;
     TenderDict.location := TenderDict.location tender_data;
     TenderDict.tender_url := TenderDict.tender_url tender_data;
     TenderDict.categories := TenderDict.categories tender_data;
     TenderDict.keywords := TenderDict.keywords tender_data;
     TenderDict.matching_courses := TenderDict.matching_courses tender_data;
     TenderDict.priority := Some v |}.

(** A row of table [tenders] (class [Tender]); nullable columns that the
    pipeline may leave unset are options, the four JSON columns hold the
    serialised text. *)
Module Tender.
Record t := mk {
  id : string;
  tender_id : string;
  title : string;
  organization : string;
  portal : option string;
  portal_url : option string;
  value : Q;
  closing_date : option Z;
  posted_date : option Z;
  description : string;
  location : string;
  categories : string;
  keywords : string;
  contact_email : option string;
  contact_phone : option string;
  tender_url : string;
  documents_url : option string;
  last_updated : Z;
  is_active : bool;
  hash : string;
  priority : option string;
  matching_courses : string;
  download_count : Z;
  attachments : string
}.
End Tender.

(** The table: its rows, oldest first. *)
Definition Store := list Tender.t.

(** The constraints the schema declares: [id] is the primary key and
    [tender_id] is [unique]. *)
Definition db_ok (db : Store) : Prop :=
  NoDup (map Tender.id db) /\ NoDup (map Tender.tender_id db).

(** One day, in microseconds. *)
Definition day_us : Z := 86400000000.

(** [(a - b).days] *)
Definition timedelta_days (a b : Z) : Z := (a - b) / day_us.

(** [a > b] and [a >= b] on amounts. *)
Definition Qgtb (a b : Q) : bool := negb (Qle_bool a b).
Definition Qgeb (a b : Q) : bool := Qle_bool b a.

(** ** Matcher and prioritiser ([TenderMatcher]) *)

(** ASCII white space, as [str.split()] sees it. *)
Definition is_space (c : ascii) : bool :=
  let n := nat_of_ascii c in
  ((9 <=? n) && (n <=? 13) || (28 <=? n) && (n <=? 32))%nat.

Fixpoint split_from (s : string) (cur : string) : list string :=
  match s with
  | EmptyString => if String.eqb cur EmptyString then [] else [cur]
  | String c rest =>
      if is_space c
      then (if String.eqb cur EmptyString then split_from rest EmptyString
            else cur :: split_from rest EmptyString)
      else split_from rest (cur +:+ String c EmptyString)
  end.

(** [s.split()] *)
Definition split (s : string) : list string := split_from s EmptyString.

(** [sep.join(parts)] *)
Definition join (sep : string) (parts : list string) : string :=
  String.concat sep parts.

Section Matcher.

Variable lower : string -> string.
(** [list(set(xs))]: the distinct elements of [xs] in the order the
    interpreter's hash table yields them. *)
Variable list_of_set : list string -> list string.

(** The three-way test of [match_courses] on one course. *)
Definition course_matches (tender_text : string) (config : Cfg.t)
    (course : string) : bool :=
  let course_keywords := split (lower course) in
  if contains (lower course) tender_text then true
  else if existsb (fun kw => contains kw tender_text)
            (List.filter (fun kw => (3 <? String.length kw)%nat)
               course_keywords)
  then true
  else existsb (fun kw => contains kw tender_text)
         (take 5 (Cfg.keywords config)).

Definition match_courses (tender : TenderDict.t) : list string :=
  let tender_text :=
    lower (TenderDict.title tender +:+ " " +:+
           TenderDict.description tender +:+ " " +:+
           join " " (TenderDict.keywords tender)) in
  let matching_courses :=
    fold_left
      (fun acc category =>
         match dict_get TKA_COURSES category with
         | Some config =>
             acc ++ List.filter (course_matches tender_text config)
                      (Cfg.courses config)
         | None => acc
         end)
      (TenderDict.categories tender) [] in
  take 5 (list_of_set matching_courses).

(** [(closing_date - datetime.utcnow()).days < n]. For NaT the difference
    is NaT again, its [days] is nan, and a comparison with nan is False. *)
Definition days_until_lt (closing_date : PyDate) (now n : Z) : bool :=
  match closing_date with
  | DateTime closing_date => (timedelta_days closing_date now <? n)%Z
  | NaT => false
  end.

(** [calculate_priority], with the reading of [datetime.utcnow()] passed
    in as [now]. NaT is truthy, so [if not closing_date] lets it pass. *)
Definition calculate_priority (now : Z) (tender : TenderDict.t) : string :=
  let value := TenderDict.value tender in
  let closing_date := TenderDict.closing_date tender in
  let matching_courses := default [] (TenderDict.matching_courses tender) in
  let categories := TenderDict.categories tender in
  match closing_date with
  | None => "low"
  | Some closing_date =>
      let days_until_closing_lt := days_until_lt closing_date now in
      if Qgtb value 1000000
         || days_until_closing_lt 7%Z
         || (3 <=? length matching_courses)%nat
         || (2 <=? length categories)%nat
      then "high"
      else if Qgtb value 500000
              || days_until_closing_lt 14%Z
              || (1 <=? length matching_courses)%nat
      then "medium"
      else "low"
  end.

End Matcher.

(** ** Reconciliation store ([save_tender_to_db]) *)

(** The object returned by [query.first()] is updated in place: only the
    first row that satisfies [p] changes. *)
Fixpoint update_first (p : Tender.t -> bool) (f : Tender.t -> Tender.t)
    (db : Store) : Store :=
  match db with
  | [] => []
  | r :: rest => if p r then f r :: rest else r :: update_first p f rest
  end.

(** [f"{tender_data.get('portal', 'unknown')}_{tender_id}"] *)
Definition derived_id (portal : option string) (tender_id : string) : string :=
  default "unknown" portal +:+ "_" +:+ tender_id.

(** What a DateTime column holds for a date of the dictionary: the
    [datetime], or NULL for [None]. NaT is no value of the column: the
    statement that carries one is refused (see [storable]). *)
Definition column_date (d : option PyDate) : option Z :=
  match d with
  | Some (DateTime t) => Some t
  | Some NaT => None
  | None => None
  end.

Definition is_nat (d : option PyDate) : bool :=
  match d with
  | Some NaT => true
  | _ => false
  end.

(** Whether the database accepts the values of the record: the INSERT or
    UPDATE that [db.commit()] flushes raises when a date is NaT. *)
Definition storable (tender_data : TenderDict.t) : bool :=
  negb (is_nat (TenderDict.closing_date tender_data))
  && negb (is_nat (TenderDict.posted_date tender_data)).

Section Persistence.

(** [hashlib.md5(json.dumps(tender_data, sort_keys=True, default=str)
    .encode()).hexdigest()] *)
Variable content_hash : TenderDict.t -> string.
(** [json.dumps] of a list of strings. *)
Variable json_dumps : list string -> string.

(** The [setattr] loop over [tender_data.items()], then the refresh of
    [hash] and [last_updated]. Keys absent from the dictionary leave the
    column as it is. *)
Definition apply_update (now : Z) (tid : string) (tender_hash : string)
    (td : TenderDict.t) (existing : Tender.t) : Tender.t :=
  {| Tender.id := Tender.id existing;
     Tender.tender_id := tid;
     Tender.title := TenderDict.title td;
     Tender.organization := TenderDict.organization td;
     Tender.portal :=
       match TenderDict.portal td with
       | Some p => Some p
       | None => Tender.portal existing
       end;
     Tender.portal_url :=
       match TenderDict.portal_url td with
       | Some u => Some u
       | None => Tender.portal_url existing
       end;
     Tender.value := TenderDict.value td;
     Tender.closing_date := column_date (TenderDict.closing_date td);
     Tender.posted_date := column_date (TenderDict.posted_date td);
     Tender.description := TenderDict.description td;
     Tender.location := TenderDict.location td;
     Tender.categories := json_dumps (TenderDict.categories td);
     Tender.keywords := json_dumps (TenderDict.keywords td);
     Tender.contact_email := Tender.contact_email existing;
     Tender.contact_phone := Tender.contact_phone existing;
     Tender.tender_url := TenderDict.tender_url td;
     Tender.documents_url := Tender.documents_url existing;
     Tender.last_updated := now;
     Tender.is_active := Tender.is_active existing;
     Tender.hash := tender_hash;
     Tender.priority :=
       match TenderDict.priority td with
       | Some p => Some p
       | None => Tender.priority existing
       end;
     Tender.matching_courses :=
       match TenderDict.matching_courses td with
       | Some l => json_dumps l
       | None => Tender.matching_courses existing
       end;
     Tender.download_count := Tender.download_count existing;
     Tender.attachments := Tender.attachments existing |}.

(** The new [Tender(...)] object with the column defaults
    ([last_updated], [is_active], [download_count]) filled in on insert. *)
Definition new_tender (now : Z) (tid : string) (tender_hash : string)
    (td : TenderDict.t) : Tender.t :=
  {| Tender.id := derived_id (TenderDict.portal td) tid;
     Tender.tender_id := tid;
     Tender.title := TenderDict.title td;
     Tender.organization := TenderDict.organization td;
     Tender.portal := TenderDict.portal td;
     Tender.portal_url := TenderDict.portal_url td;
     Tender.value := TenderDict.value td;
     Tender.closing_date := column_date (TenderDict.closing_date td);
     Tender.posted_date := column_date (TenderDict.posted_date td);
     Tender.description := TenderDict.description td;
     Tender.location := TenderDict.location td;
     Tender.categories := json_dumps (TenderDict.categories td);
     Tender.keywords := json_dumps (TenderDict.keywords td);
     Tender.contact_email := None;
     Tender.contact_phone := None;
     Tender.tender_url := TenderDict.tender_url td;
     Tender.documents_url := None;
     Tender.last_updated := now;
     Tender.is_active := true;
     Tender.hash := tender_hash;
     Tender.priority := TenderDict.priority td;
     Tender.matching_courses :=
       json_dumps (default [] (TenderDict.matching_courses td));
     Tender.download_count := 0;
     Tender.attachments := json_dumps [] |}.

(** [save_tender_to_db db tender_data]: the flag it returns and the table
    after the call. [now] is the clock reading of the call. Both writes
    end in [db.commit()] inside the [try]: when the commit raises, the
    handler rolls back, the table is as before the call and the function
    returns [False]. The commit raises for an insert whose [id] is already
    taken (primary key) and, for an insert as for an update, when the
    record is not [storable]. *)
Definition save_tender_to_db (now : Z) (db : Store) (tender_data : TenderDict.t)
    : bool * Store :=
  match TenderDict.tender_id tender_data with
  | None => (false, db)
  | Some tender_id =>
      if String.eqb tender_id EmptyString then (false, db)
      else
        let tender_hash := content_hash tender_data in
        match List.find (fun r => String.eqb (Tender.tender_id r) tender_id) db with
        | Some existing_tender =>
            if negb (String.eqb (Tender.hash existing_tender) tender_hash)
            then
              if storable tender_data
              then (false,
                    update_first
                      (fun r => String.eqb (Tender.tender_id r) tender_id)
                      (apply_update now tender_id tender_hash tender_data) db)
              else (false, db)
            else (false, db)
        | None =>
            let new_row := new_tender now tender_id tender_hash tender_data in
            if existsb (fun r => String.eqb (Tender.id r) (Tender.id new_row)) db
            then (false, db)
            else if storable tender_data
            then (true, db ++ [new_row])
            else (false, db)
        end
  end.

(** Several calls in sequence, each with its own clock reading. *)
Definition save_all (db : Store) (runs : list (Z * TenderDict.t)) : Store :=
  fold_left (fun db '(now, td) => snd (save_tender_to_db now db td)) runs db.

End Persistence.

(** ** Orchestrator ([tasks.py]) *)

(** The entries of [PORTAL_CONFIGS] that the orchestrator reads:
    [config['name']] and [config.get('requires_selenium', False)]. *)
Module Portal.
Record t := mk { name : string; requires_selenium : option bool }.
End Portal.

Definition PORTAL_CONFIGS : list (string * Portal.t) :=
  [ ("canadabuys", Portal.mk "CanadaBuys" None);
    ("merx", Portal.mk "MERX" (Some true));
    ("biddingo", Portal.mk "Biddingo" (Some true));
    ("bcbid", Portal.mk "BC Bid" (Some true));
    ("albertapurchasing", Portal.mk "Alberta Purchasing Connection" (Some true));
    ("sasktenders", Portal.mk "SaskTenders" (Some true));
    ("manitoba", Portal.mk "Manitoba Tenders" (Some false));
    ("ontario", Portal.mk "Ontario Tenders Portal" (Some true));
    ("seao", Portal.mk "SEAO Quebec" (Some true));
    ("nbon", Portal.mk "New Brunswick Opportunities Network" (Some true));
    ("ns", Portal.mk "Nova Scotia Tenders" (Some true));
    ("pei", Portal.mk "PEI Tenders" (Some false));
    ("nl", Portal.mk "Newfoundland Procurement" (Some false));
    ("toronto", Portal.mk "City of Toronto" (Some true));
    ("vancouver", Portal.mk "City of Vancouver" (Some true));
    ("montreal", Portal.mk "City of Montreal" (Some true));
    ("calgary", Portal.mk "City of Calgary" (Some true));
    ("edmonton", Portal.mk "City of Edmonton" (Some true));
    ("ottawa", Portal.mk "City of Ottawa" (Some true));
    ("winnipeg", Portal.mk "City of Winnipeg" (Some false));
    ("quebec_city", Portal.mk "Quebec City" (Some true));
    ("halifax", Portal.mk "Halifax Regional Municipality" (Some true));
    ("london", Portal.mk "City of London" (Some true));
    ("hamilton", Portal.mk "City of Hamilton" (Some true));
    ("kitchener", Portal.mk "City of Kitchener" (Some true));
    ("regina", Portal.mk "City of Regina" (Some true));
    ("saskatoon", Portal.mk "City of Saskatoon" (Some true));
    ("buybc", Portal.mk "Buy BC Health" (Some true));
    ("mohltc", Portal.mk "Ontario Health" (Some true)) ].

(** A value of [SCRAPER_DISPATCHER]: a string, or a function object, which
    the orchestrator only calls and asks for its [__name__]. *)
Inductive ScraperRef :=
| RefStr (s : string)
| RefFn (name : string).

Definition SCRAPER_DISPATCHER : list (string * ScraperRef) :=
  [ ("canadabuys", RefStr "scan_canadabuys");
    ("merx", RefStr "scan_merx");
    ("bcbid", RefStr "scan_bcbid");
    ("seao", RefStr "scan_seao");
    ("toronto", RefStr "scan_ariba_portal");
    ("biddingo", RefStr "scan_biddingo");
    ("london", RefStr "scan_biddingo");
    ("hamilton", RefStr "scan_biddingo");
    ("kitchener", RefStr "scan_biddingo");
    ("albertapurchasing", RefFn "scan_alberta_purchasing");
    ("sasktenders", RefFn "scan_saskatchewan_tenders");
    ("manitoba", RefFn "scan_manitoba_tenders");
    ("ontario", RefFn "scan_ontario_tenders");
    ("ns", RefFn "scan_ns_tenders");
    ("ottawa", RefFn "scan_ottawa_bids");
    ("edmonton", RefFn "scan_edmonton_bids");
    ("calgary", RefFn "scan_calgary_procurement");
    ("winnipeg", RefFn "scan_winnipeg_bids");
    ("vancouver", RefFn "scan_vancouver_procurement");
    ("halifax", RefFn "scan_halifax_procurement");
    ("regina", RefFn "scan_regina_procurement");
    ("nbon", RefFn "scan_nbon_newbrunswick");
    ("pei", RefFn "scan_pei_tenders");
    ("nl", RefFn "scan_nl_procurement");
    ("buybc", RefFn "scan_buybc_health");
    ("mohltc", RefFn "scan_ontario_health");
    ("montreal", RefStr "seao");
    ("quebec_city", RefStr "seao");
    ("saskatoon", RefStr "sasktenders") ].

(** The names for which [hasattr(scanner, name)] holds on a
    [ProcurementScanner]. *)
Definition scanner_attributes : list string :=
  [ "selenium"; "session"; "download_dir"; "data_dir"; "get_session";
    "close_session"; "extract_zip_recursively"; "scan_canadabuys";
    "_parse_canadabuys_row"; "scan_ariba_portal";
    "_download_ariba_attachments"; "scan_merx"; "_parse_merx_opportunity";
    "scan_biddingo"; "_parse_biddingo_opportunity"; "scan_bcbid";
    "_parse_bcbid_row"; "scan_seao"; "_parse_seao_opportunity";
    "_extract_description_from_soup"; "_parse_date_text";
    "_is_training_related"; "_extract_categories_from_text";
    "_extract_keywords_from_text"; "_parse_value"; "_parse_date" ].

(** The result of a call that may raise: the value, or [str(e)]. *)
Inductive Outcome (A : Type) :=
| Returned (a : A)
| Raised (msg : string).
Arguments Returned {A} a.
Arguments Raised {A} msg.

(** [{'found': .., 'new': .., 'updated': ..}] *)
Module PortalResults.
Record t := mk { found : nat; new : nat; updated : nat }.
End PortalResults.

(** The report of a batch. [by_portal] is keyed by portal name. *)
Module Results.
Record t := mk {
  scanned : list string;
  total_found : nat;
  new_tenders : nat;
  updated_tenders : nat;
  errors : list (string * string);
  by_portal : gmap string PortalResults.t
}.
End Results.

(** The report [scan_specific_portals_task] starts from. *)
Definition initial_results : Results.t :=
  Results.mk [] 0 0 0 [] ∅.

Section Orchestrator.

Variable lower : string -> string.
Variable list_of_set : list string -> list string.
Variable content_hash : TenderDict.t -> string.
Variable json_dumps : list string -> string.

(** Everything outside the process: the clock, the browser grid and the
    portals. A call consumes the world and returns the next one. *)
Variable World : Type.
(** [datetime.utcnow()] *)
Variable utcnow : World -> Z * World.
(** [scanner.selenium.get_driver()] *)
Variable get_driver : World -> Outcome unit * World.
(** [await scraper_func_ref(driver, scanner.selenium)] and
    [await scraper_func_ref(session)], by the function's name. The
    orchestrator's [try] covers the call whatever it does; the extractors
    of [scrapers.py] themselves let no exception through (see
    [guarded_extractor] below). *)
Variable call_static : string -> World -> Outcome (list TenderDict.t) * World.
(** [await method_to_call(config['name'], config)] ([Some name]) and
    [await method_to_call()] ([None]) on the scanner instance. *)
Variable call_method :
  string -> option string -> World -> Outcome (list TenderDict.t) * World.

(** What the batch carries from one portal to the next. [driver] tells
    whether the shared driver has been obtained. *)
Record BatchState := mkBatch {
  world : World;
  db : Store;
  results : Results.t;
  driver : bool
}.

(** The body of the [for tender_data in tenders] loop. The clock is read
    by [calculate_priority] when the record has a closing date (without
    one the reading is not made and the result is low whatever [now]
    is), and once for the call of [save_tender_to_db]. *)
Definition process_one
    (acc : World * Store * PortalResults.t * Results.t)
    (tender_data : TenderDict.t)
    : World * Store * PortalResults.t * Results.t :=
  let '(w, db, portal_results, results) := acc in
  let tender_data :=
    set_matching_courses tender_data
      (match_courses lower list_of_set tender_data) in
  let '(priority, w) :=
    match TenderDict.closing_date tender_data with
    | None => (calculate_priority 0 tender_data, w)
    | Some _ => let '(now, w) := utcnow w in
                (calculate_priority now tender_data, w)
    end in
  let tender_data := set_priority tender_data priority in
  let '(now, w) := utcnow w in
  let '(was_new, db) :=
    save_tender_to_db content_hash json_dumps now db tender_data in
  if was_new
  then (w, db,
        {| PortalResults.found := PortalResults.found portal_results;
           PortalResults.new := PortalResults.new portal_results + 1;
           PortalResults.updated := PortalResults.updated portal_results |},
        {| Results.scanned := Results.scanned results;
           Results.total_found := Results.total_found results;
           Results.new_tenders := Results.new_tenders results + 1;
           Results.updated_tenders := Results.updated_tenders results;
           Results.errors := Results.errors results;
           Results.by_portal := Results.by_portal results |})
  else (w, db,
        {| PortalResults.found := PortalResults.found portal_results;
           PortalResults.new := PortalResults.new portal_results;
           PortalResults.updated := PortalResults.updated portal_results + 1 |},
        {| Results.scanned := Results.scanned results;
           Results.total_found := Results.total_found results;
           Results.new_tenders := Results.new_tenders results;
           Results.updated_tenders := Results.updated_tenders results + 1;
           Results.errors := Results.errors results;
           Results.by_portal := Results.by_portal results |}).

(** [_process_tenders tenders portal_name results matcher], on the world,
    the table and the report. With records of the types above nothing in
    the loop raises, so the handler of the [try] is not reached. *)
Definition _process_tenders (tenders : list TenderDict.t)
    (portal_name : string) (w : World) (db : Store) (results : Results.t)
    : World * Store * Results.t :=
  match tenders with
  | [] => (w, db, results)
  | _ =>
      let portal_results :=
        default (PortalResults.mk 0 0 0)
          (Results.by_portal results !! portal_name) in
      let portal_results :=
        {| PortalResults.found :=
             PortalResults.found portal_results + length tenders;
           PortalResults.new := PortalResults.new portal_results;
           PortalResults.updated := PortalResults.updated portal_results |} in
      let '(w, db, portal_results, results) :=
        fold_left process_one tenders (w, db, portal_results, results) in
      (w, db,
       {| Results.scanned := Results.scanned results;
          Results.total_found := Results.total_found results + length tenders;
          Results.new_tenders := Results.new_tenders results;
          Results.updated_tenders := Results.updated_tenders results;
          Results.errors := Results.errors results;
          Results.by_portal :=
            <[portal_name := portal_results]> (Results.by_portal results) |})
  end.

(** The dispatcher lookup with its one level of alias resolution;
    [None] when the result is not callable. *)
Definition resolve_scraper (portal_id : string) : option string :=
  let scraper_func_ref := dict_get SCRAPER_DISPATCHER portal_id in
  let scraper_func_ref :=
    match scraper_func_ref with
    | Some (RefStr s) =>
        match dict_get SCRAPER_DISPATCHER s with
        | Some r => Some r
        | None => Some (RefStr s)
        end
    | other => other
    end in
  match scraper_func_ref with
  | Some (RefFn name) => Some name
  | _ => None
  end.

(** The first half of the [try] block: obtain the driver if the portal
    needs it and none is held, then call the extractor. *)
Definition invoke (config : Portal.t) (fn : string) (w : World) (drv : bool)
    : Outcome (list TenderDict.t) * World * bool :=
  if default false (Portal.requires_selenium config) then
    let '(acquired, w, drv) :=
      if drv then (Returned tt, w, true)
      else match get_driver w with
           | (Returned u, w) => (Returned u, w, true)
           | (Raised msg, w) => (Raised msg, w, false)
           end in
    match acquired with
    | Raised msg => (Raised msg, w, drv)
    | Returned _ =>
        let '(out, w) :=
          if existsb (String.eqb fn) scanner_attributes then
            if existsb (String.eqb fn) ["scan_ariba_portal"; "scan_biddingo"]
            then call_method fn (Some (Portal.name config)) w
            else call_method fn None w
          else call_static fn w in
        (out, w, drv)
    end
  else
    let '(out, w) := call_static fn w in (out, w, drv).

(** One iteration of [for portal_id in portal_ids]. *)
Definition scan_portal (s : BatchState) (portal_id : string) : BatchState :=
  match dict_get PORTAL_CONFIGS portal_id with
  | None => s
  | Some config =>
      match resolve_scraper portal_id with
      | None => s
      | Some fn =>
          match invoke config fn (world s) (driver s) with
          | (Returned tenders, w, drv) =>
              let '(w, db, results) :=
                match tenders with
                | [] => (w, db s, results s)
                | _ => _process_tenders tenders (Portal.name config) w (db s)
                         (results s)
                end in
              {| world := w; db := db; driver := drv;
                 results :=
                   {| Results.scanned := Results.scanned results ++ [portal_id];
                      Results.total_found := Results.total_found results;
                      Results.new_tenders := Results.new_tenders results;
                      Results.updated_tenders := Results.updated_tenders results;
                      Results.errors := Results.errors results;
                      Results.by_portal := Results.by_portal results |} |}
          | (Raised msg, w, drv) =>
              {| world := w; db := db s; driver := drv;
                 results :=
                   {| Results.scanned := Results.scanned (results s);
                      Results.total_found := Results.total_found (results s);
                      Results.new_tenders := Results.new_tenders (results s);
                      Results.updated_tenders :=
                        Results.updated_tenders (results s);
                      Results.errors :=
                        Results.errors (results s)
                        ++ [(Portal.name config, msg)];
                      Results.by_portal := Results.by_portal (results s) |} |}
          end
      end
  end.

(** The loop of [_execute_scans_async]; the report is [results] of the
    state it ends in. *)
Definition _execute_scans_async (portal_ids : list string) (s : BatchState)
    : BatchState :=
  fold_left scan_portal portal_ids s.

End Orchestrator.

(** Every extractor of [scrapers.py] has one shape: [tenders = []], then
    [try: <body> except Exception as e: logger.error(...)], then
    [return tenders]. An exception raised while the source is scanned is
    caught there: the caller receives the records appended before it and
    no exception. [body fn w] is what the body of the extractor named [fn]
    does in world [w]: the records it appends to [tenders], the message
    of the exception that ended it, if one did, and the world afterwards.
    [guarded_extractor body] is then the orchestrator's
    [await scraper_func_ref(...)]. *)
Definition guarded_extractor {World : Type}
    (body : string -> World -> list TenderDict.t * option string * World)
    (fn : string) (w : World) : Outcome (list TenderDict.t) * World :=
  let '(tenders, _, w) := body fn w in (Returned tenders, w).

(** ** Source extractors *)

(** What an extractor's loop sees for one upstream item (a table row, a
    card, a CSV line): the dictionary it builds from it, or [None] when
    the item is skipped (the per-item guard fails, or the [_parse_*]
    helper returns [None]). Reading the page itself belongs to the HTML
    and CSV libraries. *)
Definition Item := option TenderDict.t.

(** The dictionaries of the items that were not skipped, in order. *)
Fixpoint built (items : list Item) : list TenderDict.t :=
  match items with
  | [] => []
  | Some tender :: rest => tender :: built rest
  | None :: rest => built rest
  end.

Definition training_keywords : list string :=
  [ "training"; "formation"; "education"; "éducation"; "learning";
    "apprentissage"; "development"; "développement"; "coaching";
    "certification"; "course"; "cours"; "workshop"; "atelier"; "seminar";
    "séminaire"; "instruction"; "enseignement"; "professional development";
    "développement professionnel"; "upskilling"; "reskilling"; "curriculum";
    "programme"; "instructor"; "instructeur"; "facilitation"; "e-learning";
    "mentoring"; "mentorat"; "tutorial"; "tutoriel"; "capacity building";
    "renforcement des capacités"; "skill"; "compétence" ].

(** The keywords of the title test inside [scan_pei_tenders]. *)
Definition pei_keywords : list string :=
  [ "training"; "education"; "development"; "professional" ].

Section Extractors.

Variable lower : string -> string.

Definition _is_training_related (tender : TenderDict.t) : bool :=
  let text :=
    lower (TenderDict.title tender +:+ " " +:+ TenderDict.description tender) in
  existsb (fun keyword => contains keyword text) training_keywords.

(** *** [ProcurementScanner] ([main.py]) *)

(** Every row of every CSV file that was fetched. *)
Definition scan_canadabuys (csv_files : list (list Item)) : list TenderDict.t :=
  fold_left
    (fun tenders rows => tenders ++ List.filter _is_training_related (built rows))
    csv_files [].

(** [for element in tender_elements[:20]] *)
Definition scan_ariba_portal (tender_elements : list Item) : list TenderDict.t :=
  List.filter _is_training_related (built (take 20 tender_elements)).

(** [while page_count < 5]: the first five result pages, every row of
    each. [pages] are the pages reached by following the next button. *)
Definition scan_merx (pages : list (list Item)) : list TenderDict.t :=
  fold_left
    (fun tenders opportunities =>
       tenders ++ List.filter _is_training_related (built opportunities))
    (take 5 pages) [].

(** [for opp in opportunities[:30]] *)
Definition scan_biddingo (opportunities : list Item) : list TenderDict.t :=
  List.filter _is_training_related (built (take 30 opportunities)).

(** [for row in rows[:30]] *)
Definition scan_bcbid (rows : list Item) : list TenderDict.t :=
  List.filter _is_training_related (built (take 30 rows)).

(** [while page_count < 3] *)
Definition scan_seao (pages : list (list Item)) : list TenderDict.t :=
  fold_left
    (fun tenders opportunities =>
       tenders ++ List.filter _is_training_related (built opportunities))
    (take 3 pages) [].

(** *** [scrapers.py]: every built dictionary is appended as it is *)

(** [ProvincialScrapers] *)
Definition scan_alberta_purchasing (rows : list Item) := built (take 30 rows).
Definition scan_saskatchewan_tenders (results : list Item) := built (take 30 results).
Definition scan_manitoba_tenders (tender_links : list Item) := built (take 30 tender_links).
Definition scan_ontario_tenders (tender_items : list Item) := built (take 30 tender_items).
Definition scan_ns_tenders (rows : list Item) := built (take 30 rows).

(** [MunicipalScrapers] *)
Definition scan_ottawa_bids (tender_rows : list Item) := built (take 30 tender_rows).
Definition scan_edmonton_bids (tender_rows : list Item) := built (take 30 tender_rows).
Definition scan_calgary_procurement (opportunities : list Item) := built (take 30 opportunities).
Definition scan_winnipeg_bids (rows : list Item) := built (take 30 rows).
Definition scan_vancouver_procurement (rows : list Item) := built (take 30 rows).
Definition scan_halifax_procurement (results : list Item) := built (take 30 results).
Definition scan_regina_procurement (opportunities : list Item) := built (take 30 opportunities).

(** [SpecializedScrapers]. [scan_pei_tenders] keeps a result when its
    lower-cased title holds one of its own four keywords. *)
Definition scan_nbon_newbrunswick (opportunities : list Item) := built (take 30 opportunities).
Definition scan_pei_tenders (results : list Item) : list TenderDict.t :=
  List.filter
    (fun tender =>
       existsb (fun keyword => contains keyword (lower (TenderDict.title tender)))
         pei_keywords)
    (built (take 30 results)).
Definition scan_nl_procurement (tender_items : list Item) := built (take 30 tender_items).

(** [HealthEducationScrapers] *)
Definition scan_buybc_health (tender_cards : list Item) := built (take 30 tender_cards).
Definition scan_ontario_health (opportunities : list Item) := built (take 20 opportunities).

End Extractors.

(** ** Query API ([main.py] endpoints) *)

(** The pydantic model [TenderResponse]: every field is required, so an
    instance holds a portal, a closing date and a priority. *)
Module TenderResponse.
Record t := mk {
  id : string;
  tender_id : string;
  title : string;
  organization : string;
  portal : string;
  value : Q;
  closing_date : Z;
  description : string;
  location : string;
  categories : list string;
  tender_url : string;
  matching_courses : list string;
  priority : string
}.
End TenderResponse.

Module StatsResponse.
Record t := mk {
  total_tenders : nat;
  total_value : Q;
  by_portal : list (option string * nat * Q);
  by_category : gmap string nat;
  closing_soon : nat;
  new_today : nat;
  last_scan : option Z
}.
End StatsResponse.

(** The body of the detail endpoint's answer. *)
Module TenderDetail.
Record t := mk {
  row : Tender.t;
  categories : list string;
  keywords : list string;
  matching_courses : list string;
  attachments : list string
}.
End TenderDetail.

(** The double quote character. *)
Definition dquote : string := String (ascii_of_nat 34) EmptyString.

(** Python truthiness of an optional string argument. *)
Definition given (o : option string) : option string :=
  match o with
  | Some s => if String.eqb s EmptyString then None else Some s
  | None => None
  end.

(** [SUM(value)] over rows. *)
Definition sum_value (rows : list Tender.t) : Q :=
  fold_left (fun acc r => Qplus acc (Tender.value r)) rows 0%Q.

Definition option_string_eqb (a b : option string) : bool :=
  match a, b with
  | Some x, Some y => String.eqb x y
  | None, None => true
  | _, _ => false
  end.

(** [GROUP BY portal]: the distinct portals, here in order of first
    appearance (the database fixes no order). *)
Fixpoint portals_of (rows : list Tender.t) (seen : list (option string))
    : list (option string) :=
  match rows with
  | [] => seen
  | r :: rest =>
      if existsb (option_string_eqb (Tender.portal r)) seen
      then portals_of rest seen
      else portals_of rest (seen ++ [Tender.portal r])
  end.

(** [tender.download_count += 1] *)
Definition bump_download_count (r : Tender.t) : Tender.t :=
  {| Tender.id := Tender.id r;
     Tender.tender_id := Tender.tender_id r;
     Tender.title := Tender.title r;
     Tender.organization := Tender.organization r;
     Tender.portal := Tender.portal r;
     Tender.portal_url := Tender.portal_url r;
     Tender.value := Tender.value r;
     Tender.closing_date := Tender.closing_date r;
     Tender.posted_date := Tender.posted_date r;
     Tender.description := Tender.description r;
     Tender.location := Tender.location r;
     Tender.categories := Tender.categories r;
     Tender.keywords := Tender.keywords r;
     Tender.contact_email := Tender.contact_email r;
     Tender.contact_phone := Tender.contact_phone r;
     Tender.tender_url := Tender.tender_url r;
     Tender.documents_url := Tender.documents_url r;
     Tender.last_updated := Tender.last_updated r;
     Tender.is_active := Tender.is_active r;
     Tender.hash := Tender.hash r;
     Tender.priority := Tender.priority r;
     Tender.matching_courses := Tender.matching_courses r;
     Tender.download_count := (Tender.download_count r + 1)%Z;
     Tender.attachments := Tender.attachments r |}.

(** The filters of [get_tenders] and [export_csv]. *)
Module Filters.
Record t := mk {
  skip : nat;
  limit : nat;
  portal : option string;
  min_value : option Q;
  category : option string;
  priority : option string;
  search : option string
}.
End Filters.

Inductive Request :=
| ReqList (f : Filters.t)
| ReqStats
| ReqDetail (tender_id : string)
| ReqExportCsv (portal category : option string).

Inductive Response :=
| RespList (l : list TenderResponse.t)
| RespStats (s : StatsResponse.t)
| RespDetail (d : TenderDetail.t)
| RespNotFound
| RespInternalError
| RespCsv (content : string).

Section QueryAPI.

(** [json.loads] of a stored list. *)
Variable json_loads : string -> list string.
(** [column LIKE pattern] and [column ILIKE pattern] of the database. *)
Variable sql_like : string -> string -> bool.
Variable sql_ilike : string -> string -> bool.
(** [ORDER BY closing_date, priority DESC] of the database. *)
Variable order_by_closing_priority : list Tender.t -> list Tender.t.
(** [str] of a float and of a nullable column inside an f-string. *)
Variable str_float : Q -> string.
Variable str_datetime : option Z -> string.

(** [json.loads(col) if col else []] *)
Definition loads_or_empty (col : string) : list string :=
  if String.eqb col EmptyString then [] else json_loads col.

(** [Tender.categories.contains(f'"{category}"')] *)
Definition categories_contains (category : string) (r : Tender.t) : bool :=
  sql_like (Tender.categories r) ("%" +:+ dquote +:+ category +:+ dquote +:+ "%").

Definition optional_filter {A : Type} (arg : option A) (p : A -> Tender.t -> bool)
    (rows : list Tender.t) : list Tender.t :=
  match arg with
  | Some a => List.filter (p a) rows
  | None => rows
  end.

(** The [TenderResponse] built from [tender_dict] for one row: the
    instance, or [None]
    when the validation raises because the row's portal, closing date or
    priority is NULL (the other columns always hold a value of the
    required type). *)
Definition tender_response (tender : Tender.t) : option TenderResponse.t :=
  match Tender.portal tender, Tender.closing_date tender,
        Tender.priority tender with
  | Some portal, Some closing_date, Some priority =>
      Some {| TenderResponse.id := Tender.id tender;
              TenderResponse.tender_id := Tender.tender_id tender;
              TenderResponse.title := Tender.title tender;
              TenderResponse.organization := Tender.organization tender;
              TenderResponse.portal := portal;
              TenderResponse.value := Tender.value tender;
              TenderResponse.closing_date := closing_date;
              TenderResponse.description := Tender.description tender;
              TenderResponse.location := Tender.location tender;
              TenderResponse.categories :=
                loads_or_empty (Tender.categories tender);
              TenderResponse.tender_url := Tender.tender_url tender;
              TenderResponse.matching_courses :=
                loads_or_empty (Tender.matching_courses tender);
              TenderResponse.priority := priority |}
  | _, _, _ => None
  end.

(** The [for tender in tenders] loop that fills [results]: the first row
    whose validation raises ends the request. *)
Fixpoint build_responses (tenders : list Tender.t)
    : option (list TenderResponse.t) :=
  match tenders with
  | [] => Some []
  | tender :: rest =>
      match tender_response tender with
      | Some response =>
          match build_responses rest with
          | Some results => Some (response :: results)
          | None => None
          end
      | None => None
      end
  end.

(** [tenders = query.offset(skip).limit(limit).all()] of [get_tenders]. *)
Definition select_tenders (f : Filters.t) (db : Store) : list Tender.t :=
  let query := List.filter Tender.is_active db in
  let query :=
    optional_filter (given (Filters.portal f))
      (fun p r => option_string_eqb (Tender.portal r) (Some p)) query in
  let query :=
    optional_filter
      (match Filters.min_value f with
       | Some v => if Qeq_bool v 0 then None else Some v
       | None => None
       end)
      (fun v r => Qgeb (Tender.value r) v) query in
  let query :=
    optional_filter (given (Filters.category f)) categories_contains query in
  let query :=
    optional_filter (given (Filters.priority f))
      (fun p r => option_string_eqb (Tender.priority r) (Some p)) query in
  let query :=
    optional_filter (given (Filters.search f))
      (fun s r =>
         let search_pattern := "%" +:+ s +:+ "%" in
         sql_ilike (Tender.title r) search_pattern
         || sql_ilike (Tender.description r) search_pattern
         || sql_ilike (Tender.organization r) search_pattern) query in
  let query := order_by_closing_priority query in
  take (Filters.limit f) (drop (Filters.skip f) query).

(** [get_tenders]: the list it returns, or [None] when it raises (the
    request is answered with an internal server error). *)
Definition get_tenders (f : Filters.t) (db : Store)
    : option (list TenderResponse.t) :=
  build_responses (select_tenders f db).

(** [get_statistics]; [now1], [now2] and [now3] are its three readings of
    the clock, in order. *)
Definition get_statistics (now1 now2 now3 : Z) (db : Store) : StatsResponse.t :=
  let active := List.filter Tender.is_active db in
  let by_portal :=
    map (fun p =>
           let group :=
             List.filter (fun r => option_string_eqb (Tender.portal r) p) active in
           (p, length group, sum_value group))
      (portals_of active []) in
  let all_categories :=
    fold_left
      (fun all_categories r =>
         fold_left
           (fun all_categories cat =>
              <[cat := (default 0 (all_categories !! cat) + 1)%nat]> all_categories)
           (loads_or_empty (Tender.categories r)) all_categories)
      active (∅ : gmap string nat) in
  let closing_soon :=
    length
      (List.filter
         (fun r =>
            match Tender.closing_date r with
            | Some c => (c <=? now1 + 7 * day_us)%Z && (now2 <? c)%Z
            | None => false
            end) active) in
  let today_start := (now3 - now3 `mod` day_us)%Z in
  let new_today :=
    length
      (List.filter
         (fun r =>
            match Tender.posted_date r with
            | Some p => (today_start <=? p)%Z
            | None => false
            end) db) in
  let last_scan :=
    fold_left
      (fun acc r =>
         match acc with
         | Some m => Some (Z.max m (Tender.last_updated r))
         | None => Some (Tender.last_updated r)
         end) db None in
  {| StatsResponse.total_tenders := length active;
     StatsResponse.total_value := sum_value active;
     StatsResponse.by_portal := by_portal;
     StatsResponse.by_category := all_categories;
     StatsResponse.closing_soon := closing_soon;
     StatsResponse.new_today := new_today;
     StatsResponse.last_scan := last_scan |}.

(** [get_tender_detail]: the answer ([None] is the 404) and the table
    after the commit. *)
Definition get_tender_detail (tender_id : string) (db : Store)
    : option TenderDetail.t * Store :=
  match List.find (fun r => String.eqb (Tender.id r) tender_id) db with
  | None => (None, db)
  | Some tender =>
      let tender := bump_download_count tender in
      (Some
         {| TenderDetail.row := tender;
            TenderDetail.categories := loads_or_empty (Tender.categories tender);
            TenderDetail.keywords := loads_or_empty (Tender.keywords tender);
            TenderDetail.matching_courses :=
              loads_or_empty (Tender.matching_courses tender);
            TenderDetail.attachments :=
              loads_or_empty (Tender.attachments tender) |},
       update_first (fun r => String.eqb (Tender.id r) tender_id)
         bump_download_count db)
  end.

Definition csv_line (tender : Tender.t) : string :=
  let matching_courses := loads_or_empty (Tender.matching_courses tender) in
  dquote +:+ Tender.tender_id tender +:+ dquote +:+ "," +:+
  dquote +:+ Tender.title tender +:+ dquote +:+ "," +:+
  dquote +:+ Tender.organization tender +:+ dquote +:+ "," +:+
  dquote +:+ default "None" (Tender.portal tender) +:+ dquote +:+ "," +:+
  str_float (Tender.value tender) +:+ "," +:+
  dquote +:+ str_datetime (Tender.closing_date tender) +:+ dquote +:+ "," +:+
  dquote +:+ Tender.location tender +:+ dquote +:+ "," +:+
  dquote +:+ default "None" (Tender.priority tender) +:+ dquote +:+ "," +:+
  dquote +:+ join ";" matching_courses +:+ dquote +:+ "," +:+
  dquote +:+ Tender.tender_url tender +:+ dquote.

(** The content of the answer of [export_csv]. *)
Definition export_csv (portal category : option string) (db : Store) : string :=
  let query := List.filter Tender.is_active db in
  let query :=
    optional_filter (given portal)
      (fun p r => option_string_eqb (Tender.portal r) (Some p)) query in
  let query := optional_filter (given category) categories_contains query in
  join (String (ascii_of_nat 10) EmptyString)
    ("Tender ID,Title,Organization,Portal,Value,Closing Date,Location,Priority,Matching Courses,URL"
     :: map csv_line query).

(** One request against the table: the answer and the table once the
    request has completed. The three listing endpoints issue no commit. *)
Definition handle (now1 now2 now3 : Z) (req : Request) (db : Store)
    : Response * Store :=
  match req with
  | ReqList f =>
      (match get_tenders f db with
       | Some results => RespList results
       | None => RespInternalError
       end, db)
  | ReqStats => (RespStats (get_statistics now1 now2 now3 db), db)
  | ReqDetail tender_id =>
      match get_tender_detail tender_id db with
      | (Some d, db) => (RespDetail d, db)
      | (None, db) => (RespNotFound, db)
      end
  | ReqExportCsv portal category => (RespCsv (export_csv portal category db), db)
  end.

End QueryAPI.

(** ** Expiry sweep and purge ([clean_expired_tenders], [scan_all_portals]) *)

(** The row with [is_active] set to [False]. *)
Definition set_inactive (r : Tender.t) : Tender.t :=
  {| Tender.id := Tender.id r;
     Tender.tender_id := Tender.tender_id r;
     Tender.title := Tender.title r;
     Tender.organization := Tender.organization r;
     Tender.portal := Tender.portal r;
     Tender.portal_url := Tender.portal_url r;
     Tender.value := Tender.value r;
     Tender.closing_date := Tender.closing_date r;
     Tender.posted_date := Tender.posted_date r;
     Tender.description := Tender.description r;
     Tender.location := Tender.location r;
     Tender.categories := Tender.categories r;
     Tender.keywords := Tender.keywords r;
     Tender.contact_email := Tender.contact_email r;
     Tender.contact_phone := Tender.contact_phone r;
     Tender.tender_url := Tender.tender_url r;
     Tender.documents_url := Tender.documents_url r;
     Tender.last_updated := Tender.last_updated r;
     Tender.is_active := false;
     Tender.hash := Tender.hash r;
     Tender.priority := Tender.priority r;
     Tender.matching_courses := Tender.matching_courses r;
     Tender.download_count := Tender.download_count r;
     Tender.attachments := Tender.attachments r |}.

(** [Tender.closing_date < now, Tender.is_active == True]: a row without
    closing date satisfies no comparison. *)
Definition is_expired (now : Z) (r : Tender.t) : bool :=
  match Tender.closing_date r with
  | Some closing => (closing <? now)%Z && Tender.is_active r
  | None => false
  end.

(** [query.filter(...).update({'is_active': False})]: the number of rows
    matched and the table after the statement. *)
Definition deactivate_expired (now : Z) (db : Store) : nat * Store :=
  (length (List.filter (is_expired now) db),
   map (fun r => if is_expired now r then set_inactive r else r) db).

(** [Tender.closing_date < old_date, Tender.is_active == False] *)
Definition is_purgeable (old_date : Z) (r : Tender.t) : bool :=
  match Tender.closing_date r with
  | Some closing => (closing <? old_date)%Z && negb (Tender.is_active r)
  | None => false
  end.

(** [clean_expired_tenders]: the two counts it returns ([deactivated],
    [deleted]) and the table after the commit. [now1] and [now2] are its
    two readings of the clock; the delete statement runs in the same
    transaction and sees the rows the update has just deactivated. *)
Definition clean_expired_tenders (now1 now2 : Z) (db : Store)
    : (nat * nat) * Store :=
  let '(expired_count, db) := deactivate_expired now1 db in
  let old_date := (now2 - 180 * day_us)%Z in
  let deleted_count := length (List.filter (is_purgeable old_date) db) in
  let db := List.filter (fun r => negb (is_purgeable old_date r)) db in
  ((expired_count, deleted_count), db).

(** ** Patient waiting ([SeleniumGridDriver]) *)

(** [patiently_find_regex]: [polls k] is what [re.findall(regex,
    driver.page_source)] returns at the poll made after [k + 1] seconds
    (the empty list when the call raises). The loop state is the time
    waited so far; [remaining] is [max_wait - total_wait]. The result is
    the list [results] at the exit of the loop and the time waited. *)
Fixpoint find_regex_loop (polls : nat -> list string) (total_wait remaining : nat)
    : list string * nat :=
  match remaining with
  | 0 => ([], total_wait)
  | S remaining =>
      match polls total_wait with
      | [] => find_regex_loop polls (S total_wait) remaining
      | results => (results, S total_wait)
      end
  end.

Definition patiently_find_regex (polls : nat -> list string) (max_wait : nat)
    : option string :=
  match fst (find_regex_loop polls 0 max_wait) with
  | [] => None
  | first :: _ => Some first
  end.

(** [s.endswith(suffix)] *)
Fixpoint endswith (s suffix : string) : bool :=
  String.eqb s suffix ||
  match s with
  | EmptyString => false
  | String _ rest => endswith rest suffix
  end.

(** [not file.endswith(('.tmp', '.crdownload', '.part'))] *)
Definition is_complete_file (file : string) : bool :=
  negb (existsb (endswith file) [".tmp"; ".crdownload"; ".part"]).

(** [wait_for_download]: [initial_files] is the listing of the download
    directory before the action, [listings k] the listing at the poll made
    after [k + 1] seconds. *)
Fixpoint download_loop (initial_files : list string)
    (listings : nat -> list string) (total_wait remaining : nat) : bool :=
  match remaining with
  | 0 => false
  | S remaining =>
      let current_files := listings total_wait in
      let new_files :=
        List.filter (fun f => negb (existsb (String.eqb f) initial_files))
          current_files in
      if existsb is_complete_file new_files then true
      else download_loop initial_files listings (S total_wait) remaining
  end.

Definition wait_for_download (initial_files : list string)
    (listings : nat -> list string) (max_wait : nat) : bool :=
  download_loop initial_files listings 0 max_wait.

(** ** Amounts ([_parse_value], [parse_value]) *)

(** The characters [re.sub(r'[^0-9.,]', '', s)] keeps. *)
Definition is_amount_char (c : ascii) : bool :=
  let n := nat_of_ascii c in
  ((48 <=? n) && (n <=? 57) || (n =? 46) || (n =? 44))%nat.

Fixpoint keep_chars (p : ascii -> bool) (s : string) : string :=
  match s with
  | EmptyString => EmptyString
  | String c rest =>
      if p c then String c (keep_chars p rest) else keep_chars p rest
  end.

Section Amounts.

(** [float(s)]: the number, or [None] when it raises. *)
Variable py_float : string -> option Q.

(** [_parse_value] of [main.py] and [parse_value] of [scrapers.py] on a
    string. *)
Definition _parse_value (value_str : string) : Q :=
  if String.eqb value_str EmptyString then 0
  else
    let value_str := keep_chars is_amount_char value_str in
    let value_str :=
      keep_chars (fun c => negb (nat_of_ascii c =? 44)%nat) value_str in
    match py_float value_str with
    | Some v => v
    | None => 0
    end.

End Amounts.

(** ** The in-process scan ([scan_all_portals] of [main.py]) *)

(** [config['type']] and [config.get('biddingo_org')] of [PORTAL_CONFIGS]. *)
Module PortalKind.
Record t := mk { type : string; biddingo_org : option string }.
End PortalKind.

Definition PORTAL_KINDS : list (string * PortalKind.t) :=
  [ ("canadabuys", PortalKind.mk "csv" None);
    ("merx", PortalKind.mk "scrape" None);
    ("biddingo", PortalKind.mk "scrape" None);
    ("bcbid", PortalKind.mk "scrape" None);
    ("albertapurchasing", PortalKind.mk "scrape" None);
    ("sasktenders", PortalKind.mk "scrape" None);
    ("manitoba", PortalKind.mk "scrape" None);
    ("ontario", PortalKind.mk "scrape" None);
    ("seao", PortalKind.mk "scrape" None);
    ("nbon", PortalKind.mk "scrape" None);
    ("ns", PortalKind.mk "scrape" None);
    ("pei", PortalKind.mk "scrape" None);
    ("nl", PortalKind.mk "scrape" None);
    ("toronto", PortalKind.mk "ariba" None);
    ("vancouver", PortalKind.mk "scrape" None);
    ("montreal", PortalKind.mk "seao" None);
    ("calgary", PortalKind.mk "scrape" None);
    ("edmonton", PortalKind.mk "scrape" None);
    ("ottawa", PortalKind.mk "scrape" None);
    ("winnipeg", PortalKind.mk "scrape" None);
    ("quebec_city", PortalKind.mk "seao" None);
    ("halifax", PortalKind.mk "scrape" None);
    ("london", PortalKind.mk "biddingo" (Some "london"));
    ("hamilton", PortalKind.mk "biddingo" (Some "hamilton"));
    ("kitchener", PortalKind.mk "biddingo" (Some "kitchener"));
    ("regina", PortalKind.mk "scrape" None);
    ("saskatoon", PortalKind.mk "sasktenders" None);
    ("buybc", PortalKind.mk "scrape" None);
    ("mohltc", PortalKind.mk "merx" None) ].

(** The scanner calls of [scan_all_portals], in order, each with its
    string arguments: the four fixed scanners, then one call for every
    portal of type ariba or biddingo. *)
Definition scan_all_calls : list (string * list string) :=
  [ ("scan_canadabuys", []); ("scan_merx", []); ("scan_bcbid", []);
    ("scan_seao", []) ]
  ++ flat_map
       (fun '(portal_id, config) =>
          match dict_get PORTAL_KINDS portal_id with
          | Some kind =>
              if String.eqb (PortalKind.type kind) "ariba"
              then [("scan_ariba_portal", [Portal.name config])]
              else if String.eqb (PortalKind.type kind) "biddingo"
              then [("scan_biddingo",
                     [Portal.name config;
                      default EmptyString (PortalKind.biddingo_org kind)])]
              else []
          | None => []
          end)
       PORTAL_CONFIGS.

(** What [scan_all_portals] logs when it completes. *)
Module ScanSummary.
Record t := mk { found : nat; new_count : nat; updated_count : nat; expired : nat }.
End ScanSummary.

Section ScanAll.

Variable lower : string -> string.
Variable list_of_set : list string -> list string.
Variable content_hash : TenderDict.t -> string.
Variable json_dumps : list string -> string.
Variable World : Type.
Variable utcnow : World -> Z * World.
(** [await scanner.<method>(<args>)] *)
Variable call_scanner :
  string -> list string -> World -> Outcome (list TenderDict.t) * World.

(** [all_tenders.extend(await ...)] for each call in turn; the first call
    that raises ends the [try] block. *)
Fixpoint gather_tenders (calls : list (string * list string)) (w : World)
    (all_tenders : list TenderDict.t) : Outcome (list TenderDict.t) * World :=
  match calls with
  | [] => (Returned all_tenders, w)
  | (method, args) :: rest =>
      match call_scanner method args w with
      | (Returned tenders, w) => gather_tenders rest w (all_tenders ++ tenders)
      | (Raised msg, w) => (Raised msg, w)
      end
  end.

(** Matching, priority and upsert of one record, as in the loops of
    [scan_all_portals] and [_process_tenders]. *)
Definition enrich_and_save (w : World) (db : Store) (tender_data : TenderDict.t)
    : bool * World * Store :=
  let tender_data :=
    set_matching_courses tender_data
      (match_courses lower list_of_set tender_data) in
  let '(priority, w) :=
    match TenderDict.closing_date tender_data with
    | None => (calculate_priority 0 tender_data, w)
    | Some _ => let '(now, w) := utcnow w in
                (calculate_priority now tender_data, w)
    end in
  let tender_data := set_priority tender_data priority in
  let '(now, w) := utcnow w in
  let '(was_new, db) :=
    save_tender_to_db content_hash json_dumps now db tender_data in
  (was_new, w, db).

(** The [for tender_data in all_tenders] loop with its two counters. *)
Definition count_one (acc : World * Store * nat * nat) (tender_data : TenderDict.t)
    : World * Store * nat * nat :=
  let '(w, db, new_count, updated_count) := acc in
  let '(was_new, w, db) := enrich_and_save w db tender_data in
  if was_new then (w, db, new_count + 1, updated_count)
  else (w, db, new_count, updated_count + 1).

(** [scan_all_portals]: what it logs ([None] when the handler of the
    [try] block ran), the world and the table afterwards. *)
Definition scan_all_portals (w : World) (db : Store)
    : option ScanSummary.t * World * Store :=
  match gather_tenders scan_all_calls w [] with
  | (Raised _, w) => (None, w, db)
  | (Returned all_tenders, w) =>
      let '(w, db, new_count, updated_count) :=
        fold_left count_one all_tenders (w, db, 0, 0) in
      let '(now, w) := utcnow w in
      let '(expired, db) := deactivate_expired now db in
      (Some {| ScanSummary.found := length all_tenders;
               ScanSummary.new_count := new_count;
               ScanSummary.updated_count := updated_count;
               ScanSummary.expired := expired |}, w, db)
  end.

End ScanAll.

(** ** Concrete instances for evaluation

    Stand-ins for the parameters, used only where the development is run
    on explicit inputs: none of the general statements depends on them. *)

(** [json.dumps] of a list of strings that need no escaping. *)
Definition demo_json_dumps (l : list string) : string :=
  "[" +:+ join ", " (map (fun s => dquote +:+ s +:+ dquote) l) +:+ "]".

(** A digest stand-in: the text fields of the record, joined. *)
Definition demo_hash (td : TenderDict.t) : string :=
  join "|"
    [ default "None" (TenderDict.tender_id td); TenderDict.title td;
      TenderDict.organization td; default "None" (TenderDict.portal td);
      TenderDict.description td; TenderDict.location td;
      TenderDict.tender_url td; join "," (TenderDict.categories td);
      join "," (TenderDict.keywords td);
      join "," (default [] (TenderDict.matching_courses td));
      default "None" (TenderDict.priority td) ].

(** One possible order of [list(set(xs))]: first occurrences. *)
Definition demo_list_of_set (xs : list string) : list string := remove_dups xs.

(** A dictionary as the extractors of [scrapers.py] build it. *)
Definition demo_dict (tender_id portal title : string) : TenderDict.t :=
  {| TenderDict.tender_id := Some tender_id;
     TenderDict.title := title;
     TenderDict.organization := portal;
     TenderDict.portal := Some portal;
     TenderDict.portal_url := None;
     TenderDict.value := 0;
     TenderDict.closing_date := None;
     TenderDict.posted_date := None;
     TenderDict.description := EmptyString;
     TenderDict.location := "Canada";
     TenderDict.tender_url := "https://example.org/";
     TenderDict.categories := [];
     TenderDict.keywords := [];
     TenderDict.matching_courses := None;
     TenderDict.priority := None |}.

Definition leadership_training : TenderDict.t :=
  demo_dict "123" "BC Bid" "Leadership training for managers".

Definition leadership_training_amended : TenderDict.t :=
  demo_dict "123" "BC Bid" "Leadership training for managers (amended)".

Definition road_resurfacing : TenderDict.t :=
  demo_dict "AB-1" "Alberta Purchasing Connection" "Road resurfacing".

Definition audit_services : TenderDict.t :=
  demo_dict "123" "MERX" "Audit services".

(** The row the store inserts for [audit_services] at time 0: its id is
    MERX_123, its tender_id 123, its portal MERX, its download_count 0. *)
Definition merx_row_123 : Tender.t :=
  new_tender demo_json_dumps 0 "123" (demo_hash audit_services) audit_services.

(** A world that counts the calls made to it. The clock advances by one
    microsecond per reading; the driver is always granted; the request of
    the Manitoba extractor always fails with an exception before any
    record is built, the PEI extractor always finds nothing, the body of
    every other extractor appends one record. *)
Definition demo_utcnow (w : nat) : Z * nat := (Z.of_nat w, S w).

Definition demo_get_driver (w : nat) : Outcome unit * nat := (Returned tt, S w).

Definition demo_body (fn : string) (w : nat)
    : list TenderDict.t * option string * nat :=
  if String.eqb fn "scan_manitoba_tenders"
  then ([], Some "Cannot connect to host www.gov.mb.ca:443", S w)
  else if String.eqb fn "scan_pei_tenders" then ([], None, S w)
  else ([leadership_training], None, S w).

Definition demo_call_static : string -> nat -> Outcome (list TenderDict.t) * nat :=
  guarded_extractor demo_body.

(** The same world with the Selenium Grid unreachable. *)
Definition demo_grid_down (w : nat) : Outcome unit * nat :=
  (Raised "Failed to connect to Selenium Grid", S w).

Definition demo_call_method (fn : string) (arg : option string) (w : nat)
    : Outcome (list TenderDict.t) * nat :=
  (Returned [], S w).

(** A batch over the demo world, from an empty table. *)
Definition demo_batch (portal_ids : list string) : Results.t :=
  results nat
    (_execute_scans_async ascii_lower demo_list_of_set demo_hash demo_json_dumps
       nat demo_utcnow demo_get_driver demo_call_static demo_call_method
       portal_ids
       {| world := 0; db := []; driver := false; results := initial_results |}).

Definition demo_batch_grid_down (portal_ids : list string) : Results.t :=
  results nat
    (_execute_scans_async ascii_lower demo_list_of_set demo_hash demo_json_dumps
       nat demo_utcnow demo_grid_down demo_call_static demo_call_method
       portal_ids
       {| world := 0; db := []; driver := false; results := initial_results |}).

(** A dictionary with a closing date. *)
Definition demo_dict_closing (tender_id portal title : string) (closing : Z)
    : TenderDict.t :=
  {| TenderDict.tender_id := Some tender_id;
     TenderDict.title := title;
     TenderDict.organization := portal;
     TenderDict.portal := Some portal;
     TenderDict.portal_url := None;
     TenderDict.value := 0;
     TenderDict.closing_date := Some (DateTime closing);
     TenderDict.posted_date := None;
     TenderDict.description := EmptyString;
     TenderDict.location := "Canada";
     TenderDict.tender_url := "https://example.org/";
     TenderDict.categories := [];
     TenderDict.keywords := [];
     TenderDict.matching_courses := None;
     TenderDict.priority := None |}.

(** An active row inserted at time 0 whose closing date is time 0. *)
Definition closed_at_zero : Tender.t :=
  new_tender demo_json_dumps 0 "OLD-1"
    (demo_hash (demo_dict_closing "OLD-1" "MERX" "Facilitation workshop" 0))
    (demo_dict_closing "OLD-1" "MERX" "Facilitation workshop" 0).

(** The MERX record 123 as an extractor yields it when the closing date
    on the page is a text that no format reads: [parse_date] hands back
    NaT. *)
Definition audit_services_unreadable_date : TenderDict.t :=
  {| TenderDict.tender_id := Some "123";
     TenderDict.title := "Audit services (revised scope)";
     TenderDict.organization := "MERX";
     TenderDict.portal := Some "MERX";
     TenderDict.portal_url := None;
     TenderDict.value := 0;
     TenderDict.closing_date := Some NaT;
     TenderDict.posted_date := None;
     TenderDict.description := EmptyString;
     TenderDict.location := "Canada";
     TenderDict.tender_url := "https://example.org/";
     TenderDict.categories := [];
     TenderDict.keywords := [];
     TenderDict.matching_courses := None;
     TenderDict.priority := None |}.

(** A row with a portal, a closing date (thirty days after time 0) and a
    priority, as [_process_tenders] stores it. *)
Definition complete_row : Tender.t :=
  new_tender demo_json_dumps 0 "T-9"
    (demo_hash
       (set_priority
          (demo_dict_closing "T-9" "MERX" "Facilitation workshop" (30 * day_us))
          "low"))
    (set_priority
       (demo_dict_closing "T-9" "MERX" "Facilitation workshop" (30 * day_us))
       "low").

(** A row whose tender_id holds an underscore: its id is BC Bid_A_1. *)
Definition underscore_row : Tender.t :=
  new_tender demo_json_dumps 0 "A_1"
    (demo_hash (demo_dict "A_1" "BC Bid" "Facilitation services"))
    (demo_dict "A_1" "BC Bid" "Facilitation services").

(** [float] restricted to strings of ASCII digits: it raises on every
    other string, the empty one included. *)
Fixpoint digits_value (acc : Z) (s : string) : option Z :=
  match s with
  | EmptyString => Some acc
  | String c rest =>
      let n := nat_of_ascii c in
      if ((48 <=? n) && (n <=? 57))%nat
      then digits_value (10 * acc + Z.of_nat (n - 48)) rest
      else None
  end.

Definition demo_float (s : string) : option Q :=
  if String.eqb s EmptyString then None
  else option_map inject_Z (digits_value 0 s).

(** ** Notions used to state the properties *)

(** The arithmetic a report is expected to satisfy: what was found is
    what was counted as new plus what was counted as updated, in total and
    for each portal. *)
Definition consistent (results : Results.t) : Prop :=
  Results.total_found results
  = Results.new_tenders results + Results.updated_tenders results /\
  forall name pr, Results.by_portal results !! name = Some pr ->
    PortalResults.found pr = PortalResults.new pr + PortalResults.updated pr.

(** The report with one more entry in its error list. *)
Definition with_error (results : Results.t) (portal msg : string) : Results.t :=
  {| Results.scanned := Results.scanned results;
     Results.total_found := Results.total_found results;
     Results.new_tenders := Results.new_tenders results;
     Results.updated_tenders := Results.updated_tenders results;
     Results.errors := Results.errors results ++ [(portal, msg)];
     Results.by_portal := Results.by_portal results |}.

(** The columns of a row that no ingestion dictionary carries. *)
Definition storage_only (r : Tender.t)
    : string * bool * Z * option string * option string * option string * string :=
  (Tender.id r, Tender.is_active r, Tender.download_count r,
   Tender.contact_email r, Tender.contact_phone r, Tender.documents_url r,
   Tender.attachments r).

(** The order of the three priority tiers. *)
Definition priority_rank (priority : string) : nat :=
  if String.eqb priority "high" then 2
  else if String.eqb priority "medium" then 1
  else 0.

(** A portal id that the loop of [_execute_scans_async] does not skip: it
    is configured and its dispatcher entry resolves to a function. *)
Definition is_dispatchable (portal_id : string) : bool :=
  match dict_get PORTAL_CONFIGS portal_id, resolve_scraper portal_id with
  | Some _, Some _ => true
  | _, _ => false
  end.

(** The row with [n] added to its download counter. *)
Definition add_downloads (n : Z) (r : Tender.t) : Tender.t :=
  {| Tender.id := Tender.id r;
     Tender.tender_id := Tender.tender_id r;
     Tender.title := Tender.title r;
     Tender.organization := Tender.organization r;
     Tender.portal := Tender.portal r;
     Tender.portal_url := Tender.portal_url r;
     Tender.value := Tender.value r;
     Tender.closing_date := Tender.closing_date r;
     Tender.posted_date := Tender.posted_date r;
     Tender.description := Tender.description r;
     Tender.location := Tender.location r;
     Tender.categories := Tender.categories r;
     Tender.keywords := Tender.keywords r;
     Tender.contact_email := Tender.contact_email r;
     Tender.contact_phone := Tender.contact_phone r;
     Tender.tender_url := Tender.tender_url r;
     Tender.documents_url := Tender.documents_url r;
     Tender.last_updated := Tender.last_updated r;
     Tender.is_active := Tender.is_active r;
     Tender.hash := Tender.hash r;
     Tender.priority := Tender.priority r;
     Tender.matching_courses := Tender.matching_courses r;
     Tender.download_count := (Tender.download_count r + n)%Z;
     Tender.attachments := Tender.attachments r |}.

(** An ASCII digit or a dot. *)
Definition is_digit_or_dot (c : ascii) : bool :=
  let n := nat_of_ascii c in
  ((48 <=? n) && (n <=? 57) || (n =? 46))%nat.

(** * Properties *)

(** ** General facts about the embedding *)

Lemma dict_get_In {V : Type} (d : list (string * V)) (k : string) (v : V) :
  dict_get d k = Some v -> In (k, v) d.
Proof.
  induction d as [|[k' v'] d IH]; simpl; [discriminate|].
  destruct (String.eqb_spec k' k) as [->|Hne].
  - intros [= ->]. now left.
  - intros H. right. now apply IH.
Qed.

Lemma In_dict_get {V : Type} (d : list (string * V)) (k : string) (v : V) :
  NoDup (map fst d) -> In (k, v) d -> dict_get d k = Some v.
Proof.
  induction d as [|[k' v'] d IH]; simpl; [tauto|].
  intros Hnd [Heq|Hin].
  - injection Heq as -> ->. now rewrite String.eqb_refl.
  - apply NoDup_cons in Hnd as [Hnotin Hnd].
    destruct (String.eqb_spec k' k) as [->|Hne].
    + exfalso. apply Hnotin. apply list_elem_of_In.
      change k with (fst (k, v)). now apply in_map.
    + now apply IH.
Qed.

Lemma TKA_COURSES_keys_NoDup : NoDup (map fst TKA_COURSES).
Proof. apply (bool_decide_unpack _). vm_compute. reflexivity. Qed.

Lemma TKA_COURSES_keywords_NoDup (category : string) (config : Cfg.t) :
  dict_get TKA_COURSES category = Some config -> NoDup (Cfg.keywords config).
Proof.
  intros H. apply dict_get_In in H.
  assert (Hall : Forall (fun cc => NoDup (Cfg.keywords (snd cc))) TKA_COURSES).
  { apply (bool_decide_unpack _). vm_compute. reflexivity. }
  rewrite Forall_forall in Hall.
  apply (Hall (category, config)). now apply list_elem_of_In.
Qed.

(** Two distinct members of a list give it length at least two; with no
    repetition in the list the converse holds for its filter. *)
Lemma two_distinct_length {A : Type} (l : list A) (a b : A) :
  a <> b -> In a l -> In b l -> 2 <= length l.
Proof.
  destruct l as [|x [|y l]]; simpl; try tauto; [|lia].
  intros Hne [<-|[]] [<-|[]]. now elim Hne.
Qed.

Lemma filter_count_two {A : Type} (p : A -> bool) (l : list A) :
  NoDup l ->
  (2 <= length (List.filter p l) <->
   exists a b, a <> b /\ In a l /\ In b l /\ p a = true /\ p b = true).
Proof.
  intros Hnd. split.
  - intros Hlen.
    assert (Hndf : NoDup (List.filter p l))
      by now apply NoDup_ListNoDup, List.NoDup_filter, NoDup_ListNoDup.
    destruct (List.filter p l) as [|x [|y rest]] eqn:Hf; simpl in Hlen; try lia.
    assert (Hx : In x (List.filter p l)) by (rewrite Hf; now left).
    assert (Hy : In y (List.filter p l)) by (rewrite Hf; right; now left).
    apply filter_In in Hx as [Hx Hpx]. apply filter_In in Hy as [Hy Hpy].
    exists x, y. repeat split; try assumption.
    apply NoDup_cons in Hndf as [Hnotin _].
    intros ->. apply Hnotin. apply list_elem_of_In. now left.
  - intros (a & b & Hne & Ha & Hb & Hpa & Hpb).
    apply (two_distinct_length _ a b Hne); apply filter_In; now split.
Qed.

Lemma filter_count_one {A : Type} (p : A -> bool) (l : list A) (a : A) :
  NoDup l -> In a l -> p a = true ->
  (forall b, In b l -> p b = true -> b = a) ->
  length (List.filter p l) = 1.
Proof.
  intros Hnd Ha Hpa Huniq.
  assert (Hin : In a (List.filter p l)) by (apply filter_In; now split).
  destruct (le_lt_dec 2 (length (List.filter p l))) as [Hge|Hlt].
  - apply filter_count_two in Hge as (x & y & Hne & Hx & Hy & Hpx & Hpy); [|assumption].
    elim Hne. now rewrite (Huniq x Hx Hpx), (Huniq y Hy Hpy).
  - destruct (List.filter p l); simpl in *; [tauto | lia].
Qed.

(** ** Classifier *)

Lemma extract_categories_loop (text_lower : string) (l : list (string * Cfg.t))
    (acc : list string) :
  fold_left
    (fun categories '(category, config) =>
       let matches := keyword_matches text_lower (Cfg.keywords config) in
       if (2 <=? matches)%nat then categories ++ [category] else categories)
    l acc
  = acc ++ map fst
             (List.filter
                (fun cc => (2 <=? keyword_matches text_lower (Cfg.keywords (snd cc)))%nat)
                l).
Proof.
  revert acc. induction l as [|[category config] l IH]; intros acc.
  - simpl. now rewrite app_nil_r.
  - cbn [fold_left List.filter snd]. rewrite IH.
    destruct (2 <=? keyword_matches text_lower (Cfg.keywords config))%nat;
      cbn [map fst]; [now rewrite <- List.app_assoc|reflexivity].
Qed.

Lemma extract_categories_In (lower : string -> string) (text category : string) :
  In category (_extract_categories_from_text lower text) <->
  exists config, dict_get TKA_COURSES category = Some config /\
                 2 <= keyword_matches (lower text) (Cfg.keywords config).
Proof.
  unfold _extract_categories_from_text. rewrite extract_categories_loop.
  rewrite app_nil_l, in_map_iff. split.
  - intros ([c config] & <- & Hin). apply filter_In in Hin as [Hin Hm].
    exists config. split.
    + apply In_dict_get; [apply TKA_COURSES_keys_NoDup | assumption].
    + now apply Nat.leb_le in Hm.
  - intros (config & Hget & Hm). exists (category, config). split; [reflexivity|].
    apply filter_In. split; [now apply dict_get_In | now apply Nat.leb_le].
Qed.

(** C4. For every text and every category of the taxonomy, the classifier
    assigns the category exactly when at least two of the category's
    keywords occur as substrings of the lower-cased text: the count the
    code compares with 2 is the number of distinct keywords of the
    category found in the text. A text in which exactly one keyword of the
    category occurs leaves the category unassigned. *)
Theorem classification_threshold (lower : string -> string)
    (text category : string) (config : Cfg.t) :
  dict_get TKA_COURSES category = Some config ->
  let text_lower := lower text in
  let kws := Cfg.keywords config in
  let assigned := In category (_extract_categories_from_text lower text) in
  (assigned <-> 2 <= keyword_matches text_lower kws) /\
  (assigned <->
   exists k1 k2, k1 <> k2 /\ In k1 kws /\ In k2 kws /\
                 contains k1 text_lower = true /\ contains k2 text_lower = true) /\
  ((exists k, In k kws /\ contains k text_lower = true /\
              forall k', In k' kws -> contains k' text_lower = true -> k' = k) ->
   ~ assigned).
Proof.
  intros Hget text_lower kws assigned.
  assert (Hnd : NoDup kws) by exact (TKA_COURSES_keywords_NoDup _ _ Hget).
  assert (H1 : assigned <-> 2 <= keyword_matches text_lower kws).
  { unfold assigned. rewrite extract_categories_In. split.
    - intros (config' & Hget' & Hm). rewrite Hget in Hget'. now injection Hget' as <-.
    - intros Hm. now exists config. }
  split; [exact H1|]. split.
  - rewrite H1. unfold keyword_matches. now apply filter_count_two.
  - intros (k & Hk & Hck & Huniq) Hass. apply H1 in Hass.
    unfold keyword_matches in Hass.
    rewrite (filter_count_one _ kws k Hnd Hk Hck Huniq) in Hass. lia.
Qed.

(** ** Prioritiser *)

Lemma Qgtb_spec (a b : Q) : Qgtb a b = true <-> (b < a)%Q.
Proof.
  unfold Qgtb. rewrite negb_true_iff. split.
  - intros H. apply Qnot_le_lt. intros Hle. apply Qle_bool_iff in Hle. congruence.
  - intros H. destruct (Qle_bool a b) eqn:E; [|reflexivity].
    apply Qle_bool_iff in E. now apply Qlt_not_le in H.
Qed.

Lemma timedelta_days_floor (a b : Z) :
  (day_us * timedelta_days a b <= a - b < day_us * (timedelta_days a b + 1))%Z.
Proof.
  unfold timedelta_days.
  assert (H := Z.div_mod (a - b) day_us ltac:(discriminate)).
  assert (H' := Z.mod_pos_bound (a - b) day_us ltac:(reflexivity)).
  lia.
Qed.


(** ** Reconciliation store *)

Lemma find_by_key_unique (g : Tender.t -> string) (db : Store) (r : Tender.t) :
  NoDup (map g db) -> In r db ->
  List.find (fun x => String.eqb (g x) (g r)) db = Some r.
Proof.
  induction db as [|x db IH]; simpl; [tauto|].
  intros Hnd Hin. apply NoDup_cons in Hnd as [Hnotin Hnd].
  destruct (String.eqb_spec (g x) (g r)) as [Heq|Hne].
  - destruct Hin as [->|Hin]; [reflexivity|].
    exfalso. apply Hnotin. rewrite Heq. apply list_elem_of_In. now apply in_map.
  - destruct Hin as [->|Hin]; [congruence|]. now apply IH.
Qed.

Lemma find_by_key_none (g : Tender.t -> string) (db : Store) (k : string) :
  List.find (fun x => String.eqb (g x) k) db = None <-> ~ In k (map g db).
Proof.
  induction db as [|x db IH]; simpl; [tauto|].
  destruct (String.eqb_spec (g x) k) as [Heq|Hne].
  - split; [discriminate|]. intros H. elim H. now left.
  - rewrite IH. tauto.
Qed.

Lemma existsb_by_key_false (g : Tender.t -> string) (db : Store) (k : string) :
  existsb (fun x => String.eqb (g x) k) db = false <-> ~ In k (map g db).
Proof.
  induction db as [|x db IH]; simpl; [intuition|].
  rewrite orb_false_iff, IH.
  destruct (String.eqb_spec (g x) k); intuition congruence.
Qed.

Lemma update_first_insert (p : Tender.t -> bool) (f : Tender.t -> Tender.t)
    (db : Store) (r : Tender.t) :
  List.find p db = Some r ->
  exists i, db !! i = Some r /\ update_first p f db = <[i := f r]> db.
Proof.
  induction db as [|x db IH]; simpl; [discriminate|].
  destruct (p x) eqn:Hp.
  - intros [= ->]. now exists 0.
  - intros Hfind. destruct (IH Hfind) as (i & Hi & Hupd).
    exists (S i). simpl. now rewrite Hupd.
Qed.

Lemma update_first_map {B : Type} (g : Tender.t -> B) (p : Tender.t -> bool)
    (f : Tender.t -> Tender.t) (db : Store) :
  (forall r, p r = true -> g (f r) = g r) ->
  map g (update_first p f db) = map g db.
Proof.
  intros Hg. induction db as [|x db IH]; simpl; [reflexivity|].
  destruct (p x) eqn:Hp; simpl; [now rewrite Hg | now rewrite IH].
Qed.

Lemma filter_by_key_absent (g : Tender.t -> string) (q : Tender.t -> bool)
    (db : Store) (k : string) :
  ~ In k (map g db) ->
  List.filter (fun r => q r && String.eqb (g r) k) db = [].
Proof.
  induction db as [|x db IH]; simpl; [reflexivity|].
  intros Hnotin. destruct (String.eqb_spec (g x) k) as [Heq|Hne].
  - elim Hnotin. now left.
  - rewrite andb_false_r. apply IH. tauto.
Qed.

Lemma count_by_key_le_1 (g : Tender.t -> string) (q : Tender.t -> bool)
    (db : Store) (k : string) :
  NoDup (map g db) ->
  length (List.filter (fun r => q r && String.eqb (g r) k) db) <= 1.
Proof.
  induction db as [|x db IH]; simpl; [lia|].
  intros Hnd. apply NoDup_cons in Hnd as [Hnotin Hnd].
  destruct (String.eqb_spec (g x) k) as [Heq|Hne].
  - rewrite filter_by_key_absent.
    + destruct (q x); simpl; lia.
    + rewrite <- Heq. intros Hin. apply Hnotin. now apply list_elem_of_In.
  - rewrite andb_false_r. now apply IH.
Qed.

Section StoreFacts.

Variable content_hash : TenderDict.t -> string.
Variable json_dumps : list string -> string.

Abbreviation save := (save_tender_to_db content_hash json_dumps).

(** The schema's constraints hold after every call. *)
Lemma save_preserves_db_ok (now : Z) (db : Store) (td : TenderDict.t) :
  db_ok db -> db_ok (snd (save now db td)).
Proof.
  intros [Hid Htid]. unfold save_tender_to_db.
  destruct (TenderDict.tender_id td) as [tid|]; [|now split].
  destruct (String.eqb tid EmptyString); [now split|].
  destruct (List.find _ db) as [existing|] eqn:Hfind.
  - destruct (negb _); [|now split].
    destruct (storable td); [|now split]. simpl. split.
    + now rewrite update_first_map.
    + rewrite update_first_map; [assumption|].
      intros r Hr. simpl. symmetry. now apply String.eqb_eq.
  - destruct (existsb _ db) eqn:Hex; [now split|].
    destruct (storable td); [|now split]. simpl.
    apply find_by_key_none in Hfind. apply existsb_by_key_false in Hex.
    split; rewrite map_app; simpl; apply NoDup_app; repeat split;
      try assumption; try apply NoDup_singleton.
    + intros x Hx Hx'. apply list_elem_of_In in Hx.
      apply list_elem_of_singleton in Hx'. subst x. now apply Hex.
    + intros x Hx Hx'. apply list_elem_of_In in Hx.
      apply list_elem_of_singleton in Hx'. subst x. now apply Hfind.
Qed.

Lemma save_all_cons (now : Z) (td : TenderDict.t)
    (runs : list (Z * TenderDict.t)) (db : Store) :
  save_all content_hash json_dumps db ((now, td) :: runs)
  = save_all content_hash json_dumps (snd (save now db td)) runs.
Proof. reflexivity. Qed.

Lemma save_all_preserves_db_ok (runs : list (Z * TenderDict.t)) (db : Store) :
  db_ok db -> db_ok (save_all content_hash json_dumps db runs).
Proof.
  revert db. induction runs as [|[now td] runs IH]; intros db Hok; simpl.
  - assumption.
  - apply IH. now apply save_preserves_db_ok.
Qed.

(** A table that holds one row of a given identity keeps holding exactly
    one row, of the same [id], under upserts of that identity. *)
Lemma save_single_identity (now : Z) (r : Tender.t) (td : TenderDict.t)
    (p t : string) :
  TenderDict.portal td = Some p -> TenderDict.tender_id td = Some t ->
  Tender.tender_id r = t -> Tender.portal r = Some p ->
  exists r', snd (save now [r] td) = [r'] /\ Tender.id r' = Tender.id r /\
             Tender.tender_id r' = t /\ Tender.portal r' = Some p.
Proof.
  intros Hp Ht Hrt Hrp. unfold save_tender_to_db. rewrite Ht.
  destruct (String.eqb t EmptyString); [now exists r|].
  simpl. rewrite Hrt, String.eqb_refl.
  destruct (negb _); [|now exists r].
  destruct (storable td); [|now exists r].
  simpl. eexists. split; [reflexivity|]. simpl. now rewrite Hp.
Qed.

End StoreFacts.

(** C1. Two records with the same portal and the same tender_id have the
    same derived primary key, the string portal ++ "_" ++ tender_id, a
    function of the identity alone. Upserting records in any number and
    order into a table that meets the schema's constraints leaves at most
    one row of that identity and at most one row with that key; and from
    an empty table, any sequence of upserts of the two records ends with
    exactly one row, whose id is the derived key, whatever their other
    fields are, as soon as one record of the sequence is one the database
    accepts; when none is (each carries a NaT date, so each commit is
    refused and rolled back), the table stays empty. *)
Theorem identity_determinism (content_hash : TenderDict.t -> string)
    (json_dumps : list string -> string) (td1 td2 : TenderDict.t) (p t : string) :
  TenderDict.portal td1 = Some p -> TenderDict.tender_id td1 = Some t ->
  TenderDict.portal td2 = Some p -> TenderDict.tender_id td2 = Some t ->
  derived_id (TenderDict.portal td1) t = p +:+ "_" +:+ t /\
  derived_id (TenderDict.portal td2) t = derived_id (TenderDict.portal td1) t /\
  (forall db runs, db_ok db ->
     let db' := save_all content_hash json_dumps db runs in
     length (List.filter
               (fun r => option_string_eqb (Tender.portal r) (Some p)
                         && String.eqb (Tender.tender_id r) t) db') <= 1 /\
     length (List.filter
               (fun r => String.eqb (Tender.id r) (p +:+ "_" +:+ t)) db') <= 1) /\
  (forall runs, t <> EmptyString ->
     Forall (fun run => snd run = td1 \/ snd run = td2) runs ->
     (Exists (fun run => storable (snd run) = true) runs ->
      exists r, save_all content_hash json_dumps [] runs = [r] /\
                Tender.id r = p +:+ "_" +:+ t /\
                Tender.tender_id r = t /\ Tender.portal r = Some p) /\
     (Forall (fun run => storable (snd run) = false) runs ->
      save_all content_hash json_dumps [] runs = [])).
Proof.
  intros Hp1 Ht1 Hp2 Ht2. rewrite Hp1, Hp2.
  split; [reflexivity|]. split; [reflexivity|]. split.
  - intros db runs Hok db'. split.
    + apply count_by_key_le_1. now apply save_all_preserves_db_ok.
    + apply (count_by_key_le_1 Tender.id (fun _ => true)).
      now apply save_all_preserves_db_ok.
  - intros runs Htne Hall. apply String.eqb_neq in Htne.
    assert (Hident : forall run, In run runs ->
              TenderDict.portal (snd run) = Some p /\
              TenderDict.tender_id (snd run) = Some t).
    { intros run Hin. rewrite List.Forall_forall in Hall.
      destruct (Hall run Hin) as [-> | ->]; now split. }
    clear Hall. split.
    + intros Hex. induction runs as [|[now td] runs IH];
        [apply List.Exists_nil in Hex; contradiction|].
      destruct (Hident (now, td) ltac:(now left)) as [Hp Ht]. cbn [snd] in Hp, Ht.
      assert (Hrest : forall run, In run runs ->
                TenderDict.portal (snd run) = Some p /\
                TenderDict.tender_id (snd run) = Some t)
        by (intros run Hin; apply Hident; now right).
      rewrite save_all_cons. unfold save_tender_to_db at 1.
      rewrite Ht, Htne. cbn [List.find existsb].
      destruct (storable td) eqn:Hst.
      * cbn [snd app]. clear IH Hex.
        set (r0 := new_tender json_dumps now t (content_hash td) td).
        assert (Hinv : Tender.id r0 = p +:+ "_" +:+ t /\ Tender.tender_id r0 = t /\
                       Tender.portal r0 = Some p).
        { unfold r0. simpl. now rewrite Hp. }
        clearbody r0. clear Hident Hp Ht Hst td now.
        revert r0 Hinv. induction runs as [|[now td] runs IH]; intros r0 Hinv.
        -- now exists r0.
        -- destruct (Hrest (now, td) ltac:(now left)) as [Hp Ht].
           cbn [snd] in Hp, Ht. destruct Hinv as (Hid & Htid & Hpo).
           destruct (save_single_identity content_hash json_dumps now r0 td p t
                       Hp Ht Htid Hpo) as (r' & Hr' & Hid' & Htid' & Hpo').
           rewrite save_all_cons, Hr'.
           apply IH; [intros run Hin; apply Hrest; now right|].
           now rewrite Hid'.
      * cbn [snd]. apply IH; [assumption|].
        apply List.Exists_cons in Hex as [Hex|Hex]; [|assumption].
        cbn [snd] in Hex. congruence.
    + intros Hnone. induction runs as [|[now td] runs IH]; [reflexivity|].
      destruct (Hident (now, td) ltac:(now left)) as [Hp Ht]. cbn [snd] in Hp, Ht.
      apply List.Forall_cons_iff in Hnone as [Hst Hnone]. cbn [snd] in Hst.
      rewrite save_all_cons. unfold save_tender_to_db at 1.
      rewrite Ht, Htne. cbn [List.find existsb]. rewrite Hst. cbn [snd].
      apply IH; [intros run Hin; apply Hident; now right|assumption].
Qed.

Lemma find_app_last (p : Tender.t -> bool) (db : Store) (r : Tender.t) :
  List.find p db = None -> p r = true -> List.find p (db ++ [r]) = Some r.
Proof.
  induction db as [|x db IH]; simpl; intros Hnone Hr.
  - now rewrite Hr.
  - destruct (p x); [discriminate|]. now apply IH.
Qed.

(** C2, as the code has it. For every record with a non-empty tender_id
    that the database accepts (neither date is NaT), such that no stored
    row has that tender_id and no stored row has the record's derived
    primary key, upserting it twice in sequence returns True (created) on
    the first call, which appends the new row, and False on the second,
    which writes nothing: the table after both calls is the table after
    the first. *)
Theorem upsert_idempotent (content_hash : TenderDict.t -> string)
    (json_dumps : list string -> string) (now1 now2 : Z) (db : Store)
    (td : TenderDict.t) (t : string) :
  TenderDict.tender_id td = Some t -> t <> EmptyString ->
  storable td = true ->
  ~ In t (map Tender.tender_id db) ->
  ~ In (derived_id (TenderDict.portal td) t) (map Tender.id db) ->
  let first := save_tender_to_db content_hash json_dumps now1 db td in
  let second := save_tender_to_db content_hash json_dumps now2 (snd first) td in
  fst first = true /\
  snd first = db ++ [new_tender json_dumps now1 t (content_hash td) td] /\
  fst second = false /\
  snd second = snd first.
Proof.
  intros Ht Hne Hst Htid Hid first second.
  apply String.eqb_neq in Hne.
  apply find_by_key_none in Htid. apply existsb_by_key_false in Hid.
  assert (Hfirst : first = (true, db ++ [new_tender json_dumps now1 t (content_hash td) td])).
  { unfold first, save_tender_to_db. rewrite Ht, Hne, Htid.
    cbn [Tender.id new_tender]. now rewrite Hid, Hst. }
  assert (Hsecond : second = (false, snd first)).
  { unfold second. rewrite Hfirst. cbn [snd]. unfold save_tender_to_db.
    rewrite Ht, Hne.
    rewrite (find_app_last _ db _ Htid) by (simpl; apply String.eqb_refl).
    cbn [Tender.hash new_tender]. now rewrite String.eqb_refl. }
  rewrite Hsecond, Hfirst. now repeat split.
Qed.

Lemma column_date_stored (d : option PyDate) :
  is_nat d = false -> option_map DateTime (column_date d) = d.
Proof. destruct d as [[c|]|]; [reflexivity|discriminate|reflexivity]. Qed.

Lemma storable_dates (td : TenderDict.t) :
  storable td = true ->
  is_nat (TenderDict.closing_date td) = false /\
  is_nat (TenderDict.posted_date td) = false.
Proof.
  unfold storable. rewrite andb_true_iff, !negb_true_iff. tauto.
Qed.

(** C3, as the code has it. When a row with the record's identity is
    stored (in a table that meets the schema's constraints): with an equal
    content hash the call writes nothing; with a different hash and a
    record the database accepts, the row, and no other, is replaced by one
    that carries every field of the incoming record (the list fields
    serialised, an optional key only when the record has it), the new hash
    and the current time as last_updated, while id and download_count keep
    their previous values; with a different hash and a record the database
    refuses (a date that is NaT), the commit raises, the handler rolls
    back and the table is as it was. All three cases return False. *)
Theorem reingestion_frame (content_hash : TenderDict.t -> string)
    (json_dumps : list string -> string) (now : Z) (db : Store)
    (td : TenderDict.t) (p t : string) (existing : Tender.t) :
  db_ok db ->
  TenderDict.portal td = Some p -> TenderDict.tender_id td = Some t ->
  t <> EmptyString ->
  In existing db ->
  Tender.portal existing = Some p -> Tender.tender_id existing = t ->
  let result := save_tender_to_db content_hash json_dumps now db td in
  (content_hash td = Tender.hash existing -> result = (false, db)) /\
  (content_hash td <> Tender.hash existing -> storable td = true ->
   exists (i : nat) (updated : Tender.t),
     db !! i = Some existing /\
     result = (false, <[i := updated]> db) /\
     Tender.id updated = Tender.id existing /\
     Tender.download_count updated = Tender.download_count existing /\
     Tender.last_updated updated = now /\
     Tender.hash updated = content_hash td /\
     Tender.tender_id updated = t /\
     Tender.portal updated = Some p /\
     Tender.title updated = TenderDict.title td /\
     Tender.organization updated = TenderDict.organization td /\
     Tender.description updated = TenderDict.description td /\
     Tender.location updated = TenderDict.location td /\
     Tender.value updated = TenderDict.value td /\
     option_map DateTime (Tender.posted_date updated)
     = TenderDict.posted_date td /\
     option_map DateTime (Tender.closing_date updated)
     = TenderDict.closing_date td /\
     Tender.tender_url updated = TenderDict.tender_url td /\
     Tender.categories updated = json_dumps (TenderDict.categories td) /\
     Tender.keywords updated = json_dumps (TenderDict.keywords td) /\
     (forall l, TenderDict.matching_courses td = Some l ->
                Tender.matching_courses updated = json_dumps l) /\
     (forall s, TenderDict.priority td = Some s ->
                Tender.priority updated = Some s) /\
     (forall u, TenderDict.portal_url td = Some u ->
                Tender.portal_url updated = Some u)) /\
  (content_hash td <> Tender.hash existing -> storable td = false ->
   result = (false, db)).
Proof.
  intros [Hid Htid] Hp Ht Hne Hin Hep Het result.
  apply String.eqb_neq in Hne.
  assert (Hfind :
    List.find (fun r => String.eqb (Tender.tender_id r) t) db = Some existing).
  { rewrite <- Het. now apply (find_by_key_unique Tender.tender_id). }
  unfold result, save_tender_to_db. rewrite Ht, Hne, Hfind.
  split; [|split].
  - intros ->. now rewrite String.eqb_refl.
  - intros Hdiff Hst.
    assert (Hneq : String.eqb (Tender.hash existing) (content_hash td) = false)
      by (apply String.eqb_neq; congruence).
    rewrite Hneq, Hst. cbn [negb].
    destruct (storable_dates td Hst) as [Hclosing Hposted].
    destruct (update_first_insert _
                (apply_update json_dumps now t (content_hash td) td) db existing Hfind)
      as (i & Hi & Hupd).
    exists i, (apply_update json_dumps now t (content_hash td) td existing).
    rewrite Hupd. cbn [apply_update Tender.id Tender.download_count
      Tender.last_updated Tender.hash Tender.tender_id Tender.portal Tender.title
      Tender.organization Tender.description Tender.location Tender.value
      Tender.posted_date Tender.closing_date Tender.tender_url Tender.categories
      Tender.keywords Tender.matching_courses Tender.priority Tender.portal_url].
    rewrite Hp, !column_date_stored by assumption.
    repeat split; try reflexivity; try assumption.
    all: intros x Hx; now rewrite Hx.
  - intros Hdiff Hst.
    assert (Hneq : String.eqb (Tender.hash existing) (content_hash td) = false)
      by (apply String.eqb_neq; congruence).
    now rewrite Hneq, Hst.
Qed.

(** ** Orchestrator: counters *)

Section OrchestratorFacts.

Variable lower : string -> string.
Variable list_of_set : list string -> list string.
Variable content_hash : TenderDict.t -> string.
Variable json_dumps : list string -> string.
Variable World : Type.
Variable utcnow : World -> Z * World.
Variable get_driver : World -> Outcome unit * World.
Variable call_static : string -> World -> Outcome (list TenderDict.t) * World.
Variable call_method :
  string -> option string -> World -> Outcome (list TenderDict.t) * World.

Abbreviation save := (save_tender_to_db content_hash json_dumps).
Abbreviation process_one' :=
  (process_one lower list_of_set content_hash json_dumps World utcnow).
Abbreviation process_tenders' :=
  (_process_tenders lower list_of_set content_hash json_dumps World utcnow).
Abbreviation scan_portal' :=
  (scan_portal lower list_of_set content_hash json_dumps World utcnow
     get_driver call_static call_method).
Abbreviation execute_scans' :=
  (_execute_scans_async lower list_of_set content_hash json_dumps World utcnow
     get_driver call_static call_method).

(** What the flag of [save_tender_to_db] says about the table. *)
Lemma save_flag_cases (now : Z) (db : Store) (td : TenderDict.t) :
  (fst (save now db td) = true /\
   exists row, snd (save now db td) = db ++ [row]) \/
  (fst (save now db td) = false /\
   length (snd (save now db td)) = length db).
Proof.
  unfold save_tender_to_db.
  destruct (TenderDict.tender_id td) as [tid|]; [|now right].
  destruct (String.eqb tid EmptyString); [now right|].
  destruct (List.find _ db) as [existing|] eqn:Hfind.
  - right. destruct (negb _); simpl; [|easy].
    destruct (storable td); simpl; [|easy]. split; [reflexivity|].
    destruct (update_first_insert _ (apply_update json_dumps now tid
                (content_hash td) td) db existing Hfind) as (i & _ & ->).
    apply length_insert.
  - destruct (existsb _ db); [now right|].
    destruct (storable td); [|now right]. left. simpl. eauto.
Qed.

Lemma save_dropped (now : Z) (db : Store) (td : TenderDict.t) :
  TenderDict.tender_id td = None \/ TenderDict.tender_id td = Some EmptyString ->
  save now db td = (false, db).
Proof. unfold save_tender_to_db. now intros [-> | ->]. Qed.

Lemma save_unchanged (now : Z) (db : Store) (td : TenderDict.t)
    (existing : Tender.t) (t : string) :
  TenderDict.tender_id td = Some t ->
  List.find (fun r => String.eqb (Tender.tender_id r) t) db = Some existing ->
  Tender.hash existing = content_hash td ->
  save now db td = (false, db).
Proof.
  intros Ht Hfind Hh. unfold save_tender_to_db. rewrite Ht, Hfind, Hh.
  rewrite String.eqb_refl. now destruct (String.eqb t EmptyString).
Qed.

(** One record: exactly one of the two counters moves, by one, in the
    portal's entry and in the totals, as the flag says. *)
Lemma process_one_counts (w : World) (db : Store) (pr : PortalResults.t)
    (res : Results.t) (td : TenderDict.t) :
  exists (now : Z) (priority : string) (w1 : World) (pr1 : PortalResults.t)
         (res1 : Results.t),
    let e :=
      set_priority
        (set_matching_courses td (match_courses lower list_of_set td)) priority in
    let flag := fst (save now db e) in
    let n := if flag then 1 else 0 in
    process_one' (w, db, pr, res) td = (w1, snd (save now db e), pr1, res1) /\
    PortalResults.found pr1 = PortalResults.found pr /\
    PortalResults.new pr1 = PortalResults.new pr + n /\
    PortalResults.updated pr1 = PortalResults.updated pr + (1 - n) /\
    Results.new_tenders res1 = Results.new_tenders res + n /\
    Results.updated_tenders res1 = Results.updated_tenders res + (1 - n) /\
    Results.total_found res1 = Results.total_found res /\
    Results.scanned res1 = Results.scanned res /\
    Results.errors res1 = Results.errors res /\
    Results.by_portal res1 = Results.by_portal res.
Proof.
  unfold process_one.
  set (td1 := set_matching_courses td _).
  destruct (match TenderDict.closing_date td1 with
            | Some _ => _ | None => _ end) as [priority w0].
  destruct (utcnow w0) as [now w1].
  exists now, priority, w1. fold td1.
  destruct (save now db (set_priority td1 priority)) as [[|] db1];
    eexists; eexists; cbn zeta; simpl;
    (split; [reflexivity|]); simpl;
    repeat split; lia.
Qed.

(** The whole loop over the records of one portal. *)
Lemma process_loop_counts (tenders : list TenderDict.t) (w : World) (db : Store)
    (pr : PortalResults.t) (res : Results.t) :
  exists (w1 : World) (db1 : Store) (pr1 : PortalResults.t) (res1 : Results.t)
         (a b : nat),
    fold_left process_one' tenders (w, db, pr, res) = (w1, db1, pr1, res1) /\
    a + b = length tenders /\
    length db1 = length db + a /\
    PortalResults.found pr1 = PortalResults.found pr /\
    PortalResults.new pr1 = PortalResults.new pr + a /\
    PortalResults.updated pr1 = PortalResults.updated pr + b /\
    Results.new_tenders res1 = Results.new_tenders res + a /\
    Results.updated_tenders res1 = Results.updated_tenders res + b /\
    Results.total_found res1 = Results.total_found res /\
    Results.scanned res1 = Results.scanned res /\
    Results.errors res1 = Results.errors res /\
    Results.by_portal res1 = Results.by_portal res.
Proof.
  revert w db pr res. induction tenders as [|td tenders IH]; intros w db pr res.
  - exists w, db, pr, res, 0, 0. simpl. repeat split; lia.
  - destruct (process_one_counts w db pr res td)
      as (now & priority & w0 & pr0 & res0 & Hstep).
    cbn zeta in Hstep.
    set (e := set_priority _ priority) in Hstep.
    destruct Hstep as (Hstep & Hf & Hn & Hu & Hrn & Hru & Hrt & Hrs & Hre & Hrb).
    cbn [fold_left]. rewrite Hstep.
    destruct (IH w0 (snd (save now db e)) pr0 res0)
      as (w1 & db1 & pr1 & res1 & a & b & Hfold & Hab & Hlen & Hf1 & Hn1 & Hu1
          & Hrn1 & Hru1 & Hrt1 & Hrs1 & Hre1 & Hrb1).
    destruct (save_flag_cases now db e) as [[Hflag [row Hrow]]|[Hflag Hsame]];
      rewrite Hflag in *.
    + exists w1, db1, pr1, res1, (S a), b. rewrite Hfold.
      rewrite Hrow, length_app in Hlen. simpl in *.
      repeat split; try congruence; lia.
    + exists w1, db1, pr1, res1, a, (S b). rewrite Hfold. simpl in *.
      repeat split; try congruence; lia.
Qed.

Lemma process_tenders_counts (tenders : list TenderDict.t) (name : string)
    (w : World) (db : Store) (res : Results.t) :
  tenders <> [] ->
  exists (w1 : World) (db1 : Store) (res1 : Results.t) (a b : nat),
    let prev := default (PortalResults.mk 0 0 0) (Results.by_portal res !! name) in
    process_tenders' tenders name w db res = (w1, db1, res1) /\
    a + b = length tenders /\
    length db1 = length db + a /\
    Results.by_portal res1
    = <[name := {| PortalResults.found := PortalResults.found prev + length tenders;
                   PortalResults.new := PortalResults.new prev + a;
                   PortalResults.updated := PortalResults.updated prev + b |}]>
        (Results.by_portal res) /\
    Results.total_found res1 = Results.total_found res + length tenders /\
    Results.new_tenders res1 = Results.new_tenders res + a /\
    Results.updated_tenders res1 = Results.updated_tenders res + b /\
    Results.scanned res1 = Results.scanned res /\
    Results.errors res1 = Results.errors res.
Proof.
  intros Hne. unfold _process_tenders.
  destruct tenders as [|td0 tenders0]; [congruence|].
  set (tenders := td0 :: tenders0) in *.
  set (prev := default _ _).
  destruct (process_loop_counts tenders w db
              {| PortalResults.found := PortalResults.found prev + length tenders;
                 PortalResults.new := PortalResults.new prev;
                 PortalResults.updated := PortalResults.updated prev |} res)
    as (w1 & db1 & pr1 & res1 & a & b & Hfold & Hab & Hlen & Hf1 & Hn1 & Hu1
        & Hrn1 & Hru1 & Hrt1 & Hrs1 & Hre1 & Hrb1).
  rewrite Hfold. do 3 eexists. exists a, b. cbn zeta.
  split; [reflexivity|]. simpl in *.
  repeat split; try congruence; try lia.
  rewrite Hrb1. f_equal. destruct pr1; simpl in *. now subst.
Qed.

Lemma process_tenders_consistent (tenders : list TenderDict.t) (name : string)
    (w : World) (db : Store) (res : Results.t) :
  consistent res ->
  consistent (process_tenders' tenders name w db res).2.
Proof.
  intros [Htot Hby].
  destruct tenders as [|td0 tenders0]; [now split|].
  destruct (process_tenders_counts (td0 :: tenders0) name w db res ltac:(discriminate))
    as (w1 & db1 & res1 & a & b & Hrun).
  cbn zeta in Hrun.
  destruct Hrun as (-> & Hab & _ & Hbp & Htf & Hnt & Hut & _ & _).
  cbn [snd]. split; [lia|].
  intros name' pr'. rewrite Hbp.
  destruct (decide (name = name')) as [<-|Hneq].
  - rewrite lookup_insert_eq. intros [= <-].
    destruct (Results.by_portal res !! name) as [prev|] eqn:Hprev; simpl in *.
    + specialize (Hby _ _ Hprev). lia.
    + lia.
  - rewrite lookup_insert_ne by assumption. apply Hby.
Qed.

Lemma scan_portal_consistent (s : BatchState World) (portal_id : string) :
  consistent (results World s) ->
  consistent (results World (scan_portal' s portal_id)).
Proof.
  intros Hc. unfold scan_portal.
  destruct (dict_get PORTAL_CONFIGS portal_id) as [config|]; [|assumption].
  destruct (resolve_scraper portal_id) as [fn|]; [|assumption].
  destruct (invoke _ _ _ _ _ _ _ _) as [[[tenders|msg] w] drv].
  - assert (H := process_tenders_consistent tenders (Portal.name config) w
                   (db World s) (results World s) Hc).
    destruct tenders as [|td0 tenders0]; [exact Hc|].
    destruct (process_tenders' _ _ _ _ _) as [[w1 db1] res1]. exact H.
  - exact Hc.
Qed.

Lemma execute_scans_consistent (portal_ids : list string) (s : BatchState World) :
  consistent (results World s) ->
  consistent (results World (execute_scans' portal_ids s)).
Proof.
  revert s. induction portal_ids as [|pid rest IH]; intros s Hc; simpl.
  - assumption.
  - apply IH. now apply scan_portal_consistent.
Qed.

End OrchestratorFacts.

(** ** Orchestrator: the batch report *)

Section BatchClaims.

Variable lower : string -> string.
Variable list_of_set : list string -> list string.
Variable content_hash : TenderDict.t -> string.
Variable json_dumps : list string -> string.
Variable World : Type.
Variable utcnow : World -> Z * World.
Variable get_driver : World -> Outcome unit * World.
Variable call_static : string -> World -> Outcome (list TenderDict.t) * World.
Variable call_method :
  string -> option string -> World -> Outcome (list TenderDict.t) * World.

Abbreviation save := (save_tender_to_db content_hash json_dumps).
Abbreviation process_one' :=
  (process_one lower list_of_set content_hash json_dumps World utcnow).
Abbreviation process_tenders' :=
  (_process_tenders lower list_of_set content_hash json_dumps World utcnow).
Abbreviation invoke' := (invoke World get_driver call_static call_method).
Abbreviation scan_portal' :=
  (scan_portal lower list_of_set content_hash json_dumps World utcnow
     get_driver call_static call_method).
Abbreviation execute_scans' :=
  (_execute_scans_async lower list_of_set content_hash json_dumps World utcnow
     get_driver call_static call_method).

Lemma scan_portal_raised (s : BatchState World) (portal_id : string)
    (config : Portal.t) (fn msg : string) (w1 : World) (drv1 : bool) :
  dict_get PORTAL_CONFIGS portal_id = Some config ->
  resolve_scraper portal_id = Some fn ->
  invoke' config fn (world World s) (driver World s) = (Raised msg, w1, drv1) ->
  scan_portal' s portal_id
  = {| world := w1; db := db World s; driver := drv1;
       results := with_error (results World s) (Portal.name config) msg |}.
Proof. intros Hc Hr Hi. unfold scan_portal. now rewrite Hc, Hr, Hi. Qed.

Lemma scan_portal_returned (s : BatchState World) (portal_id : string)
    (config : Portal.t) (fn : string) (tenders : list TenderDict.t)
    (w1 : World) (drv1 : bool) :
  dict_get PORTAL_CONFIGS portal_id = Some config ->
  resolve_scraper portal_id = Some fn ->
  invoke' config fn (world World s) (driver World s) = (Returned tenders, w1, drv1) ->
  tenders <> [] ->
  let r := results World s in
  let r' := results World (scan_portal' s portal_id) in
  Results.errors r' = Results.errors r /\
  Results.scanned r' = Results.scanned r ++ [portal_id] /\
  is_Some (Results.by_portal r' !! Portal.name config) /\
  (forall name, is_Some (Results.by_portal r !! name) ->
                is_Some (Results.by_portal r' !! name)).
Proof.
  intros Hc Hr Hi Hne r r'. unfold r', scan_portal. rewrite Hc, Hr, Hi.
  destruct (process_tenders_counts lower list_of_set content_hash json_dumps
              World utcnow tenders (Portal.name config) w1 (db World s) r Hne)
    as (w2 & db2 & res2 & a & b & Hrun).
  cbn zeta in Hrun. destruct Hrun as (Hrun & _ & _ & Hbp & _ & _ & _ & Hsc & Her).
  destruct tenders as [|td0 tenders0]; [congruence|].
  fold r. rewrite Hrun. cbn [results Results.errors Results.scanned Results.by_portal].
  rewrite Hbp, Hsc, Her. repeat split.
  - rewrite lookup_insert_eq. eauto.
  - intros name Hsome. destruct (decide (Portal.name config = name)) as [<-|Hneq].
    + rewrite lookup_insert_eq. eauto.
    + now rewrite lookup_insert_ne.
Qed.

(** C10. Every raw record that [_process_tenders] handles moves exactly
    one of the two counters, in the portal's entry and in the totals: new
    when [save_tender_to_db] returned True, which it does only when it
    appended a row; updated in every other case, among them a record
    whose tender_id is missing or empty (dropped, table untouched) and a
    record whose hash equals the stored one (table untouched). Hence a
    call on n records adds n to found and a and b to new and updated with
    a + b = n, a being the number of rows inserted; and in the report of
    any batch found = new + updated holds for every portal entry and for
    the totals. *)
Theorem report_counters :
  (forall now db td,
     (TenderDict.tender_id td = None \/
      TenderDict.tender_id td = Some EmptyString -> save now db td = (false, db)) /\
     (forall t existing,
        TenderDict.tender_id td = Some t ->
        List.find (fun r => String.eqb (Tender.tender_id r) t) db = Some existing ->
        Tender.hash existing = content_hash td -> save now db td = (false, db)) /\
     ((fst (save now db td) = true /\
       exists row, snd (save now db td) = db ++ [row]) \/
      (fst (save now db td) = false /\
       length (snd (save now db td)) = length db))) /\
  (forall w db pr res td,
     exists now priority w1 pr1 res1,
       let e :=
         set_priority
           (set_matching_courses td (match_courses lower list_of_set td))
           priority in
       let flag := fst (save now db e) in
       let n := if flag then 1 else 0 in
       process_one' (w, db, pr, res) td = (w1, snd (save now db e), pr1, res1) /\
       PortalResults.found pr1 = PortalResults.found pr /\
       PortalResults.new pr1 = PortalResults.new pr + n /\
       PortalResults.updated pr1 = PortalResults.updated pr + (1 - n) /\
       Results.new_tenders res1 = Results.new_tenders res + n /\
       Results.updated_tenders res1 = Results.updated_tenders res + (1 - n)) /\
  (forall tenders name w db res,
     tenders <> [] ->
     exists w1 db1 res1 a b,
       let prev :=
         default (PortalResults.mk 0 0 0) (Results.by_portal res !! name) in
       process_tenders' tenders name w db res = (w1, db1, res1) /\
       a + b = length tenders /\
       length db1 = length db + a /\
       Results.by_portal res1 !! name
       = Some {| PortalResults.found := PortalResults.found prev + length tenders;
                 PortalResults.new := PortalResults.new prev + a;
                 PortalResults.updated := PortalResults.updated prev + b |} /\
       Results.total_found res1 = Results.total_found res + length tenders /\
       Results.new_tenders res1 = Results.new_tenders res + a /\
       Results.updated_tenders res1 = Results.updated_tenders res + b) /\
  consistent initial_results /\
  (forall portal_ids s,
     consistent (results World s) ->
     consistent (results World (execute_scans' portal_ids s))).
Proof.
  split; [|split; [|split; [|split]]].
  - intros now db td. split; [apply save_dropped|].
    split; [intros t existing; apply save_unchanged | apply save_flag_cases].
  - intros w db pr res td.
    destruct (process_one_counts lower list_of_set content_hash json_dumps
                World utcnow w db pr res td) as (now & e & w1 & pr1 & res1 & H).
    exists now, e, w1, pr1, res1. cbn zeta in *. tauto.
  - intros tenders name w db res Hne.
    destruct (process_tenders_counts lower list_of_set content_hash json_dumps
                World utcnow tenders name w db res Hne)
      as (w1 & db1 & res1 & a & b & H).
    exists w1, db1, res1, a, b. cbn zeta in *.
    destruct H as (H1 & H2 & H3 & H4 & H5 & H6 & H7 & _).
    repeat split; try assumption. rewrite H4. apply lookup_insert_eq.
  - split; [reflexivity|]. intros name pr. simpl. now rewrite lookup_empty.
  - intros portal_ids s. apply execute_scans_consistent.
Qed.

(** What is recorded when the outcome of the invocation is known. *)
Lemma scan_portal_lists (s : BatchState World) (portal_id : string)
    (config : Portal.t) (fn : string) (tenders : list TenderDict.t)
    (w1 : World) (drv1 : bool) :
  dict_get PORTAL_CONFIGS portal_id = Some config ->
  resolve_scraper portal_id = Some fn ->
  invoke' config fn (world World s) (driver World s) = (Returned tenders, w1, drv1) ->
  let r := results World s in
  let r' := results World (scan_portal' s portal_id) in
  Results.errors r' = Results.errors r /\
  Results.scanned r' = Results.scanned r ++ [portal_id] /\
  driver World (scan_portal' s portal_id) = drv1 /\
  (forall name, is_Some (Results.by_portal r !! name) ->
                is_Some (Results.by_portal r' !! name)) /\
  (tenders <> [] -> is_Some (Results.by_portal r' !! Portal.name config)) /\
  (tenders = [] ->
   Results.by_portal r' = Results.by_portal r /\
   db World (scan_portal' s portal_id) = db World s).
Proof.
  intros Hc Hr Hi r r'.
  destruct tenders as [|td0 tenders0].
  - unfold r', scan_portal. rewrite Hc, Hr, Hi. cbn.
    split; [reflexivity|]. split; [reflexivity|]. split; [reflexivity|].
    split; [tauto|]. split; [congruence|]. intros _. now split.
  - destruct (scan_portal_returned s portal_id config fn (td0 :: tenders0) w1 drv1
                Hc Hr Hi ltac:(discriminate)) as (He & Hs & Hb & Hkeep).
    split; [exact He|]. split; [exact Hs|]. split.
    + unfold scan_portal. rewrite Hc, Hr, Hi.
      now destruct (process_tenders' _ _ _ _ _) as [[w2 db2] res2].
    + split; [exact Hkeep|]. split; [intros _; exact Hb|discriminate].
Qed.

End BatchClaims.

(** ** Orchestrator: fault isolation *)

(** No function the dispatcher resolves to is an attribute of the scanner
    instance: the static functions of [scrapers.py] are always called as
    such. *)
Lemma resolved_not_attribute (portal_id fn : string) :
  resolve_scraper portal_id = Some fn ->
  existsb (String.eqb fn) scanner_attributes = false.
Proof.
  assert (Hfn : forall k name, In (k, RefFn name) SCRAPER_DISPATCHER ->
            existsb (String.eqb name) scanner_attributes = false).
  { intros k name Hin. unfold SCRAPER_DISPATCHER in Hin.
    repeat (destruct Hin as [Hin|Hin];
            [inversion Hin; subst; reflexivity|]).
    destruct Hin. }
  unfold resolve_scraper.
  destruct (dict_get SCRAPER_DISPATCHER portal_id) as [[alias|name]|] eqn:H;
    [|intros [= <-]; apply dict_get_In in H; eapply Hfn; eassumption
     |discriminate].
  destruct (dict_get SCRAPER_DISPATCHER alias) as [[alias2|name]|] eqn:H2;
    [discriminate| |discriminate].
  intros [= <-]. apply dict_get_In in H2. eapply Hfn; eassumption.
Qed.

Section IsolationClaim.

Variable lower : string -> string.
Variable list_of_set : list string -> list string.
Variable content_hash : TenderDict.t -> string.
Variable json_dumps : list string -> string.
Variable World : Type.
Variable utcnow : World -> Z * World.
Variable get_driver : World -> Outcome unit * World.
(** The bodies of the extractors of [scrapers.py], by function name. *)
Variable body : string -> World -> list TenderDict.t * option string * World.
Variable call_method :
  string -> option string -> World -> Outcome (list TenderDict.t) * World.

Abbreviation invoke_guarded :=
  (invoke World get_driver (guarded_extractor body) call_method).
Abbreviation scan_guarded :=
  (scan_portal lower list_of_set content_hash json_dumps World utcnow
     get_driver (guarded_extractor body) call_method).
Abbreviation execute_guarded :=
  (_execute_scans_async lower list_of_set content_hash json_dumps World utcnow
     get_driver (guarded_extractor body) call_method).

(** The invocation raises only when the driver is asked for and refused. *)
Lemma invoke_raised_by_driver (config : Portal.t) (fn msg : string)
    (w w1 : World) (drv drv1 : bool) :
  existsb (String.eqb fn) scanner_attributes = false ->
  invoke_guarded config fn w drv = (Raised msg, w1, drv1) ->
  default false (Portal.requires_selenium config) = true /\
  drv = false /\ drv1 = false /\ get_driver w = (Raised msg, w1).
Proof.
  intros Hattr. unfold invoke, guarded_extractor. rewrite Hattr.
  destruct (default false (Portal.requires_selenium config)).
  - destruct drv.
    + destruct (body fn w) as [[tenders failure] w']. discriminate.
    + destruct (get_driver w) as [[u|msg'] w'].
      * destruct (body fn w') as [[tenders failure] w'']. discriminate.
      * intros [= -> -> <-]. now repeat split.
  - destruct (body fn w) as [[tenders failure] w']. discriminate.
Qed.

(** Where no driver has to be obtained, the invocation returns what the
    body of the extractor has gathered, whether an exception ended the
    body or not. *)
Lemma invoke_returns_gathered (config : Portal.t) (fn : string) (w : World)
    (drv : bool) :
  existsb (String.eqb fn) scanner_attributes = false ->
  default false (Portal.requires_selenium config) = false \/ drv = true ->
  invoke_guarded config fn w drv
  = (Returned (fst (fst (body fn w))), snd (body fn w), drv).
Proof.
  intros Hattr Hplain. unfold invoke, guarded_extractor. rewrite Hattr.
  destruct (default false (Portal.requires_selenium config)).
  - destruct Hplain as [Hplain| ->]; [discriminate|].
    now destruct (body fn w) as [[tenders failure] w'].
  - now destruct (body fn w) as [[tenders failure] w'].
Qed.


End IsolationClaim.


(** ** Source extractors *)

Lemma In_built (items : list Item) (td : TenderDict.t) :
  In td (built items) <-> In (Some td) items.
Proof.
  induction items as [|[x|] items IH]; simpl; [tauto| |].
  - rewrite IH. split; intros [H|H]; auto; left; congruence.
  - rewrite IH. split; [auto|]. now intros [H|H].
Qed.

Lemma length_built (items : list Item) : length (built items) <= length items.
Proof.
  induction items as [|[x|] items IH]; simpl; lia.
Qed.

Lemma length_filter_le {A : Type} (p : A -> bool) (l : list A) :
  length (List.filter p l) <= length l.
Proof. induction l as [|x l IH]; simpl; [lia|]. destruct (p x); simpl; lia. Qed.

Lemma length_take_built (n : nat) (items : list Item) :
  length (built (take n items)) <= n.
Proof.
  etransitivity; [apply length_built|]. rewrite length_take. lia.
Qed.

Lemma fold_left_append {A B : Type} (f : A -> list B) (l : list A) (acc : list B) :
  fold_left (fun acc x => acc ++ f x) l acc = acc ++ concat (map f l).
Proof.
  revert acc. induction l as [|x l IH]; intros acc; simpl.
  - now rewrite app_nil_r.
  - now rewrite IH, <- List.app_assoc.
Qed.

Section ExtractorFacts.

Variable lower : string -> string.

Abbreviation relevant := (_is_training_related lower).

Lemma is_training_related_spec (tender : TenderDict.t) :
  relevant tender = true <->
  exists keyword, In keyword training_keywords /\
    contains keyword
      (lower (TenderDict.title tender +:+ " " +:+ TenderDict.description tender))
    = true.
Proof. unfold _is_training_related. apply existsb_exists. Qed.

(** A capped, filtered loop over one page. *)
Lemma In_filtered_page (n : nat) (items : list Item) (td : TenderDict.t) :
  In td (List.filter relevant (built (take n items))) <->
  In (Some td) (take n items) /\ relevant td = true.
Proof. now rewrite filter_In, In_built. Qed.

(** A filtered loop over several pages. *)
Lemma In_filtered_pages (pages : list (list Item)) (td : TenderDict.t) :
  In td
    (fold_left
       (fun tenders rows => tenders ++ List.filter relevant (built rows))
       pages []) <->
  (exists rows, In rows pages /\ In (Some td) rows) /\ relevant td = true.
Proof.
  rewrite fold_left_append, app_nil_l, in_concat. split.
  - intros (l & Hl & Hin). apply in_map_iff in Hl as (rows & <- & Hrows).
    apply filter_In in Hin as [Hin Hrel]. apply In_built in Hin. eauto.
  - intros [(rows & Hrows & Hin) Hrel].
    exists (List.filter relevant (built rows)). split.
    + apply in_map_iff. eauto.
    + apply filter_In. split; [now apply In_built | assumption].
Qed.

Lemma length_filtered_pages (pages : list (list Item)) :
  length
    (fold_left
       (fun tenders rows => tenders ++ List.filter relevant (built rows))
       pages [])
  <= length (concat pages).
Proof.
  rewrite fold_left_append, app_nil_l.
  induction pages as [|rows pages IH]; simpl; [lia|].
  rewrite !length_app.
  assert (H1 := length_filter_le relevant (built rows)).
  assert (H2 := length_built rows). lia.
Qed.

End ExtractorFacts.


(** C8, as the code has it. One invocation yields at most 20 records for
    [scan_ariba_portal] and [scan_ontario_health] and at most 30 for every
    other extractor except three: [scan_merx] and [scan_seao] stop after 5
    and 3 result pages and [scan_canadabuys] reads every fetched file, so
    each of the three yields at most as many records as those pages or
    files hold, with no bound on the items of a page. *)
Theorem extractor_caps (lower : string -> string) :
  (forall items,
     length (scan_ariba_portal lower items) <= 20 /\
     length (scan_ontario_health items) <= 20 /\
     length (scan_biddingo lower items) <= 30 /\
     length (scan_bcbid lower items) <= 30 /\
     length (scan_alberta_purchasing items) <= 30 /\
     length (scan_saskatchewan_tenders items) <= 30 /\
     length (scan_manitoba_tenders items) <= 30 /\
     length (scan_ontario_tenders items) <= 30 /\
     length (scan_ns_tenders items) <= 30 /\
     length (scan_ottawa_bids items) <= 30 /\
     length (scan_edmonton_bids items) <= 30 /\
     length (scan_calgary_procurement items) <= 30 /\
     length (scan_winnipeg_bids items) <= 30 /\
     length (scan_vancouver_procurement items) <= 30 /\
     length (scan_halifax_procurement items) <= 30 /\
     length (scan_regina_procurement items) <= 30 /\
     length (scan_nbon_newbrunswick items) <= 30 /\
     length (scan_pei_tenders lower items) <= 30 /\
     length (scan_nl_procurement items) <= 30 /\
     length (scan_buybc_health items) <= 30) /\
  (forall pages,
     length (scan_merx lower pages) <= length (concat (take 5 pages)) /\
     length (scan_seao lower pages) <= length (concat (take 3 pages)) /\
     length (scan_canadabuys lower pages) <= length (concat pages)).
Proof.
  split.
  - intros items.
    assert (H20 := length_take_built 20 items).
    assert (H30 := length_take_built 30 items).
    assert (Hf : forall (p : TenderDict.t -> bool) n,
               length (List.filter p (built (take n items))) <= n).
    { intros p n. etransitivity; [apply length_filter_le|apply length_take_built]. }
    unfold scan_ariba_portal, scan_biddingo, scan_bcbid, scan_pei_tenders.
    repeat split; try exact H20; try exact H30; apply Hf.
  - intros pages. repeat split; apply length_filtered_pages.
Qed.

(** ** Query API *)

Lemma find_In_key (g : Tender.t -> string) (db : Store) (r : Tender.t) (k : string) :
  List.find (fun x => String.eqb (g x) k) db = Some r -> In r db /\ g r = k.
Proof.
  intros H. apply find_some in H as [Hin Heq]. split; [assumption|].
  now apply String.eqb_eq.
Qed.

(** C9, as the code has it. The list, statistics and CSV export requests
    leave the table as it was. A detail request for an id that is not
    stored does too (it answers 404). A detail request for a stored id
    adds one to download_count of the row with that id: the row keeps every
    other field and every other row is left as it was. *)
Theorem query_api_frame (json_loads : string -> list string)
    (sql_like sql_ilike : string -> string -> bool)
    (order_by_closing_priority : list Tender.t -> list Tender.t)
    (str_float : Q -> string) (str_datetime : option Z -> string)
    (now1 now2 now3 : Z) (db : Store) :
  let handle' :=
    handle json_loads sql_like sql_ilike order_by_closing_priority
      str_float str_datetime now1 now2 now3 in
  (forall f, snd (handle' (ReqList f) db) = db) /\
  snd (handle' ReqStats db) = db /\
  (forall portal category, snd (handle' (ReqExportCsv portal category) db) = db) /\
  (forall tender_id,
     ~ In tender_id (map Tender.id db) ->
     handle' (ReqDetail tender_id) db = (RespNotFound, db)) /\
  (forall r,
     db_ok db -> In r db ->
     exists i r',
       db !! i = Some r /\
       snd (handle' (ReqDetail (Tender.id r)) db) = <[i := r']> db /\
       Tender.download_count r' = (Tender.download_count r + 1)%Z /\
       Tender.id r' = Tender.id r /\
       Tender.tender_id r' = Tender.tender_id r /\
       Tender.title r' = Tender.title r /\
       Tender.organization r' = Tender.organization r /\
       Tender.portal r' = Tender.portal r /\
       Tender.portal_url r' = Tender.portal_url r /\
       Tender.value r' = Tender.value r /\
       Tender.closing_date r' = Tender.closing_date r /\
       Tender.posted_date r' = Tender.posted_date r /\
       Tender.description r' = Tender.description r /\
       Tender.location r' = Tender.location r /\
       Tender.categories r' = Tender.categories r /\
       Tender.keywords r' = Tender.keywords r /\
       Tender.contact_email r' = Tender.contact_email r /\
       Tender.contact_phone r' = Tender.contact_phone r /\
       Tender.tender_url r' = Tender.tender_url r /\
       Tender.documents_url r' = Tender.documents_url r /\
       Tender.last_updated r' = Tender.last_updated r /\
       Tender.is_active r' = Tender.is_active r /\
       Tender.hash r' = Tender.hash r /\
       Tender.priority r' = Tender.priority r /\
       Tender.matching_courses r' = Tender.matching_courses r /\
       Tender.attachments r' = Tender.attachments r).
Proof.
  intros handle'. unfold handle', handle. repeat split.
  - intros tender_id Hnotin. unfold get_tender_detail.
    apply find_by_key_none in Hnotin. now rewrite Hnotin.
  - intros r [Hid _] Hin. unfold get_tender_detail.
    assert (Hfind := find_by_key_unique Tender.id db r Hid Hin).
    rewrite Hfind.
    destruct (update_first_insert _ bump_download_count db r Hfind)
      as (i & Hi & Hupd).
    exists i, (bump_download_count r). cbn [snd]. rewrite Hupd.
    repeat split; assumption || reflexivity.
Qed.

(** * Evaluations on concrete inputs *)

Example classify_agile_only :
  _extract_categories_from_text ascii_lower "Agile delivery services" = [].
Proof. reflexivity. Qed.

Example classify_agile_scrum :
  _extract_categories_from_text ascii_lower "Agile coach and Scrum Master"
  = ["agile-scrum"].
Proof. reflexivity. Qed.

Example keywords_agile_scrum :
  _extract_keywords_from_text ascii_lower "Agile coach and Scrum Master"
  = ["agile"; "scrum"; "scrum master"].
Proof. reflexivity. Qed.

(** The specification's example: value 2,000,000, closing in 30 days, no
    matched offering, one category. *)
Example priority_value_rule (now : Z) :
  calculate_priority now
    {| TenderDict.tender_id := Some "T-1"; TenderDict.title := "Training";
       TenderDict.organization := EmptyString; TenderDict.portal := Some "MERX";
       TenderDict.portal_url := None; TenderDict.value := 2000000;
       TenderDict.closing_date := Some (DateTime (now + 30 * day_us));
       TenderDict.posted_date := None; TenderDict.description := EmptyString;
       TenderDict.location := EmptyString; TenderDict.tender_url := EmptyString;
       TenderDict.categories := ["leadership"]; TenderDict.keywords := [];
       TenderDict.matching_courses := Some []; TenderDict.priority := None |}
  = "high".
Proof. reflexivity. Qed.

Example merx_row_123_fields :
  Tender.id merx_row_123 = "MERX_123" /\ Tender.tender_id merx_row_123 = "123" /\
  Tender.portal merx_row_123 = Some "MERX" /\
  Tender.download_count merx_row_123 = 0%Z.
Proof. repeat split. Qed.

(** The dispatcher entries that are strings stay strings after the alias
    step and are not callable: those portals are skipped by the loop. An
    alias of an entry that is a function resolves to that function. *)
Example dispatcher_resolution :
  resolve_scraper "canadabuys" = None /\
  resolve_scraper "montreal" = None /\
  resolve_scraper "saskatoon" = Some "scan_saskatchewan_tenders" /\
  resolve_scraper "pei" = Some "scan_pei_tenders" /\
  resolve_scraper "no-such-portal" = None.
Proof. repeat split. Qed.

Example match_courses_leadership :
  match_courses ascii_lower demo_list_of_set
    {| TenderDict.tender_id := Some "T-2";
       TenderDict.title := "Executive coaching and leadership programme";
       TenderDict.organization := EmptyString; TenderDict.portal := Some "MERX";
       TenderDict.portal_url := None; TenderDict.value := 0;
       TenderDict.closing_date := None; TenderDict.posted_date := None;
       TenderDict.description := EmptyString; TenderDict.location := EmptyString;
       TenderDict.tender_url := EmptyString;
       TenderDict.categories := ["leadership"];
       TenderDict.keywords := ["leadership"; "executive"; "coaching"];
       TenderDict.matching_courses := None; TenderDict.priority := None |}
  = ["Leadership Excellence"; "Executive Coaching"; "Change Management";
     "Strategic Leadership"; "Team Leadership"].
Proof. vm_compute. reflexivity. Qed.

(** ** Instances of the general statements *)

Lemma classification_threshold_witness :
  exists config,
    dict_get TKA_COURSES "agile-scrum" = Some config /\
    In "agile-scrum"
      (_extract_categories_from_text ascii_lower "Agile coach and Scrum Master") /\
    ~ In "agile-scrum"
        (_extract_categories_from_text ascii_lower "Agile delivery services").
Proof.
  eexists. split; [reflexivity|]. split.
  - apply (proj1 (classification_threshold ascii_lower
                    "Agile coach and Scrum Master" "agile-scrum" _ eq_refl)).
    vm_compute. lia.
  - apply (proj2 (proj2 (classification_threshold ascii_lower
                    "Agile delivery services" "agile-scrum" _ eq_refl))).
    exists "agile". split; [vm_compute; tauto|]. split; [reflexivity|].
    intros k' Hin Hc.
    repeat (destruct Hin as [<-|Hin]; [first [reflexivity | discriminate Hc]|]).
    destruct Hin.
Defined.

Lemma identity_determinism_witness :
  (TenderDict.portal leadership_training = Some "BC Bid" /\
   TenderDict.tender_id leadership_training = Some "123" /\
   TenderDict.portal leadership_training_amended = Some "BC Bid" /\
   TenderDict.tender_id leadership_training_amended = Some "123") /\
  derived_id (TenderDict.portal leadership_training_amended) "123" = "BC Bid_123" /\
  exists r,
    save_all demo_hash demo_json_dumps []
      [(0%Z, leadership_training); (5%Z, leadership_training_amended);
       (9%Z, leadership_training)] = [r] /\
    Tender.id r = "BC Bid_123".
Proof.
  split; [repeat split|].
  destruct (identity_determinism demo_hash demo_json_dumps leadership_training
              leadership_training_amended "BC Bid" "123"
              eq_refl eq_refl eq_refl eq_refl) as (Hkey & Hsame & _ & Hone).
  split; [rewrite Hsame; exact Hkey|].
  destruct (Hone [(0%Z, leadership_training); (5%Z, leadership_training_amended);
                  (9%Z, leadership_training)]) as [Hsome _].
  - discriminate.
  - apply List.Forall_cons; [now left|].
    apply List.Forall_cons; [now right|].
    apply List.Forall_cons; [now left|]. apply List.Forall_nil.
  - destruct Hsome as (r & Hr & Hid & _); [apply List.Exists_cons_hd; reflexivity|].
    exists r. now split.
Defined.

Lemma upsert_idempotent_witness :
  let td := demo_dict "456" "BC Bid" "Coaching workshop" in
  (TenderDict.tender_id td = Some "456" /\ storable td = true /\
   ~ In "456" (map Tender.tender_id [merx_row_123]) /\
   ~ In (derived_id (TenderDict.portal td) "456") (map Tender.id [merx_row_123])) /\
  fst (save_tender_to_db demo_hash demo_json_dumps 7 [merx_row_123] td) = true /\
  snd (save_tender_to_db demo_hash demo_json_dumps 8
         (snd (save_tender_to_db demo_hash demo_json_dumps 7 [merx_row_123] td)) td)
  = snd (save_tender_to_db demo_hash demo_json_dumps 7 [merx_row_123] td).
Proof.
  intros td.
  assert (Ht : ~ In "456" (map Tender.tender_id [merx_row_123]))
    by (simpl; intros [H|[]]; discriminate H).
  assert (Hi : ~ In (derived_id (TenderDict.portal td) "456")
                 (map Tender.id [merx_row_123]))
    by (simpl; intros [H|[]]; discriminate H).
  split; [now repeat split|].
  destruct (upsert_idempotent demo_hash demo_json_dumps 7 8 [merx_row_123] td "456"
              eq_refl ltac:(discriminate) eq_refl Ht Hi) as (H1 & _ & _ & H4).
  now split.
Defined.

Lemma reingestion_frame_witness :
  let td := demo_dict "123" "MERX" "Audit services (revised scope)" in
  (db_ok [merx_row_123] /\ In merx_row_123 [merx_row_123] /\
   TenderDict.portal td = Tender.portal merx_row_123 /\
   TenderDict.tender_id td = Some (Tender.tender_id merx_row_123) /\
   storable td = true) /\
  exists updated,
    save_tender_to_db demo_hash demo_json_dumps 99 [merx_row_123] td
    = (false, [updated]) /\
    Tender.id updated = "MERX_123" /\
    Tender.download_count updated = 0%Z /\
    Tender.last_updated updated = 99%Z /\
    Tender.title updated = "Audit services (revised scope)".
Proof.
  intros td.
  assert (Hok : db_ok [merx_row_123])
    by (split; simpl; apply NoDup_singleton).
  split; [repeat split; try apply Hok; now left|].
  destruct (reingestion_frame demo_hash demo_json_dumps 99 [merx_row_123] td
              "MERX" "123" merx_row_123 Hok eq_refl eq_refl ltac:(discriminate)
              ltac:(now left) eq_refl eq_refl) as (_ & Hdiff & _).
  destruct (Hdiff ltac:(discriminate) eq_refl)
    as (i & updated & Hi & Hres & Hid & Hdc & Hlu & _ & _ & _ & Htitle & _).
  destruct i as [|i]; [|destruct i; discriminate Hi].
  exists updated. rewrite Hres, Hid, Hdc, Hlu, Htitle. now repeat split.
Defined.


(** ** Inputs on which the specification's wording fails *)

(** C2. A stored row from another portal has the record's tender_id: the
    record's identity (portal, tender_id) is absent from the table, yet
    the lookup by tender_id alone finds that row and the first call returns
    False, whatever the digest is. *)
Lemma idempotence_counterexample :
  db_ok [merx_row_123] /\
  Tender.portal merx_row_123 = Some "MERX" /\
  Tender.tender_id merx_row_123 = "123" /\
  TenderDict.portal leadership_training = Some "BC Bid" /\
  TenderDict.tender_id leadership_training = Some "123" /\
  (forall r, In r [merx_row_123] ->
     ~ (Tender.portal r = TenderDict.portal leadership_training /\
        Some (Tender.tender_id r) = TenderDict.tender_id leadership_training)) /\
  (forall content_hash json_dumps now,
     fst (save_tender_to_db content_hash json_dumps now [merx_row_123]
            leadership_training) = false).
Proof.
  split; [split; simpl; apply NoDup_singleton|].
  repeat split.
  - intros r [<-|[]] [Hp _]. discriminate Hp.
  - intros content_hash json_dumps now. unfold save_tender_to_db. simpl.
    now destruct (negb _).
Qed.

(** C3. The stored row MERX_123 is re-ingested with a new title, hence a
    different hash, and a closing date that is NaT: the commit of the
    update is refused, the handler rolls back, and the row keeps its old
    title and its old last_updated. *)
Lemma reingestion_frame_counterexample :
  db_ok [merx_row_123] /\
  TenderDict.portal audit_services_unreadable_date = Tender.portal merx_row_123 /\
  TenderDict.tender_id audit_services_unreadable_date
  = Some (Tender.tender_id merx_row_123) /\
  demo_hash audit_services_unreadable_date <> Tender.hash merx_row_123 /\
  TenderDict.title audit_services_unreadable_date <> Tender.title merx_row_123 /\
  (forall now,
     save_tender_to_db demo_hash demo_json_dumps now [merx_row_123]
       audit_services_unreadable_date
     = (false, [merx_row_123])).
Proof.
  split; [split; simpl; apply NoDup_singleton|].
  split; [reflexivity|]. split; [reflexivity|].
  split; [intros H; vm_compute in H; discriminate H|].
  split; [intros H; vm_compute in H; discriminate H|].
  intros now. reflexivity.
Qed.



(** C8. [scan_canadabuys] yields 31 records from a file of 31 relevant
    rows, and [scan_merx] does from one page of 31. *)
Lemma extractor_caps_counterexample :
  length (scan_canadabuys ascii_lower [replicate 31 (Some leadership_training)]) = 31 /\
  length (scan_merx ascii_lower [replicate 31 (Some leadership_training)]) = 31.
Proof. split; reflexivity. Qed.

(** C9. A detail request changes the stored row: its download_count goes
    from 0 to 1. *)
Lemma query_api_counterexample :
  Tender.download_count merx_row_123 = 0%Z /\
  forall json_loads sql_like sql_ilike order_by_closing_priority str_float
         str_datetime now1 now2 now3,
    map Tender.download_count
      (snd (handle json_loads sql_like sql_ilike order_by_closing_priority
              str_float str_datetime now1 now2 now3 (ReqDetail "MERX_123")
              [merx_row_123]))
    = [1%Z].
Proof. split; [reflexivity|]. intros. reflexivity. Qed.

(** * Further properties of the code *)

(** ** Reconciliation store *)

Lemma find_update_first (p : Tender.t -> bool) (f : Tender.t -> Tender.t)
    (db : Store) (r : Tender.t) :
  List.find p db = Some r -> p (f r) = true ->
  List.find p (update_first p f db) = Some (f r).
Proof.
  induction db as [|x db IH]; simpl; [discriminate|].
  destruct (p x) eqn:Hp.
  - intros [= ->] Hf. simpl. now rewrite Hf.
  - intros Hfind Hf. simpl. rewrite Hp. now apply IH.
Qed.

(** X1. Whatever the table holds, upserting a record a second time, right
    after the first, returns False and writes nothing: this holds on every
    path of the first call (dropped, unchanged, updated, inserted, refused
    for a taken id). *)
Theorem second_upsert_never_writes (content_hash : TenderDict.t -> string)
    (json_dumps : list string -> string) (now1 now2 : Z) (db : Store)
    (td : TenderDict.t) :
  let db1 := snd (save_tender_to_db content_hash json_dumps now1 db td) in
  save_tender_to_db content_hash json_dumps now2 db1 td = (false, db1).
Proof.
  cbn zeta. unfold save_tender_to_db.
  destruct (TenderDict.tender_id td) as [t|]; [|reflexivity].
  destruct (String.eqb t EmptyString) eqn:Hempty; [now rewrite ?Hempty|].
  destruct (List.find _ db) as [existing|] eqn:Hfind.
  - destruct (negb (String.eqb (Tender.hash existing) (content_hash td))) eqn:Hh;
      cbn [snd].
    + destruct (storable td) eqn:Hst; cbn [snd].
      * rewrite ?Hempty.
        rewrite (find_update_first _ _ db existing Hfind)
          by (simpl; apply String.eqb_refl).
        cbn [Tender.hash apply_update]. now rewrite String.eqb_refl.
      * now rewrite ?Hempty, Hfind, Hh, ?Hst.
    + now rewrite ?Hempty, Hfind, Hh.
  - cbn [Tender.id new_tender].
    destruct (existsb _ db) eqn:Hex; cbn [snd].
    + now rewrite ?Hempty, Hfind, ?Hex.
    + destruct (storable td) eqn:Hst; cbn [snd].
      * rewrite ?Hempty.
        rewrite (find_app_last _ db _ Hfind) by (simpl; apply String.eqb_refl).
        cbn [Tender.hash new_tender]. now rewrite String.eqb_refl.
      * now rewrite ?Hempty, Hfind, ?Hex, ?Hst.
Qed.

(** X2. An upsert never deletes or reorders rows and never changes, on any
    stored row, the id, the active flag, the download counter, the contact
    columns, the documents URL or the attachments: the table afterwards is
    the old one, row for row on those columns, followed by one new row
    exactly when the call returns True; that row is active, has never been
    downloaded and has the derived key as id. In particular re-ingesting a
    deactivated tender does not reactivate it. *)
Theorem upsert_keeps_storage_columns (content_hash : TenderDict.t -> string)
    (json_dumps : list string -> string) (now : Z) (db : Store)
    (td : TenderDict.t) :
  let result := save_tender_to_db content_hash json_dumps now db td in
  (fst result = false /\
   map storage_only (snd result) = map storage_only db) \/
  (fst result = true /\
   exists t row,
     TenderDict.tender_id td = Some t /\
     snd result = db ++ [row] /\
     Tender.id row = derived_id (TenderDict.portal td) t /\
     Tender.is_active row = true /\
     Tender.download_count row = 0%Z).
Proof.
  cbn zeta. unfold save_tender_to_db.
  destruct (TenderDict.tender_id td) as [t|]; [|now left].
  destruct (String.eqb t EmptyString); [now left|].
  destruct (List.find _ db) as [existing|] eqn:Hfind.
  - left. destruct (negb _); [|now split].
    destruct (storable td); [|now split]. split; [reflexivity|].
    cbn [snd]. now apply update_first_map.
  - destruct (existsb _ db); [now left|].
    destruct (storable td); [|now left]. right. split; [reflexivity|].
    exists t. eexists. split; [reflexivity|]. cbn [snd].
    split; [reflexivity|]. now repeat split.
Qed.

(** X3. The derived key is not injective in the identity: when the
    record's tender_id is not stored but its derived key is already the id
    of a row, the insert is refused by the primary key, the call returns
    False and the table is unchanged, so the record is never stored. *)
Theorem taken_key_drops_record (content_hash : TenderDict.t -> string)
    (json_dumps : list string -> string) (now : Z) (db : Store)
    (td : TenderDict.t) (t : string) :
  TenderDict.tender_id td = Some t -> t <> EmptyString ->
  ~ In t (map Tender.tender_id db) ->
  In (derived_id (TenderDict.portal td) t) (map Tender.id db) ->
  save_tender_to_db content_hash json_dumps now db td = (false, db).
Proof.
  intros Ht Hne Htid Hid. unfold save_tender_to_db.
  apply String.eqb_neq in Hne. apply find_by_key_none in Htid.
  rewrite Ht, Hne, Htid. cbn [Tender.id new_tender].
  destruct (existsb _ db) eqn:Hex; [reflexivity|].
  apply existsb_by_key_false in Hex. contradiction.
Qed.

Lemma string_length_append (a b : string) :
  String.length (a +:+ b) = String.length a + String.length b.
Proof. induction a as [|x a IH]; simpl; [reflexivity|now rewrite IH]. Qed.

Lemma append_cancel_r (a b c : string) : a +:+ c = b +:+ c -> a = b.
Proof.
  intros H.
  assert (Hlen : String.length a = String.length b).
  { apply (f_equal String.length) in H. rewrite !string_length_append in H. lia. }
  revert b H Hlen. induction a as [|x a IH]; intros [|y b] H Hlen;
    simpl in *; try discriminate; [reflexivity|].
  injection H as -> H. f_equal. apply IH; [assumption|lia].
Qed.

(** X4. The lookup ignores the portal: when the record's tender_id is
    stored under another portal, the hash differs and the database accepts
    the record (neither date is NaT), the call returns False and rewrites
    that row, which now carries the record's portal and fields but keeps
    its id; if the id was the key derived from the old portal, it is no
    longer the key derived from the row's own portal and tender_id. *)
Theorem cross_portal_takeover (content_hash : TenderDict.t -> string)
    (json_dumps : list string -> string) (now : Z) (db : Store)
    (td : TenderDict.t) (p q t : string) (existing : Tender.t) :
  db_ok db -> In existing db ->
  Tender.tender_id existing = t -> Tender.portal existing = Some q ->
  Tender.id existing = derived_id (Some q) t ->
  TenderDict.tender_id td = Some t -> t <> EmptyString ->
  TenderDict.portal td = Some p -> p <> q ->
  content_hash td <> Tender.hash existing ->
  storable td = true ->
  exists i updated,
    db !! i = Some existing /\
    save_tender_to_db content_hash json_dumps now db td
    = (false, <[i := updated]> db) /\
    Tender.portal updated = Some p /\
    Tender.tender_id updated = t /\
    Tender.title updated = TenderDict.title td /\
    Tender.id updated = Tender.id existing /\
    Tender.id updated
    <> derived_id (Tender.portal updated) (Tender.tender_id updated).
Proof.
  intros [_ Htid] Hin Het Heq Heid Ht Hne Hp Hpq Hdiff Hst.
  apply String.eqb_neq in Hne.
  assert (Hfind :
    List.find (fun r => String.eqb (Tender.tender_id r) t) db = Some existing).
  { rewrite <- Het. now apply (find_by_key_unique Tender.tender_id). }
  assert (Hneq : String.eqb (Tender.hash existing) (content_hash td) = false)
    by (apply String.eqb_neq; congruence).
  destruct (update_first_insert _
              (apply_update json_dumps now t (content_hash td) td) db existing Hfind)
    as (i & Hi & Hupd).
  exists i, (apply_update json_dumps now t (content_hash td) td existing).
  unfold save_tender_to_db. rewrite Ht, Hne, Hfind, Hneq, Hst. cbn [negb].
  rewrite Hupd. cbn [apply_update Tender.portal Tender.tender_id Tender.title Tender.id].
  rewrite Hp. repeat split; try assumption.
  rewrite Heid. unfold derived_id. cbn [default from_option id].
  intros Habs. apply append_cancel_r in Habs. congruence.
Qed.

(** ** Expiry sweep and purge *)

Lemma is_expired_after (now : Z) (r : Tender.t) :
  is_expired now (if is_expired now r then set_inactive r else r) = false.
Proof.
  destruct (is_expired now r) eqn:He; [|exact He].
  unfold is_expired. simpl. destruct (Tender.closing_date r); [|reflexivity].
  apply andb_false_r.
Qed.

Lemma filter_all_true {A : Type} (p : A -> bool) (l : list A) :
  (forall x, In x l -> p x = true) -> List.filter p l = l.
Proof.
  induction l as [|x l IH]; simpl; intros H; [reflexivity|].
  rewrite (H x) by now left. f_equal. apply IH. auto.
Qed.

Lemma filter_all_false {A : Type} (p : A -> bool) (l : list A) :
  (forall x, In x l -> p x = false) -> List.filter p l = [].
Proof.
  induction l as [|x l IH]; simpl; intros H; [reflexivity|].
  rewrite (H x) by now left. apply IH. auto.
Qed.

Lemma map_id_on {A : Type} (f : A -> A) (l : list A) :
  (forall x, In x l -> f x = x) -> map f l = l.
Proof.
  induction l as [|x l IH]; simpl; intros H; [reflexivity|].
  rewrite (H x) by now left. f_equal. apply IH. auto.
Qed.

Lemma length_filter_partition {A : Type} (p : A -> bool) (l : list A) :
  length (List.filter p l) + length (List.filter (fun x => negb (p x)) l)
  = length l.
Proof.
  induction l as [|x l IH]; simpl; [reflexivity|].
  destruct (p x); simpl; lia.
Qed.

Lemma In_sweep (now1 old_date : Z) (db : Store) (r' : Tender.t) :
  In r'
    (List.filter (fun r => negb (is_purgeable old_date r))
       (map (fun r => if is_expired now1 r then set_inactive r else r) db)) <->
  is_purgeable old_date r' = false /\
  exists r, In r db /\ r' = (if is_expired now1 r then set_inactive r else r).
Proof.
  rewrite filter_In, in_map_iff, negb_true_iff. split.
  - intros [(r & <- & Hin) Hp]. eauto.
  - intros [Hp (r & Hin & ->)]. eauto.
Qed.

Lemma NoDup_map_filter {A B : Type} (g : A -> B) (p : A -> bool) (l : list A) :
  NoDup (map g l) -> NoDup (map g (List.filter p l)).
Proof.
  induction l as [|x l IH]; simpl; intros H; [assumption|].
  apply NoDup_cons in H as [Hnotin H].
  destruct (p x); simpl; [|now apply IH].
  apply NoDup_cons. split; [|now apply IH].
  intros Hin. apply Hnotin. apply list_elem_of_In in Hin. apply list_elem_of_In.
  apply in_map_iff in Hin as (y & Hy & Hin). apply filter_In in Hin as [Hin _].
  apply in_map_iff. eauto.
Qed.

Lemma NoDup_map_inj_on (g : Tender.t -> string) (db : Store) (r1 r2 : Tender.t) :
  NoDup (map g db) -> In r1 db -> In r2 db -> g r1 = g r2 -> r1 = r2.
Proof.
  intros Hnd H1 H2 Heq.
  assert (Hf := find_by_key_unique g db r1 Hnd H1).
  assert (Hf' := find_by_key_unique g db r2 Hnd H2).
  rewrite Heq in Hf. congruence.
Qed.

(** X5. After [clean_expired_tenders] no stored row is active with a
    closing date before the first clock reading, and no stored row is
    inactive with a closing date more than 180 days before the second.
    The first count is the number of rows that were active and past
    closing; the second is the number of rows removed. *)
Theorem sweep_postcondition (now1 now2 : Z) (db : Store) :
  let result := clean_expired_tenders now1 now2 db in
  (forall r closing,
     In r (snd result) -> Tender.closing_date r = Some closing ->
     (Tender.is_active r = true -> (now1 <= closing)%Z) /\
     (Tender.is_active r = false -> (now2 - 180 * day_us <= closing)%Z)) /\
  fst (fst result) = length (List.filter (is_expired now1) db) /\
  length (snd result) + snd (fst result) = length db.
Proof.
  cbn zeta. unfold clean_expired_tenders, deactivate_expired. cbn [fst snd].
  split; [|split; [reflexivity|]].
  - intros r closing Hin Hc. apply In_sweep in Hin as [Hp (r0 & Hin & Hr)].
    split.
    + intros Hact.
      assert (He : is_expired now1 r = false) by (rewrite Hr; apply is_expired_after).
      unfold is_expired in He. rewrite Hc, Hact, andb_true_r in He.
      now apply Z.ltb_ge in He.
    + intros Hact. unfold is_purgeable in Hp.
      rewrite Hc, Hact, andb_true_r in Hp. now apply Z.ltb_ge in Hp.
  - set (db1 := map _ db).
    assert (H := length_filter_partition (is_purgeable (now2 - 180 * day_us)) db1).
    assert (Hlen : length db1 = length db) by apply length_map. lia.
Qed.

(** X6. [clean_expired_tenders] changes nothing but the active flag of the
    rows it keeps: every remaining row is a row of the old table, as it
    was or with the flag cleared because it was active and past closing;
    every row that is neither past closing while active nor inactive and
    older than the retention window stays as it is (in particular every
    row without closing date); and the schema's constraints are kept. *)
Theorem sweep_frame (now1 now2 : Z) (db : Store) :
  let db' := snd (clean_expired_tenders now1 now2 db) in
  (forall r', In r' db' ->
     exists r, In r db /\
       (r' = r \/ (r' = set_inactive r /\ is_expired now1 r = true))) /\
  (forall r, In r db ->
     is_expired now1 r = false ->
     is_purgeable (now2 - 180 * day_us) r = false -> In r db') /\
  (forall r, In r db -> Tender.closing_date r = None -> In r db') /\
  (db_ok db -> db_ok db').
Proof.
  cbn zeta. unfold clean_expired_tenders, deactivate_expired. cbn [fst snd].
  assert (Hkeep : forall r, In r db ->
            is_expired now1 r = false ->
            is_purgeable (now2 - 180 * day_us) r = false ->
            In r (List.filter (fun r => negb (is_purgeable (now2 - 180 * day_us) r))
                    (map (fun r => if is_expired now1 r then set_inactive r else r) db))).
  { intros r Hin He Hp. apply In_sweep. split; [assumption|].
    exists r. now rewrite He. }
  repeat split.
  - intros r' Hin. apply In_sweep in Hin as [_ (r & Hin & ->)].
    exists r. split; [assumption|].
    destruct (is_expired now1 r); [now right|now left].
  - exact Hkeep.
  - intros r Hin Hc. apply Hkeep; [assumption| |];
      unfold is_expired, is_purgeable; now rewrite Hc.
  - destruct H as [Hid _]. apply NoDup_map_filter.
    rewrite map_map. erewrite map_ext; [exact Hid|].
    intros r. now destruct (is_expired now1 r).
  - destruct H as [_ Htid]. apply NoDup_map_filter.
    rewrite map_map. erewrite map_ext; [exact Htid|].
    intros r. now destruct (is_expired now1 r).
Qed.

Lemma deactivate_expired_again (now : Z) (db : Store) :
  (forall r, In r db -> is_expired now r = false) ->
  deactivate_expired now db = (0, db).
Proof.
  intros H. unfold deactivate_expired.
  rewrite filter_all_false by assumption. simpl. f_equal.
  apply map_id_on. intros r Hin. now rewrite H.
Qed.

(** X7. [clean_expired_tenders] is idempotent at a given instant: run a
    second time with the same two clock readings it reports 0 deactivated
    and 0 deleted and leaves the table as the first run left it. *)
Theorem sweep_idempotent (now1 now2 : Z) (db : Store) :
  let db' := snd (clean_expired_tenders now1 now2 db) in
  clean_expired_tenders now1 now2 db' = ((0, 0), db').
Proof.
  cbn zeta. set (db' := snd (clean_expired_tenders now1 now2 db)).
  unfold clean_expired_tenders.
  assert (Hin : forall r, In r db' ->
            is_expired now1 r = false /\
            is_purgeable (now2 - 180 * day_us) r = false).
  { intros r Hr. unfold db', clean_expired_tenders, deactivate_expired in Hr.
    cbn [fst snd] in Hr. apply In_sweep in Hr as [Hp (r0 & _ & ->)].
    split; [apply is_expired_after | exact Hp]. }
  rewrite deactivate_expired_again by (intros r Hr; exact (proj1 (Hin r Hr))).
  rewrite filter_all_false by (intros r Hr; exact (proj2 (Hin r Hr))).
  rewrite filter_all_true; [reflexivity|].
  intros r Hr. apply negb_true_iff. exact (proj2 (Hin r Hr)).
Qed.

(** X8. Deactivation and purge compose within one call: a row that is
    still active but closed more than 180 days before the clock readings
    is deactivated by the update and deleted by the delete that follows,
    so it is counted in both results and no row with its id remains. *)
Theorem sweep_purges_long_expired (now1 now2 : Z) (db : Store) (r : Tender.t)
    (closing : Z) :
  db_ok db -> In r db ->
  Tender.is_active r = true -> Tender.closing_date r = Some closing ->
  (closing < now1)%Z -> (closing < now2 - 180 * day_us)%Z ->
  let result := clean_expired_tenders now1 now2 db in
  ~ In (Tender.id r) (map Tender.id (snd result)) /\
  1 <= fst (fst result) /\ 1 <= snd (fst result).
Proof.
  intros [Hid _] Hin Hact Hc H1 H2. cbn zeta.
  unfold clean_expired_tenders, deactivate_expired. cbn [fst snd].
  assert (He : is_expired now1 r = true).
  { unfold is_expired. rewrite Hc, Hact, andb_true_r. now apply Z.ltb_lt. }
  assert (Hp : is_purgeable (now2 - 180 * day_us) (set_inactive r) = true).
  { unfold is_purgeable. simpl. rewrite Hc. simpl. rewrite andb_true_r.
    now apply Z.ltb_lt. }
  repeat split.
  - intros Hin'. apply in_map_iff in Hin' as (r' & Hid' & Hr').
    apply In_sweep in Hr' as [Hp' (r0 & Hin0 & ->)].
    assert (Hsame : Tender.id r0 = Tender.id r)
      by (rewrite <- Hid'; now destruct (is_expired now1 r0)).
    assert (r0 = r) by (apply (NoDup_map_inj_on Tender.id db); assumption).
    subst r0. rewrite He in Hp'. congruence.
  - assert (Hf : In r (List.filter (is_expired now1) db))
      by (apply filter_In; now split).
    destruct (List.filter (is_expired now1) db); simpl in *; [tauto|lia].
  - assert (Hf : In (set_inactive r)
                   (List.filter (is_purgeable (now2 - 180 * day_us))
                      (map (fun r => if is_expired now1 r then set_inactive r else r) db))).
    { apply filter_In. split; [|assumption].
      apply in_map_iff. exists r. now rewrite He. }
    destruct (List.filter (is_purgeable _) _); simpl in *; [tauto|lia].
Qed.

(** ** Classifier: extracted keywords *)

Lemma existsb_eqb_In (k : string) (l : list string) :
  existsb (String.eqb k) l = true <-> In k l.
Proof.
  rewrite existsb_exists. split.
  - intros (x & Hin & Heq). apply String.eqb_eq in Heq. now subst.
  - intros Hin. exists k. split; [assumption|apply String.eqb_refl].
Qed.

Lemma collect_keywords_spec (text_lower : string) (kws acc : list string) :
  let r := collect_keywords text_lower acc kws in
  (NoDup acc -> NoDup r) /\
  (forall k, In k r <-> In k acc \/ (In k kws /\ contains k text_lower = true)).
Proof.
  unfold collect_keywords. revert acc.
  induction kws as [|kw kws IH]; intros acc; cbn [fold_left].
  - split; [auto|]. intros k. simpl. tauto.
  - destruct (contains kw text_lower) eqn:Hc; cbn [andb].
    + destruct (existsb (String.eqb kw) acc) eqn:Hex; cbn [negb].
      * apply existsb_eqb_In in Hex.
        destruct (IH acc) as [Hnd Hin]. split; [exact Hnd|].
        intros k. rewrite Hin. simpl. split; [tauto|].
        intros [H|[[<-|H] H']]; auto.
      * assert (Hnotin : ~ In kw acc).
        { intros H. apply existsb_eqb_In in H. congruence. }
        destruct (IH (acc ++ [kw])) as [Hnd Hin]. split.
        -- intros Hacc. apply Hnd. apply NoDup_app. repeat split;
             [assumption | | apply NoDup_singleton].
           intros x Hx Hx'. apply list_elem_of_singleton in Hx'. subst x.
           apply Hnotin. now apply list_elem_of_In.
        -- intros k. rewrite Hin, in_app_iff. simpl. split.
           ++ intros [[H|[<-|[]]]|[H H']]; auto.
           ++ intros [H|[[<-|H] H']]; auto.
    + destruct (IH acc) as [Hnd Hin]. split; [exact Hnd|].
      intros k. rewrite Hin. simpl. split; [tauto|].
      intros [H|[[<-|H] H']]; auto. congruence.
Qed.

Lemma all_keywords_spec (text_lower : string) (l : list (string * Cfg.t))
    (acc : list string) :
  let r :=
    fold_left
      (fun keywords '(_, config) =>
         collect_keywords text_lower keywords (Cfg.keywords config))
      l acc in
  (NoDup acc -> NoDup r) /\
  (forall k, In k r <->
     In k acc \/
     exists category config, In (category, config) l /\
       In k (Cfg.keywords config) /\ contains k text_lower = true).
Proof.
  revert acc. induction l as [|[category config] l IH]; intros acc; cbn [fold_left].
  - split; [auto|]. intros k. split; [auto|]. intros [H|(c & cfg & [] & _)]. exact H.
  - destruct (collect_keywords_spec text_lower (Cfg.keywords config) acc)
      as [Hnd1 Hin1].
    destruct (IH (collect_keywords text_lower acc (Cfg.keywords config)))
      as [Hnd2 Hin2].
    split; [auto|]. intros k. rewrite Hin2, Hin1. split.
    + intros [[H|[H H']]|(c & cfg & Hl & H & H')]; auto.
      * right. exists category, config. split; [now left|auto].
      * right. exists c, cfg. split; [now right|auto].
    + intros [H|(c & cfg & [Heq|Hl] & H & H')]; auto.
      * injection Heq as <- <-. auto.
      * right. exists c, cfg. auto.
Qed.

(** X9. [_extract_keywords_from_text] returns at most 10 keywords, without
    repetition, each of them a keyword of some taxonomy category that
    occurs in the lower-cased text; when it returns fewer than 10, it
    returns every taxonomy keyword that occurs in the text. *)
Theorem extracted_keywords (lower : string -> string) (text : string) :
  let keywords := _extract_keywords_from_text lower text in
  length keywords <= 10 /\
  NoDup keywords /\
  (forall k, In k keywords ->
     exists category config, In (category, config) TKA_COURSES /\
       In k (Cfg.keywords config) /\ contains k (lower text) = true) /\
  (length keywords < 10 ->
   forall category config k,
     In (category, config) TKA_COURSES -> In k (Cfg.keywords config) ->
     contains k (lower text) = true -> In k keywords).
Proof.
  cbn zeta. unfold _extract_keywords_from_text.
  destruct (all_keywords_spec (lower text) TKA_COURSES []) as [Hnd Hin].
  cbn zeta in Hnd, Hin. set (all := fold_left _ TKA_COURSES []) in *.
  repeat split.
  - rewrite length_take. lia.
  - apply (sublist_NoDup _ all); [apply Hnd; constructor | apply sublist_take].
  - intros k Hk. apply list_elem_of_In, elem_of_take in Hk as (i & Hk & _).
    apply list_elem_of_lookup_2, list_elem_of_In, Hin in Hk as [[]|Hk]. exact Hk.
  - intros Hlt category config k Hl Hk Hc.
    rewrite take_ge by (rewrite length_take in Hlt; lia).
    apply Hin. right. eauto.
Qed.

(** X10. Categories and keywords agree: whenever the classifier assigns
    some category to a text, the keyword extraction on the same text
    returns at least two keywords. *)
Theorem categories_imply_keywords (lower : string -> string) (text : string) :
  _extract_categories_from_text lower text <> [] ->
  2 <= length (_extract_keywords_from_text lower text).
Proof.
  intros Hne.
  destruct (_extract_categories_from_text lower text) as [|category rest] eqn:Hcats;
    [congruence|].
  assert (Hin : In category (_extract_categories_from_text lower text))
    by (rewrite Hcats; now left).
  apply extract_categories_In in Hin as (config & Hget & Hm).
  assert (Hnd : NoDup (Cfg.keywords config))
    by exact (TKA_COURSES_keywords_NoDup _ _ Hget).
  unfold keyword_matches in Hm.
  apply filter_count_two in Hm as (k1 & k2 & Hk & H1 & H2 & Hc1 & Hc2);
    [|assumption].
  apply dict_get_In in Hget.
  unfold _extract_keywords_from_text.
  destruct (all_keywords_spec (lower text) TKA_COURSES []) as [_ Hall].
  cbn zeta in Hall. set (all := fold_left _ TKA_COURSES []) in *.
  assert (Hlen : 2 <= length all).
  { apply (two_distinct_length all k1 k2 Hk); apply Hall; right; eauto. }
  rewrite length_take. lia.
Qed.

(** ** Matcher and prioritiser *)

Lemma match_courses_loop (tender_text : string) (categories acc : list string)
    (lower : string -> string) (course : string) :
  In course
    (fold_left
       (fun acc category =>
          match dict_get TKA_COURSES category with
          | Some config =>
              acc ++ List.filter (course_matches lower tender_text config)
                       (Cfg.courses config)
          | None => acc
          end)
       categories acc) <->
  In course acc \/
  exists category config,
    In category categories /\ dict_get TKA_COURSES category = Some config /\
    In course (Cfg.courses config) /\
    course_matches lower tender_text config course = true.
Proof.
  revert acc. induction categories as [|c categories IH]; intros acc; cbn [fold_left].
  - split; [auto|]. intros [H|(c & cfg & [] & _)]. exact H.
  - rewrite IH. destruct (dict_get TKA_COURSES c) as [config|] eqn:Hget.
    + rewrite in_app_iff, filter_In. split.
      * intros [[H|[H H']]|(c' & cfg & Hc & Hrest)]; auto.
        -- right. exists c, config. split; [now left|auto].
        -- right. exists c', cfg. split; [now right|auto].
      * intros [H|(c' & cfg & [<-|Hc] & Hg & H & H')]; auto.
        -- rewrite Hget in Hg. injection Hg as <-. auto.
        -- right. exists c', cfg. auto.
    + split.
      * intros [H|(c' & cfg & Hc & Hrest)]; auto.
        right. exists c', cfg. split; [now right|auto].
      * intros [H|(c' & cfg & [<-|Hc] & Hg & Hrest)]; auto.
        -- congruence.
        -- right. exists c', cfg. auto.
Qed.

(** X11. [match_courses] returns at most 5 offerings. Given that
    [list(set(xs))] holds only elements of [xs], every offering returned
    is an offering of a taxonomy category assigned to the tender and
    passes the three-way name and keyword test on the tender's text; a
    tender none of whose categories is in the taxonomy (in particular one
    without categories, as every record of [scrapers.py]) gets none,
    whatever its text says. *)
Theorem matched_courses (lower : string -> string)
    (list_of_set : list string -> list string) (tender : TenderDict.t) :
  (forall xs x, In x (list_of_set xs) -> In x xs) ->
  let tender_text :=
    lower (TenderDict.title tender +:+ " " +:+
           TenderDict.description tender +:+ " " +:+
           join " " (TenderDict.keywords tender)) in
  let courses := match_courses lower list_of_set tender in
  length courses <= 5 /\
  (forall course, In course courses ->
     exists category config,
       In category (TenderDict.categories tender) /\
       dict_get TKA_COURSES category = Some config /\
       In course (Cfg.courses config) /\
       course_matches lower tender_text config course = true) /\
  ((forall category, In category (TenderDict.categories tender) ->
      dict_get TKA_COURSES category = None) ->
   courses = []).
Proof.
  intros Hsub tender_text courses. unfold courses, match_courses. fold tender_text.
  set (matching := fold_left _ (TenderDict.categories tender) []).
  assert (Hin : forall course, In course (take 5 (list_of_set matching)) ->
                In course matching).
  { intros course Hc. apply Hsub.
    apply list_elem_of_In, elem_of_take in Hc as (i & Hc & _).
    now apply list_elem_of_lookup_2, list_elem_of_In in Hc. }
  repeat split.
  - rewrite length_take. lia.
  - intros course Hc. apply Hin in Hc. unfold matching in Hc.
    apply match_courses_loop in Hc as [[]|Hc]. exact Hc.
  - intros Hnone.
    destruct (take 5 (list_of_set matching)) as [|course rest] eqn:Ht; [reflexivity|].
    assert (Hc : In course matching) by (apply Hin; now left).
    unfold matching in Hc.
    apply match_courses_loop in Hc as [[]|(c & cfg & Hc & Hget & _)].
    rewrite (Hnone c Hc) in Hget. discriminate.
Qed.

Lemma priority_rank_le_2 (priority : string) : priority_rank priority <= 2.
Proof.
  unfold priority_rank.
  destruct (String.eqb priority "high"); [lia|].
  destruct (String.eqb priority "medium"); lia.
Qed.

Lemma timedelta_days_antitone (closing now now' : Z) :
  (now <= now')%Z ->
  (timedelta_days closing now' <= timedelta_days closing now)%Z.
Proof.
  intros H. unfold timedelta_days. apply Z.div_le_mono; [reflexivity|lia].
Qed.

(** X12. Priority is monotone: for the same closing date, a later clock
    reading, a larger value, more matched offerings and more categories
    never give a lower tier. In particular the priority of a stored record
    can only rise as its closing date approaches and passes. *)
Theorem priority_monotone (now now' : Z) (td td' : TenderDict.t) :
  TenderDict.closing_date td' = TenderDict.closing_date td ->
  (now <= now')%Z ->
  (TenderDict.value td <= TenderDict.value td')%Q ->
  length (default [] (TenderDict.matching_courses td))
  <= length (default [] (TenderDict.matching_courses td')) ->
  length (TenderDict.categories td) <= length (TenderDict.categories td') ->
  priority_rank (calculate_priority now td)
  <= priority_rank (calculate_priority now' td').
Proof.
  intros Hc Hnow Hv Hm Hcat. unfold calculate_priority. rewrite Hc.
  destruct (TenderDict.closing_date td) as [closing|]; [|reflexivity].
  assert (Hd : forall n, days_until_lt closing now n = true ->
                         days_until_lt closing now' n = true).
  { intros n. destruct closing as [closing|]; cbn [days_until_lt]; [|easy].
    assert (H := timedelta_days_antitone closing now now' Hnow).
    rewrite !Z.ltb_lt. lia. }
  set (d7 := days_until_lt closing now 7) in *.
  set (d7' := days_until_lt closing now' 7) in *.
  set (d14 := days_until_lt closing now 14) in *.
  set (d14' := days_until_lt closing now' 14) in *.
  assert (Hd7 : d7 = true -> d7' = true) by apply Hd.
  assert (Hd14 : d14 = true -> d14' = true) by apply Hd.
  clearbody d7 d7' d14 d14'.
  set (m := length (default [] (TenderDict.matching_courses td))) in *.
  set (m' := length (default [] (TenderDict.matching_courses td'))) in *.
  set (c := length (TenderDict.categories td)) in *.
  set (c' := length (TenderDict.categories td')) in *.
  assert (Hq : forall k, Qgtb (TenderDict.value td) k = true ->
                         Qgtb (TenderDict.value td') k = true).
  { intros k H. apply Qgtb_spec. apply Qgtb_spec in H.
    eapply Qlt_le_trans; eassumption. }
  assert (Hhigh :
    Qgtb (TenderDict.value td) 1000000 || d7 || (3 <=? m)%nat
    || (2 <=? c)%nat = true ->
    Qgtb (TenderDict.value td') 1000000 || d7' || (3 <=? m')%nat
    || (2 <=? c')%nat = true).
  { rewrite !orb_true_iff, !Nat.leb_le.
    intros [[[H|H]|H]|H];
      [left; left; left; now apply Hq|left; left; right; now apply Hd7|lia..]. }
  assert (Hmed :
    Qgtb (TenderDict.value td) 500000 || d14 || (1 <=? m)%nat = true ->
    Qgtb (TenderDict.value td') 500000 || d14' || (1 <=? m')%nat = true).
  { rewrite !orb_true_iff, !Nat.leb_le.
    intros [[H|H]|H];
      [left; left; now apply Hq|left; right; now apply Hd14|lia]. }
  destruct (Qgtb (TenderDict.value td) 1000000 || d7 || (3 <=? m)%nat
            || (2 <=? c)%nat).
  - now rewrite Hhigh.
  - destruct (Qgtb (TenderDict.value td') 1000000 || d7' || (3 <=? m')%nat
              || (2 <=? c')%nat).
    + change (priority_rank "high") with 2. apply priority_rank_le_2.
    + destruct (Qgtb (TenderDict.value td) 500000 || d14 || (1 <=? m)%nat).
      * now rewrite Hmed.
      * change (priority_rank "low") with 0. lia.
Qed.

(** ** Orchestrator: what a batch does and does not do *)

Section BatchFacts.

Variable lower : string -> string.
Variable list_of_set : list string -> list string.
Variable content_hash : TenderDict.t -> string.
Variable json_dumps : list string -> string.
Variable World : Type.
Variable utcnow : World -> Z * World.
Variable get_driver get_driver' : World -> Outcome unit * World.
Variable call_static : string -> World -> Outcome (list TenderDict.t) * World.
Variable call_method call_method' :
  string -> option string -> World -> Outcome (list TenderDict.t) * World.

Abbreviation save := (save_tender_to_db content_hash json_dumps).
Abbreviation process_one' :=
  (process_one lower list_of_set content_hash json_dumps World utcnow).
Abbreviation process_tenders' :=
  (_process_tenders lower list_of_set content_hash json_dumps World utcnow).
Abbreviation invoke' := (invoke World get_driver call_static call_method).
Abbreviation scan_portal' :=
  (scan_portal lower list_of_set content_hash json_dumps World utcnow
     get_driver call_static call_method).
Abbreviation execute_scans' :=
  (_execute_scans_async lower list_of_set content_hash json_dumps World utcnow
     get_driver call_static call_method).

Lemma scan_portal_skipped (s : BatchState World) (portal_id : string) :
  is_dispatchable portal_id = false -> scan_portal' s portal_id = s.
Proof.
  unfold is_dispatchable, scan_portal.
  destruct (dict_get PORTAL_CONFIGS portal_id); [|reflexivity].
  destruct (resolve_scraper portal_id); [discriminate|reflexivity].
Qed.

(** X13. A portal id that is not configured, or whose dispatcher entry
    does not resolve to a function, leaves no trace: the batch ends in the
    same state (world, table, report, driver) as the batch over the list
    without those ids; they appear neither in scanned nor in errors. *)
Theorem skipped_portals_leave_no_trace (portal_ids : list string)
    (s : BatchState World) :
  execute_scans' portal_ids s
  = execute_scans' (List.filter is_dispatchable portal_ids) s.
Proof.
  unfold _execute_scans_async. revert s.
  induction portal_ids as [|pid rest IH]; intros s; [reflexivity|].
  cbn [fold_left List.filter].
  destruct (is_dispatchable pid) eqn:Hd; cbn [fold_left].
  - apply IH.
  - rewrite scan_portal_skipped by assumption. apply IH.
Qed.

Lemma process_tenders_keeps_lists (tenders : list TenderDict.t) (name : string)
    (w : World) (db0 : Store) (res : Results.t) :
  Results.scanned (process_tenders' tenders name w db0 res).2 = Results.scanned res /\
  Results.errors (process_tenders' tenders name w db0 res).2 = Results.errors res.
Proof.
  destruct tenders as [|td tenders]; [now split|].
  destruct (process_tenders_counts lower list_of_set content_hash json_dumps
              World utcnow (td :: tenders) name w db0 res ltac:(discriminate))
    as (w1 & db1 & res1 & a & b & Hrun).
  cbn zeta in Hrun. destruct Hrun as (-> & _ & _ & _ & _ & _ & _ & Hs & He).
  now split.
Qed.

Lemma scan_portal_step (s : BatchState World) (portal_id : string)
    (config : Portal.t) :
  dict_get PORTAL_CONFIGS portal_id = Some config ->
  is_dispatchable portal_id = true ->
  let r := results World s in
  let r' := results World (scan_portal' s portal_id) in
  (Results.scanned r' = Results.scanned r ++ [portal_id] /\
   Results.errors r' = Results.errors r) \/
  (Results.scanned r' = Results.scanned r /\
   exists msg, Results.errors r' = Results.errors r ++ [(Portal.name config, msg)]).
Proof.
  intros Hc Hd. unfold is_dispatchable in Hd. rewrite Hc in Hd.
  cbn zeta. unfold scan_portal. rewrite Hc.
  destruct (resolve_scraper portal_id) as [fn|]; [|discriminate].
  destruct (invoke _ _ _ _ _ _ _ _) as [[[tenders|msg] w] drv].
  - left.
    destruct (process_tenders_keeps_lists tenders (Portal.name config) w
                (db World s) (results World s)) as [Hs He].
    destruct tenders as [|td tenders]; [now split|].
    destruct (process_tenders' _ _ _ _ _) as [[w1 db1] res1].
    cbn [snd] in Hs, He. cbn [results Results.scanned Results.errors].
    now rewrite Hs, He.
  - right. split; [reflexivity|]. now exists msg.
Qed.

(** X14. Every portal id of the batch that is not skipped ends up exactly
    once in the report: either its id is appended to scanned or its
    configured name, with a message, is appended to errors. So scanned and
    errors together grow by the number of such ids, every scanned id is an
    id of the batch, and every error names a configured portal of the
    batch. *)
Theorem scanned_or_failed (portal_ids : list string) (s : BatchState World) :
  let r := results World s in
  let r' := results World (execute_scans' portal_ids s) in
  exists ok failed,
    Results.scanned r' = Results.scanned r ++ ok /\
    Results.errors r' = Results.errors r ++ failed /\
    length ok + length failed = length (List.filter is_dispatchable portal_ids) /\
    (forall portal_id, In portal_id ok ->
       In portal_id portal_ids /\ is_dispatchable portal_id = true) /\
    (forall name msg, In (name, msg) failed ->
       exists portal_id config,
         In portal_id portal_ids /\
         dict_get PORTAL_CONFIGS portal_id = Some config /\
         name = Portal.name config).
Proof.
  cbn zeta. unfold _execute_scans_async. revert s.
  induction portal_ids as [|pid rest IH]; intros s; cbn [fold_left List.filter].
  - exists [], []. rewrite !app_nil_r.
    split; [|split; [|split; [|split]]]; try reflexivity; intros; contradiction.
  - destruct (IH (scan_portal' s pid)) as (ok & failed & Hs & He & Hlen & Hok & Hfail).
    destruct (is_dispatchable pid) eqn:Hd.
    + assert (Hcfg : exists config, dict_get PORTAL_CONFIGS pid = Some config).
      { unfold is_dispatchable in Hd.
        destruct (dict_get PORTAL_CONFIGS pid); [eauto|discriminate]. }
      destruct Hcfg as [config Hc].
      destruct (scan_portal_step s pid config Hc Hd)
        as [[Hs1 He1]|[Hs1 [msg He1]]].
      * exists (pid :: ok), failed. rewrite Hs, He, Hs1, He1, <- List.app_assoc.
        cbn [length]. split; [|split; [|split; [|split]]]; try reflexivity; try lia.
        -- intros p [<-|Hp]; [split; [now left|assumption]|].
           destruct (Hok p Hp). split; [now right|assumption].
        -- intros name m Hin. destruct (Hfail name m Hin) as (p & c & Hp & Hrest).
           exists p, c. split; [now right|assumption].
      * exists ok, ((Portal.name config, msg) :: failed).
        rewrite Hs, He, Hs1, He1, <- List.app_assoc.
        cbn [length]. split; [|split; [|split; [|split]]]; try reflexivity; try lia.
        -- intros p Hp. destruct (Hok p Hp). split; [now right|assumption].
        -- intros name m [Heq|Hin].
           ++ injection Heq as <- <-. exists pid, config. split; [now left|auto].
           ++ destruct (Hfail name m Hin) as (p & c & Hp & Hrest).
              exists p, c. split; [now right|assumption].
    + rewrite (scan_portal_skipped s pid Hd) in *.
      exists ok, failed. split; [|split; [|split; [|split]]]; try assumption.
      * intros p Hp. destruct (Hok p Hp). split; [now right|assumption].
      * intros name m Hin. destruct (Hfail name m Hin) as (p & c & Hp & Hrest).
        exists p, c. split; [now right|assumption].
Qed.

Lemma process_loop_db_ok (tenders : list TenderDict.t) (w : World) (db0 : Store)
    (pr : PortalResults.t) (res : Results.t) :
  db_ok db0 ->
  db_ok (fold_left process_one' tenders (w, db0, pr, res)).1.1.2.
Proof.
  revert w db0 pr res. induction tenders as [|td tenders IH]; intros w db0 pr res Hok.
  - exact Hok.
  - destruct (process_one_counts lower list_of_set content_hash json_dumps
                World utcnow w db0 pr res td)
      as (now & priority & w1 & pr1 & res1 & Hstep).
    cbn zeta in Hstep. destruct Hstep as (Hstep & _).
    cbn [fold_left]. rewrite Hstep. apply IH.
    now apply save_preserves_db_ok.
Qed.

Lemma process_tenders_store (tenders : list TenderDict.t) (name : string)
    (w : World) (db0 : Store) (res : Results.t) :
  let out := process_tenders' tenders name w db0 res in
  (db_ok db0 -> db_ok out.1.2) /\
  length out.1.2 + Results.new_tenders res
  = length db0 + Results.new_tenders out.2.
Proof.
  cbn zeta. destruct tenders as [|td tenders]; [now split|]. split.
  - intros Hok. unfold _process_tenders.
    set (pr := {| PortalResults.found := _ |}).
    assert (H := process_loop_db_ok (td :: tenders) w db0 pr res Hok).
    destruct (fold_left _ (td :: tenders) _) as [[[w1 db1] pr1] res1]. exact H.
  - destruct (process_tenders_counts lower list_of_set content_hash json_dumps
                World utcnow (td :: tenders) name w db0 res ltac:(discriminate))
      as (w1 & db1 & res1 & a & b & Hrun).
    cbn zeta in Hrun. destruct Hrun as (-> & _ & Hlen & _ & _ & Hn & _).
    cbn [fst snd]. lia.
Qed.

Lemma save_keeps_rows (now : Z) (db0 : Store) (td : TenderDict.t) :
  exists added,
    map storage_only (snd (save_tender_to_db content_hash json_dumps now db0 td))
    = map storage_only db0 ++ added.
Proof.
  unfold save_tender_to_db.
  destruct (TenderDict.tender_id td) as [t|];
    [|exists []; now rewrite app_nil_r].
  destruct (String.eqb t EmptyString); [exists []; now rewrite app_nil_r|].
  destruct (List.find _ db0) as [existing|] eqn:Hfind.
  - exists []. rewrite app_nil_r.
    destruct (negb _); [|reflexivity].
    destruct (storable td); [|reflexivity].
    cbn [snd]. now apply update_first_map.
  - destruct (existsb _ db0); [exists []; now rewrite app_nil_r|].
    destruct (storable td); [|exists []; now rewrite app_nil_r].
    cbn [snd]. rewrite map_app. eauto.
Qed.

Lemma process_loop_keeps_rows (tenders : list TenderDict.t) (w : World)
    (db0 : Store) (pr : PortalResults.t) (res : Results.t) :
  exists added,
    map storage_only (fold_left process_one' tenders (w, db0, pr, res)).1.1.2
    = map storage_only db0 ++ added.
Proof.
  revert w db0 pr res. induction tenders as [|td tenders IH]; intros w db0 pr res.
  - exists []. now rewrite app_nil_r.
  - destruct (process_one_counts lower list_of_set content_hash json_dumps
                World utcnow w db0 pr res td)
      as (now & priority & w1 & pr1 & res1 & Hstep).
    cbn zeta in Hstep. destruct Hstep as (Hstep & _).
    cbn [fold_left]. rewrite Hstep.
    set (td1 := set_priority
                  (set_matching_courses td (match_courses lower list_of_set td))
                  priority).
    set (db1 := snd (save_tender_to_db content_hash json_dumps now db0 td1)).
    destruct (IH w1 db1 pr1 res1) as (added2 & ->).
    destruct (save_keeps_rows now db0 td1) as (added1 & H1).
    fold db1 in H1. rewrite H1.
    exists (added1 ++ added2). now rewrite app_assoc.
Qed.

Lemma process_tenders_keeps_rows (tenders : list TenderDict.t) (name : string)
    (w : World) (db0 : Store) (res : Results.t) :
  exists added,
    map storage_only (process_tenders' tenders name w db0 res).1.2
    = map storage_only db0 ++ added.
Proof.
  destruct tenders as [|td tenders]; [exists []; now rewrite app_nil_r|].
  unfold _process_tenders.
  set (pr := {| PortalResults.found := _ |}).
  destruct (process_loop_keeps_rows (td :: tenders) w db0 pr res) as (added & H).
  exists added.
  destruct (fold_left _ (td :: tenders) _) as [[[w1 db1] pr1] res1]. exact H.
Qed.

(** X15. Over a whole batch the table keeps the schema's constraints
    (unique id, unique tender_id), and no row is ever removed or moved:
    the table after the batch is the old one, row for row on the id, the
    active flag, the download counter, the contact columns, the documents
    URL and the attachments, followed by the rows added, whose number is
    exactly the increase of new_tenders in the report. *)
Theorem batch_store_accounting (portal_ids : list string) (s : BatchState World) :
  let s' := execute_scans' portal_ids s in
  (db_ok (db World s) -> db_ok (db World s')) /\
  (exists added,
     map storage_only (db World s')
     = map storage_only (db World s) ++ map storage_only added /\
     db World s' = take (length (db World s)) (db World s') ++ added /\
     length added + Results.new_tenders (results World s)
     = Results.new_tenders (results World s')) /\
  length (db World s') + Results.new_tenders (results World s)
  = length (db World s) + Results.new_tenders (results World s').
Proof.
  cbn zeta.
  assert (Hall :
    (db_ok (db World s) -> db_ok (db World (execute_scans' portal_ids s))) /\
    (exists ids,
       map storage_only (db World (execute_scans' portal_ids s))
       = map storage_only (db World s) ++ ids) /\
    length (db World (execute_scans' portal_ids s))
    + Results.new_tenders (results World s)
    = length (db World s)
      + Results.new_tenders (results World (execute_scans' portal_ids s))).
  { unfold _execute_scans_async. revert s.
    induction portal_ids as [|pid rest IH]; intros s; cbn [fold_left].
    - split; [auto|]. split; [exists []; now rewrite app_nil_r|lia].
    - destruct (IH (scan_portal' s pid)) as (Hok & (ids2 & Hpre) & Hlen).
      assert (Hstep :
        (db_ok (db World s) -> db_ok (db World (scan_portal' s pid))) /\
        (exists ids,
           map storage_only (db World (scan_portal' s pid))
           = map storage_only (db World s) ++ ids) /\
        length (db World (scan_portal' s pid))
        + Results.new_tenders (results World s)
        = length (db World s)
          + Results.new_tenders (results World (scan_portal' s pid))).
      { unfold scan_portal.
        destruct (dict_get PORTAL_CONFIGS pid) as [config|];
          [|split; [auto|split; [exists []; now rewrite app_nil_r|lia]]].
        destruct (resolve_scraper pid) as [fn|];
          [|split; [auto|split; [exists []; now rewrite app_nil_r|lia]]].
        destruct (invoke _ _ _ _ _ _ _ _) as [[[tenders|msg] w] drv];
          [|split; [auto|split; [exists []; now rewrite app_nil_r|simpl; lia]]].
        destruct (process_tenders_store tenders (Portal.name config) w
                    (db World s) (results World s)) as [H1 H2].
        destruct (process_tenders_keeps_rows tenders (Portal.name config) w
                    (db World s) (results World s)) as (ids & H3).
        destruct tenders as [|td tenders];
          [split; [auto|split; [exists []; now rewrite app_nil_r|simpl; lia]]|].
        destruct (process_tenders' _ _ _ _ _) as [[w1 db1] res1].
        cbn [fst snd] in H1, H2, H3. split; [exact H1|].
        split; [now exists ids|exact H2]. }
      destruct Hstep as (Hok1 & (ids1 & Hpre1) & Hlen1).
      split; [auto|]. split; [|lia].
      exists (ids1 ++ ids2). now rewrite Hpre, Hpre1, app_assoc. }
  destruct Hall as (Hok & (ids & Hpre) & Hlen).
  split; [exact Hok|]. split; [|exact Hlen].
  set (db' := db World (execute_scans' portal_ids s)) in *.
  set (n := length (db World s)).
  assert (Hsplit : db' = take n db' ++ drop n db') by (now rewrite take_drop).
  assert (Hn : n <= length db').
  { apply (f_equal (@length _)) in Hpre.
    rewrite length_app, !length_map in Hpre. unfold n. lia. }
  exists (drop n db'). split; [|split; [exact Hsplit|]].
  - rewrite Hsplit at 1. rewrite map_app. f_equal.
    rewrite <- List.firstn_map, Hpre. unfold n.
    rewrite <- (length_map storage_only (db World s)).
    apply take_app_length.
  - rewrite length_drop. unfold n. lia.
Qed.

Lemma invoke_plain (config : Portal.t) (fn : string) (w : World) (drv : bool) :
  default false (Portal.requires_selenium config) = false ->
  invoke World get_driver call_static call_method config fn w drv
  = invoke World get_driver' call_static call_method' config fn w drv /\
  snd (invoke World get_driver call_static call_method config fn w drv) = drv.
Proof.
  intros H. unfold invoke. rewrite H.
  destruct (call_static fn w) as [out w1]. now split.
Qed.

(** X16. A batch over portals that do not require the browser never asks
    for a driver and never calls a scanner method: its outcome is the same
    whatever [get_driver] and the scanner methods would do, and the driver
    slot is left as it was. *)
Theorem plain_batch_needs_no_driver (portal_ids : list string)
    (s : BatchState World) :
  Forall
    (fun portal_id =>
       forall config, dict_get PORTAL_CONFIGS portal_id = Some config ->
         default false (Portal.requires_selenium config) = false)
    portal_ids ->
  execute_scans' portal_ids s
  = _execute_scans_async lower list_of_set content_hash json_dumps World utcnow
      get_driver' call_static call_method' portal_ids s /\
  driver World (execute_scans' portal_ids s) = driver World s.
Proof.
  unfold _execute_scans_async. revert s.
  induction portal_ids as [|pid rest IH]; intros s Hall; cbn [fold_left].
  - now split.
  - apply Forall_cons in Hall as [Hpid Hall].
    assert (Hstep :
      scan_portal' s pid
      = scan_portal lower list_of_set content_hash json_dumps World utcnow
          get_driver' call_static call_method' s pid /\
      driver World (scan_portal' s pid) = driver World s).
    { unfold scan_portal.
      destruct (dict_get PORTAL_CONFIGS pid) as [config|]; [|now split].
      destruct (resolve_scraper pid) as [fn|]; [|now split].
      destruct (invoke_plain config fn (world World s) (driver World s)
                  (Hpid config eq_refl)) as [<- Hdrv].
      destruct (invoke _ _ _ _ _ _ _ _) as [[[tenders|msg] w] drv];
        cbn [snd] in Hdrv; subst drv.
      - split; [reflexivity|].
        destruct tenders as [|td tenders]; [reflexivity|].
        now destruct (process_tenders' _ _ _ _ _) as [[w1 db1] res1].
      - now split. }
    destruct Hstep as [<- Hdrv]. destruct (IH (scan_portal' s pid) Hall) as [<- Hd].
    split; [reflexivity|congruence].
Qed.

End BatchFacts.

(** ** Query API *)

Lemma optional_filter_In {A : Type} (arg : option A) (p : A -> Tender.t -> bool)
    (rows : list Tender.t) (r : Tender.t) :
  In r (optional_filter arg p rows) <->
  In r rows /\ (forall a, arg = Some a -> p a r = true).
Proof.
  unfold optional_filter. destruct arg as [a|].
  - rewrite filter_In. split.
    + intros [H1 H2]. split; [assumption|]. now intros a' [= <-].
    + intros [H1 H2]. auto.
  - split; [|tauto]. intros H. split; [assumption|discriminate].
Qed.

Lemma In_take_drop {A : Type} (n m : nat) (l : list A) (x : A) :
  In x (take n (drop m l)) -> In x l.
Proof.
  intros H. apply list_elem_of_In. apply list_elem_of_In in H.
  eapply elem_of_sublist; [|apply sublist_drop].
  eapply elem_of_sublist; [exact H|apply sublist_take].
Qed.

Lemma option_string_eqb_eq (a b : option string) :
  option_string_eqb a b = true <-> a = b.
Proof.
  destruct a as [x|], b as [y|]; simpl; try (split; congruence).
  rewrite String.eqb_eq. split; congruence.
Qed.

Lemma build_responses_spec (json_loads : string -> list string)
    (tenders : list Tender.t) :
  (forall results, build_responses json_loads tenders = Some results ->
     Forall2 (fun r resp => tender_response json_loads r = Some resp) tenders results) /\
  (build_responses json_loads tenders = None <->
   exists r, In r tenders /\ tender_response json_loads r = None).
Proof.
  induction tenders as [|r tenders [IHsome IHnone]]; cbn [build_responses].
  - split; [intros results [= <-]; constructor|].
    split; [discriminate|]. intros (r & [] & _).
  - destruct (tender_response json_loads r) as [resp|] eqn:Hr.
    + destruct (build_responses json_loads tenders) as [results0|].
      * split.
        -- intros results [= <-]. constructor; [assumption|]. now apply IHsome.
        -- split; [discriminate|]. intros (x & [<-|Hin] & Hx); [congruence|].
           assert (Habs : Some results0 = None)
             by (apply IHnone; now exists x).
           discriminate Habs.
      * split; [discriminate|]. split; [|reflexivity]. intros _.
        destruct (proj1 IHnone eq_refl) as (x & Hin & Hx).
        exists x. split; [now right|assumption].
    + split; [discriminate|]. split; [|reflexivity]. intros _.
      exists r. split; [now left|assumption].
Qed.

Lemma tender_response_none (json_loads : string -> list string) (r : Tender.t) :
  tender_response json_loads r = None <->
  Tender.portal r = None \/ Tender.closing_date r = None \/
  Tender.priority r = None.
Proof.
  unfold tender_response.
  destruct (Tender.portal r), (Tender.closing_date r), (Tender.priority r);
    split; try discriminate; try tauto; intros [H|[H|H]]; discriminate.
Qed.


Lemma portals_of_spec (rows : list Tender.t) (seen : list (option string)) :
  (NoDup seen -> NoDup (portals_of rows seen)) /\
  (forall p, In p (portals_of rows seen) <->
             In p seen \/ In p (map Tender.portal rows)).
Proof.
  revert seen. induction rows as [|r rows IH]; intros seen; cbn [portals_of map].
  - split; [auto|]. intros p. simpl. tauto.
  - destruct (existsb (option_string_eqb (Tender.portal r)) seen) eqn:Hex.
    + apply existsb_exists in Hex as (x & Hx & Heq).
      apply option_string_eqb_eq in Heq. subst x.
      destruct (IH seen) as [Hnd Hin]. split; [exact Hnd|].
      intros p. rewrite Hin. simpl. split; [tauto|].
      intros [H|[<-|H]]; auto.
    + assert (Hnotin : ~ In (Tender.portal r) seen).
      { intros H. assert (Ht : existsb (option_string_eqb (Tender.portal r)) seen = true).
        { apply existsb_exists. exists (Tender.portal r).
          split; [assumption|now apply option_string_eqb_eq]. }
        congruence. }
      destruct (IH (seen ++ [Tender.portal r])) as [Hnd Hin]. split.
      * intros Hs. apply Hnd. apply NoDup_app. repeat split;
          [assumption| |apply NoDup_singleton].
        intros x Hx Hx'. apply list_elem_of_singleton in Hx'. subst x.
        apply Hnotin. now apply list_elem_of_In.
      * intros p. rewrite Hin, in_app_iff. simpl. tauto.
Qed.

Lemma indicator_sum (x : option string) (ks : list (option string)) :
  NoDup ks -> In x ks ->
  list_sum (map (fun k => if option_string_eqb x k then 1 else 0) ks) = 1.
Proof.
  induction ks as [|k ks IH]; simpl; [tauto|].
  intros Hnd Hin. apply NoDup_cons in Hnd as [Hnotin Hnd].
  destruct (option_string_eqb x k) eqn:Heq.
  - apply option_string_eqb_eq in Heq. subst k.
    assert (Hz : list_sum (map (fun k => if option_string_eqb x k then 1 else 0) ks) = 0).
    { clear IH Hin Hnd. induction ks as [|k ks IH]; [reflexivity|]. simpl.
      destruct (option_string_eqb x k) eqn:Heq.
      - apply option_string_eqb_eq in Heq. subst k.
        elim Hnotin. apply list_elem_of_In. now left.
      - apply IH. intros H. apply Hnotin. apply list_elem_of_In.
        right. now apply list_elem_of_In. }
    now rewrite Hz.
  - destruct Hin as [->|Hin].
    + assert (Ht : option_string_eqb x x = true) by now apply option_string_eqb_eq.
      congruence.
    + now rewrite IH.
Qed.

Lemma group_counts_sum (rows : list Tender.t) (ks : list (option string)) :
  NoDup ks -> (forall r, In r rows -> In (Tender.portal r) ks) ->
  list_sum
    (map (fun k =>
            length (List.filter (fun r => option_string_eqb (Tender.portal r) k) rows))
       ks)
  = length rows.
Proof.
  intros Hnd. induction rows as [|r rows IH]; intros Hcov.
  - clear. induction ks as [|k ks IHk]; [reflexivity|]. exact IHk.
  - assert (Hsplit : forall l,
      list_sum
        (map (fun k =>
                length (List.filter (fun r0 => option_string_eqb (Tender.portal r0) k)
                          (r :: rows))) l)
      = list_sum (map (fun k => if option_string_eqb (Tender.portal r) k then 1 else 0) l)
        + list_sum
            (map (fun k =>
                    length (List.filter
                              (fun r0 => option_string_eqb (Tender.portal r0) k) rows))
               l)).
    { induction l as [|k l IHl]; [reflexivity|].
      assert (Hcons : forall x xs, list_sum (x :: xs) = x + list_sum xs)
        by reflexivity.
      cbn [map]. rewrite !Hcons, IHl. cbn [List.filter].
      destruct (option_string_eqb (Tender.portal r) k); cbn [length]; lia. }
    rewrite Hsplit, IH by (intros r0 H0; apply Hcov; now right).
    rewrite indicator_sum; [reflexivity|assumption|]. apply Hcov. now left.
Qed.

(** X18. In the statistics the per-portal counts partition the active
    tenders: they add up to total_tenders, every portal appears once, and
    the tenders closing soon are among the active ones. *)
Theorem statistics_partition (json_loads : string -> list string)
    (now1 now2 now3 : Z) (db : Store) :
  let stats := get_statistics json_loads now1 now2 now3 db in
  list_sum (map (fun entry => snd (fst entry)) (StatsResponse.by_portal stats))
  = StatsResponse.total_tenders stats /\
  NoDup (map (fun entry => fst (fst entry)) (StatsResponse.by_portal stats)) /\
  StatsResponse.total_tenders stats = length (List.filter Tender.is_active db) /\
  StatsResponse.closing_soon stats <= StatsResponse.total_tenders stats.
Proof.
  cbn zeta. unfold get_statistics.
  cbn [StatsResponse.by_portal StatsResponse.total_tenders StatsResponse.closing_soon].
  set (active := List.filter Tender.is_active db).
  destruct (portals_of_spec active []) as [Hnd Hin].
  rewrite !map_map. cbn [fst snd]. repeat split.
  - apply group_counts_sum; [apply Hnd; constructor|].
    intros r Hr. apply Hin. right. now apply in_map.
  - rewrite map_id. apply Hnd. constructor.
  - apply length_filter_le.
Qed.

Lemma detail_store (json_loads : string -> list string) (tender_id : string)
    (db : Store) :
  snd (get_tender_detail json_loads tender_id db)
  = update_first (fun r => String.eqb (Tender.id r) tender_id)
      bump_download_count db.
Proof.
  unfold get_tender_detail.
  destruct (List.find _ db) as [r|] eqn:Hfind; [reflexivity|].
  cbn [snd]. induction db as [|x db IH]; [reflexivity|].
  simpl in *. destruct (String.eqb (Tender.id x) tender_id); [discriminate|].
  f_equal. now apply IH.
Qed.

Lemma update_first_iter (p : Tender.t -> bool) (f : Tender.t -> Tender.t)
    (db : Store) (k : nat) :
  (forall r, p (f r) = p r) ->
  Nat.iter k (update_first p f) db = update_first p (Nat.iter k f) db.
Proof.
  intros Hp. induction k as [|k IH]; simpl.
  - induction db as [|x db IHdb]; simpl; [reflexivity|].
    destruct (p x); [reflexivity|]. now f_equal.
  - rewrite IH. clear IH. induction db as [|x db IHdb]; simpl; [reflexivity|].
    destruct (p x) eqn:Hx; simpl.
    + assert (Hk : p (Nat.iter k f x) = true).
      { clear IHdb. induction k as [|k IHk]; simpl; [assumption|]. now rewrite Hp. }
      now rewrite Hk.
    + rewrite Hx. now f_equal.
Qed.

Lemma bump_iter (k : nat) (r : Tender.t) :
  Nat.iter k bump_download_count r = add_downloads (Z.of_nat k) r.
Proof.
  induction k as [|k IH].
  - destruct r. unfold add_downloads. simpl. now rewrite Z.add_0_r.
  - rewrite Nat.iter_succ, IH. unfold bump_download_count, add_downloads. simpl.
    f_equal. lia.
Qed.

(** X19. Detail requests add up: after [k] detail requests for a stored
    id the row with that id has [k] more downloads and is otherwise as it
    was, and the rest of the table is untouched. *)
Theorem repeated_detail_counts (json_loads : string -> list string) (db : Store)
    (r : Tender.t) (k : nat) :
  db_ok db -> In r db ->
  exists i,
    db !! i = Some r /\
    Nat.iter k (fun db => snd (get_tender_detail json_loads (Tender.id r) db)) db
    = <[i := add_downloads (Z.of_nat k) r]> db.
Proof.
  intros [Hid _] Hin.
  assert (Hfind := find_by_key_unique Tender.id db r Hid Hin).
  destruct (update_first_insert _ (Nat.iter k bump_download_count) db r Hfind)
    as (i & Hi & Hupd).
  exists i. split; [assumption|].
  rewrite <- (bump_iter k r), <- Hupd.
  rewrite <- (update_first_iter _ bump_download_count db k) by reflexivity.
  clear. revert db. induction k as [|k IH]; intros db; [reflexivity|].
  now rewrite !Nat.iter_succ, IH, detail_store.
Qed.

(** ** Patient waiting *)

Lemma find_regex_loop_spec (polls : nat -> list string) (remaining t : nat) :
  let out := find_regex_loop polls t remaining in
  (fst out = [] /\ snd out = t + remaining /\
   forall k, t <= k < t + remaining -> polls k = []) \/
  (exists k, t <= k < t + remaining /\ polls k = fst out /\ fst out <> [] /\
             snd out = S k /\ forall j, t <= j < k -> polls j = []).
Proof.
  cbn zeta. revert t. induction remaining as [|n IH]; intros t; cbn [find_regex_loop].
  - left. cbn [fst snd]. repeat split; [lia|]. intros k Hk. lia.
  - destruct (polls t) as [|x rest] eqn:Hp.
    + destruct (IH (S t)) as [(Hres & Ht & Hall)|(k & Hk & Hpk & Hne & Ht & Hall)].
      * left. repeat split; [assumption|lia|].
        intros k Hk. destruct (Nat.eq_dec k t) as [->|Hneq]; [assumption|].
        apply Hall. lia.
      * right. exists k. repeat split; try assumption; try lia.
        intros j Hj. destruct (Nat.eq_dec j t) as [->|Hneq]; [assumption|].
        apply Hall. lia.
    + right. exists t. cbn [fst snd]. repeat split; try lia; try congruence.
Qed.

(** X20. [patiently_find_regex] polls at most [max_wait] times. It returns
    None exactly when every one of the [max_wait] polls finds nothing (after
    waiting [max_wait] seconds, at once when [max_wait] is 0); otherwise it
    returns the first match of the first poll that finds something and
    stops there, having waited one second per poll made. *)
Theorem patient_find_bounded (polls : nat -> list string) (max_wait : nat) :
  let waited := snd (find_regex_loop polls 0 max_wait) in
  waited <= max_wait /\
  (patiently_find_regex polls max_wait = None <->
   forall k, k < max_wait -> polls k = []) /\
  (patiently_find_regex polls max_wait = None -> waited = max_wait) /\
  (forall first,
     patiently_find_regex polls max_wait = Some first <->
     exists k rest, k < max_wait /\ polls k = first :: rest /\
                    forall j, j < k -> polls j = []) /\
  (forall first k rest,
     k < max_wait -> polls k = first :: rest ->
     (forall j, j < k -> polls j = []) -> waited = S k).
Proof.
  cbn zeta. unfold patiently_find_regex.
  destruct (find_regex_loop_spec polls max_wait 0)
    as [(Hres & Ht & Hall)|(k & Hk & Hpk & Hne & Ht & Hall)]; cbn zeta in *.
  - rewrite Hres, Ht.
    split; [lia|]. split; [|split; [|split]].
    + split; [|reflexivity]. intros _ k Hk. apply Hall. lia.
    + reflexivity.
    + intros first. split; [discriminate|].
      intros (k & rest & Hk & Hpk & _). rewrite Hall in Hpk by lia. discriminate.
    + intros first k rest Hk Hpk _. rewrite Hall in Hpk by lia. discriminate.
  - destruct (fst (find_regex_loop polls 0 max_wait)) as [|x xs] eqn:Hres;
      [congruence|].
    rewrite Ht.
    assert (Huniq : forall k' first rest,
              k' < max_wait -> polls k' = first :: rest ->
              (forall j, j < k' -> polls j = []) -> k' = k).
    { intros k' first rest Hk' Hpk' Hall'.
      destruct (Nat.lt_trichotomy k' k) as [Hlt|[Heq|Hgt]]; [|assumption|].
      - rewrite Hall in Hpk' by lia. discriminate.
      - rewrite Hall' in Hpk by lia. discriminate. }
    split; [lia|]. split; [|split; [|split]].
    + split; [discriminate|].
      intros Hall0. rewrite Hall0 in Hpk by lia. discriminate.
    + discriminate.
    + intros first. split.
      * intros [= <-]. exists k, xs. split; [lia|]. split; [assumption|].
        intros j Hj. apply Hall. lia.
      * intros (k' & rest & Hk' & Hpk' & Hall').
        assert (k' = k) by (eapply Huniq; eassumption).
        subst k'. congruence.
    + intros first k' rest Hk' Hpk' Hall'.
      assert (k' = k) by (eapply Huniq; eassumption). congruence.
Qed.

Lemma endswith_spec (s suffix : string) :
  endswith s suffix = true <-> exists pre, s = pre +:+ suffix.
Proof.
  induction s as [|c s IH]; cbn [endswith].
  - rewrite orb_false_r, String.eqb_eq. split.
    + intros <-. now exists EmptyString.
    + intros ([|x pre] & H); simpl in H; [assumption|discriminate].
  - rewrite orb_true_iff, String.eqb_eq, IH. split.
    + intros [<-|(pre & ->)]; [now exists EmptyString|].
      now exists (String c pre).
    + intros ([|x pre] & H); simpl in H; [now left|].
      injection H as <- ->. right. now exists pre.
Qed.

Lemma download_loop_spec (initial_files : list string)
    (listings : nat -> list string) (remaining t : nat) :
  download_loop initial_files listings t remaining = true <->
  exists k file, t <= k < t + remaining /\ In file (listings k) /\
                 ~ In file initial_files /\ is_complete_file file = true.
Proof.
  revert t. induction remaining as [|n IH]; intros t; cbn [download_loop].
  - split; [discriminate|]. intros (k & file & Hk & _). lia.
  - destruct (existsb is_complete_file _) eqn:Hex.
    + split; [|reflexivity]. intros _.
      apply existsb_exists in Hex as (file & Hin & Hc).
      apply filter_In in Hin as [Hin Hnew]. apply negb_true_iff in Hnew.
      exists t, file. repeat split; try lia; try assumption.
      intros Habs. apply existsb_eqb_In in Habs. congruence.
    + rewrite IH. split.
      * intros (k & file & Hk & Hrest). exists k, file. split; [lia|assumption].
      * intros (k & file & Hk & Hin & Hnew & Hc).
        destruct (Nat.eq_dec k t) as [->|Hneq].
        -- assert (Ht : existsb is_complete_file
                          (List.filter
                             (fun f => negb (existsb (String.eqb f) initial_files))
                             (listings t)) = true).
           { apply existsb_exists. exists file. split; [|assumption].
             apply filter_In. split; [assumption|]. apply negb_true_iff.
             destruct (existsb (String.eqb file) initial_files) eqn:E; [|reflexivity].
             apply existsb_eqb_In in E. contradiction. }
           congruence.
        -- exists k, file. split; [lia|auto].
Qed.

(** X21. [wait_for_download] returns True exactly when, at one of the
    first [max_wait] polls, the directory lists a file that was not there
    before the action and whose name does not end in .tmp, .crdownload or
    .part. A file present before the action never counts, a partial file
    never counts, and with [max_wait] 0 the answer is False. *)
Theorem download_detected (initial_files : list string)
    (listings : nat -> list string) (max_wait : nat) :
  (wait_for_download initial_files listings max_wait = true <->
   exists k file, k < max_wait /\ In file (listings k) /\
                  ~ In file initial_files /\ is_complete_file file = true) /\
  (forall file,
     is_complete_file file = true <->
     forall pre, file <> pre +:+ ".tmp" /\ file <> pre +:+ ".crdownload" /\
                 file <> pre +:+ ".part") /\
  wait_for_download initial_files listings 0 = false.
Proof.
  split; [|split; [|reflexivity]].
  - unfold wait_for_download. rewrite download_loop_spec. split.
    + intros (k & file & Hk & H). exists k, file. split; [lia|assumption].
    + intros (k & file & Hk & H). exists k, file. split; [lia|assumption].
  - intros file. unfold is_complete_file. cbn [existsb].
    rewrite negb_true_iff, !orb_false_iff. split.
    + intros (H1 & H2 & H3 & _) pre. repeat split; intros ->.
      * assert (Ht : endswith (pre +:+ ".tmp") ".tmp" = true)
          by (apply endswith_spec; eauto). congruence.
      * assert (Ht : endswith (pre +:+ ".crdownload") ".crdownload" = true)
          by (apply endswith_spec; eauto). congruence.
      * assert (Ht : endswith (pre +:+ ".part") ".part" = true)
          by (apply endswith_spec; eauto). congruence.
    + intros H.
      repeat split;
        (match goal with
         | |- endswith ?f ?suf = false =>
             destruct (endswith f suf) eqn:E; [|reflexivity];
             apply endswith_spec in E as [pre Hpre];
             destruct (H pre) as (H1 & H2 & H3); congruence
         end).
Qed.

(** ** Amounts *)

Lemma keep_chars_compose (p q : ascii -> bool) (s : string) :
  keep_chars p (keep_chars q s) = keep_chars (fun c => q c && p c) s.
Proof.
  induction s as [|c s IH]; simpl; [reflexivity|].
  destruct (q c); simpl; [destruct (p c); simpl; now rewrite IH | exact IH].
Qed.

Lemma keep_chars_ext (p q : ascii -> bool) (s : string) :
  (forall c, p c = q c) -> keep_chars p s = keep_chars q s.
Proof.
  intros H. induction s as [|c s IH]; simpl; [reflexivity|].
  now rewrite H, IH.
Qed.

Lemma amount_chars_without_comma (c : ascii) :
  is_amount_char c && negb (nat_of_ascii c =? 44)%nat = is_digit_or_dot c.
Proof. destruct c as [[] [] [] [] [] [] [] []]; reflexivity. Qed.

(** X22. The amount parser reads only the ASCII digits and dots of its
    input: currency symbols, letters, spaces, signs and thousands
    separators make no difference, so a text and the string of its digits
    and dots parse to the same amount ([float] of the empty string raises,
    which is the hypothesis). A text without any digit or dot parses to 0,
    as does the empty text. *)
Theorem amount_ignores_decoration (py_float : string -> option Q) (s : string) :
  py_float EmptyString = None ->
  _parse_value py_float s
  = _parse_value py_float (keep_chars is_digit_or_dot s) /\
  (keep_chars is_digit_or_dot s = EmptyString -> _parse_value py_float s = 0%Q).
Proof.
  intros Hempty.
  assert (Hclean : forall x,
    keep_chars (fun c => negb (nat_of_ascii c =? 44)%nat)
      (keep_chars is_amount_char x)
    = keep_chars is_digit_or_dot x).
  { intros x. rewrite keep_chars_compose.
    apply keep_chars_ext, amount_chars_without_comma. }
  assert (Hidem : keep_chars is_digit_or_dot (keep_chars is_digit_or_dot s)
                  = keep_chars is_digit_or_dot s).
  { rewrite keep_chars_compose. apply keep_chars_ext. intros c.
    now destruct (is_digit_or_dot c). }
  unfold _parse_value. rewrite !Hclean, Hidem.
  destruct (String.eqb_spec s EmptyString) as [->|Hs].
  - now split.
  - destruct (String.eqb_spec (keep_chars is_digit_or_dot s) EmptyString)
      as [->|Hk].
    + rewrite Hempty. now split.
    + split; [reflexivity|]. intros H. contradiction.
Qed.

(** ** The in-process scan *)

Section ScanAllFacts.

Variable lower : string -> string.
Variable list_of_set : list string -> list string.
Variable content_hash : TenderDict.t -> string.
Variable json_dumps : list string -> string.
Variable World : Type.
Variable utcnow : World -> Z * World.
Variable call_scanner :
  string -> list string -> World -> Outcome (list TenderDict.t) * World.

Abbreviation count_one' :=
  (count_one lower list_of_set content_hash json_dumps World utcnow).

Lemma count_one_step (w : World) (db : Store) (n u : nat) (td : TenderDict.t) :
  exists now w1 td1,
    count_one' (w, db, n, u) td
    = (w1, snd (save_tender_to_db content_hash json_dumps now db td1),
       if fst (save_tender_to_db content_hash json_dumps now db td1)
       then n + 1 else n,
       if fst (save_tender_to_db content_hash json_dumps now db td1)
       then u else u + 1).
Proof.
  unfold count_one, enrich_and_save.
  destruct (TenderDict.closing_date _) as [c|].
  - destruct (utcnow w) as [now0 w0]. destruct (utcnow w0) as [now w1].
    match goal with
    | |- context [save_tender_to_db content_hash json_dumps now db ?x] =>
        exists now, w1, x;
        destruct (save_tender_to_db content_hash json_dumps now db x)
          as [[] db1]; reflexivity
    end.
  - destruct (utcnow w) as [now w1].
    match goal with
    | |- context [save_tender_to_db content_hash json_dumps now db ?x] =>
        exists now, w1, x;
        destruct (save_tender_to_db content_hash json_dumps now db x)
          as [[] db1]; reflexivity
    end.
Qed.

Lemma count_loop (tenders : list TenderDict.t) (w : World) (db : Store)
    (n u : nat) :
  exists w' db' n' u',
    fold_left count_one' tenders (w, db, n, u) = (w', db', n', u') /\
    n' + u' = n + u + length tenders /\
    n <= n' /\
    length db' = length db + (n' - n) /\
    (db_ok db -> db_ok db').
Proof.
  revert w db n u. induction tenders as [|td tenders IH]; intros w db n u.
  - exists w, db, n, u. cbn [fold_left length].
    split; [reflexivity|]. split; [lia|]. split; [lia|]. split; [lia|tauto].
  - destruct (count_one_step w db n u td) as (now & w1 & td1 & Hstep).
    cbn [fold_left]. rewrite Hstep.
    destruct (IH w1 (snd (save_tender_to_db content_hash json_dumps now db td1))
                (if fst (save_tender_to_db content_hash json_dumps now db td1)
                 then n + 1 else n)
                (if fst (save_tender_to_db content_hash json_dumps now db td1)
                 then u else u + 1))
      as (w' & db' & n' & u' & Hfold & Hsum & Hle & Hlen & Hok).
    exists w', db', n', u'. split; [exact Hfold|].
    assert (Hsave := save_preserves_db_ok content_hash json_dumps now db td1).
    destruct (save_flag_cases content_hash json_dumps now db td1)
      as [[Hflag [row Hrow]]|[Hflag Hsame]];
      rewrite Hflag in *; cbn [length] in *.
    + rewrite Hrow, length_app in Hlen. cbn [length] in Hlen.
      split; [lia|]. split; [lia|]. split; [lia|].
      intros H. apply Hok, Hsave, H.
    + rewrite Hsame in Hlen.
      split; [lia|]. split; [lia|]. split; [lia|].
      intros H. apply Hok, Hsave, H.
Qed.

Lemma deactivate_expired_db_ok (now : Z) (db : Store) :
  db_ok db -> db_ok (snd (deactivate_expired now db)).
Proof.
  intros [Hid Htid]. unfold deactivate_expired. cbn [snd].
  split; rewrite map_map.
  - erewrite map_ext; [exact Hid|]. intros r. now destruct (is_expired now r).
  - erewrite map_ext; [exact Htid|]. intros r. now destruct (is_expired now r).
Qed.


End ScanAllFacts.

(** ** Instances of the further properties *)

Lemma taken_key_drops_record_witness :
  let td := demo_dict "1" "BC Bid_A" "Coaching workshop" in
  (TenderDict.tender_id td = Some "1" /\
   ~ In "1" (map Tender.tender_id [underscore_row]) /\
   In (derived_id (TenderDict.portal td) "1") (map Tender.id [underscore_row])) /\
  save_tender_to_db demo_hash demo_json_dumps 7 [underscore_row] td
  = (false, [underscore_row]).
Proof.
  intros td.
  assert (Ht : ~ In "1" (map Tender.tender_id [underscore_row]))
    by (simpl; intros [H|[]]; discriminate H).
  assert (Hi : In (derived_id (TenderDict.portal td) "1")
                 (map Tender.id [underscore_row])) by now left.
  split; [now repeat split|].
  exact (taken_key_drops_record demo_hash demo_json_dumps 7 [underscore_row] td "1"
           eq_refl ltac:(discriminate) Ht Hi).
Defined.

Lemma cross_portal_takeover_witness :
  (db_ok [merx_row_123] /\
   Tender.id merx_row_123 = derived_id (Some "MERX") "123" /\
   TenderDict.portal leadership_training = Some "BC Bid" /\
   TenderDict.tender_id leadership_training = Some "123" /\
   demo_hash leadership_training <> Tender.hash merx_row_123 /\
   storable leadership_training = true) /\
  exists updated,
    save_tender_to_db demo_hash demo_json_dumps 42 [merx_row_123]
      leadership_training = (false, [updated]) /\
    Tender.portal updated = Some "BC Bid" /\
    Tender.id updated = "MERX_123".
Proof.
  assert (Hok : db_ok [merx_row_123])
    by (split; simpl; apply NoDup_singleton).
  assert (Hh : demo_hash leadership_training <> Tender.hash merx_row_123)
    by (intros H; vm_compute in H; discriminate H).
  split; [split; [exact Hok|]; split; [reflexivity|]; split; [reflexivity|];
          split; [reflexivity|]; split; [exact Hh|reflexivity]|].
  destruct (cross_portal_takeover demo_hash demo_json_dumps 42 [merx_row_123]
              leadership_training "BC Bid" "MERX" "123" merx_row_123
              Hok ltac:(now left) eq_refl eq_refl eq_refl eq_refl
              ltac:(discriminate) eq_refl ltac:(discriminate) Hh eq_refl)
    as (i & updated & Hi & Hres & Hp & _ & _ & Hid & _).
  destruct i as [|i]; [|destruct i; discriminate Hi].
  exists updated. rewrite Hres, Hp, Hid. now repeat split.
Defined.

Lemma sweep_purges_long_expired_witness :
  (db_ok [closed_at_zero; merx_row_123] /\
   Tender.is_active closed_at_zero = true /\
   Tender.closing_date closed_at_zero = Some 0%Z /\
   (0 < 200 * day_us)%Z /\ (0 < 200 * day_us - 180 * day_us)%Z) /\
  ~ In (Tender.id closed_at_zero)
      (map Tender.id
         (snd (clean_expired_tenders (200 * day_us) (200 * day_us)
                 [closed_at_zero; merx_row_123]))).
Proof.
  assert (Hok : db_ok [closed_at_zero; merx_row_123]).
  { split; apply NoDup_ListNoDup; simpl;
      (apply List.NoDup_cons;
       [intros [H|[]]; discriminate H
       |apply List.NoDup_cons; [intros []|apply List.NoDup_nil]]). }
  split; [repeat split; apply Hok|].
  exact (proj1 (sweep_purges_long_expired (200 * day_us) (200 * day_us)
                  [closed_at_zero; merx_row_123] closed_at_zero 0 Hok
                  ltac:(now left) eq_refl eq_refl eq_refl eq_refl)).
Defined.

Lemma categories_imply_keywords_witness :
  _extract_categories_from_text ascii_lower "Agile coach and Scrum Master" <> [] /\
  2 <= length (_extract_keywords_from_text ascii_lower
                 "Agile coach and Scrum Master").
Proof.
  assert (H : _extract_categories_from_text ascii_lower
                "Agile coach and Scrum Master" <> [])
    by (intros H; vm_compute in H; discriminate H).
  split; [exact H|].
  exact (categories_imply_keywords ascii_lower "Agile coach and Scrum Master" H).
Defined.

Lemma matched_courses_witness :
  (forall xs x, In x (demo_list_of_set xs) -> In x xs) /\
  length (match_courses ascii_lower demo_list_of_set
            (demo_dict "T-3" "MERX" "Leadership training for managers")) <= 5.
Proof.
  assert (H : forall xs x, In x (demo_list_of_set xs) -> In x xs).
  { intros xs x. unfold demo_list_of_set.
    rewrite <- !list_elem_of_In, elem_of_remove_dups. tauto. }
  split; [exact H|].
  exact (proj1 (matched_courses ascii_lower demo_list_of_set
                  (demo_dict "T-3" "MERX" "Leadership training for managers") H)).
Defined.

Lemma priority_monotone_witness :
  let td := demo_dict_closing "T-4" "MERX" "Facilitation workshop" (20 * day_us) in
  ((0 <= 15 * day_us)%Z /\ (TenderDict.value td <= TenderDict.value td)%Q) /\
  priority_rank (calculate_priority 0 td)
  <= priority_rank (calculate_priority (15 * day_us) td).
Proof.
  intros td. split; [split; [unfold day_us; lia|apply Qle_refl]|].
  exact (priority_monotone 0 (15 * day_us) td td eq_refl
           ltac:(unfold day_us; lia)
           (Qle_refl _) (le_n _) (le_n _)).
Defined.

Lemma plain_batch_needs_no_driver_witness :
  let s := {| world := 0; db := []; driver := false; results := initial_results |} in
  Forall
    (fun portal_id =>
       forall config, dict_get PORTAL_CONFIGS portal_id = Some config ->
         default false (Portal.requires_selenium config) = false)
    ["nl"; "winnipeg"] /\
  _execute_scans_async ascii_lower demo_list_of_set demo_hash demo_json_dumps
    nat demo_utcnow demo_get_driver demo_call_static demo_call_method
    ["nl"; "winnipeg"] s
  = _execute_scans_async ascii_lower demo_list_of_set demo_hash demo_json_dumps
      nat demo_utcnow (fun w => (Raised "grid unreachable", w)) demo_call_static
      (fun _ _ w => (Raised "no driver", w)) ["nl"; "winnipeg"] s.
Proof.
  intros s.
  assert (H : Forall
    (fun portal_id =>
       forall config, dict_get PORTAL_CONFIGS portal_id = Some config ->
         default false (Portal.requires_selenium config) = false)
    ["nl"; "winnipeg"]).
  { apply List.Forall_cons; [intros config [= <-]; reflexivity|].
    apply List.Forall_cons; [intros config [= <-]; reflexivity|].
    apply List.Forall_nil. }
  split; [exact H|].
  exact (proj1 (plain_batch_needs_no_driver ascii_lower demo_list_of_set demo_hash
                  demo_json_dumps nat demo_utcnow demo_get_driver
                  (fun w => (Raised "grid unreachable", w)) demo_call_static
                  demo_call_method (fun _ _ w => (Raised "no driver", w))
                  ["nl"; "winnipeg"] s H)).
Defined.


Lemma repeated_detail_counts_witness :
  (db_ok [merx_row_123] /\ In merx_row_123 [merx_row_123]) /\
  Nat.iter 3
    (fun db => snd (get_tender_detail (fun _ => []) "MERX_123" db))
    [merx_row_123]
  = [add_downloads 3 merx_row_123].
Proof.
  assert (Hok : db_ok [merx_row_123])
    by (split; simpl; apply NoDup_singleton).
  split; [split; [exact Hok|now left]|].
  destruct (repeated_detail_counts (fun _ => []) [merx_row_123] merx_row_123 3
              Hok ltac:(now left)) as (i & Hi & Hres).
  destruct i as [|i]; [|destruct i; discriminate Hi].
  exact Hres.
Defined.

Lemma amount_ignores_decoration_witness :
  demo_float EmptyString = None /\
  keep_chars is_digit_or_dot "$1,250 CAD" = "1250" /\
  _parse_value demo_float "$1,250 CAD" = _parse_value demo_float "1250".
Proof.
  split; [reflexivity|]. split; [reflexivity|].
  exact (proj1 (amount_ignores_decoration demo_float "$1,250 CAD" eq_refl)).
Defined.
